(** * The state-activation engine of ai_mind: a shallow embedding

    The Python sources [ai_mind1.py], [ai_mind2.py], [ai_mind3.py] and the
    scripts under [experiments/] are embedded as Rocq functions.

    Modelling conventions.
    - Activation levels and weights are Python floats in the source.  They are
      embedded as exact rationals ([Q]); rounding is not modelled, so every
      statement below is about the real-number reading of the arithmetic.
      The value of a level is stated up to [==] ([Qeq]); an equation between
      stores, or between look-ups, says that both sides are built by the same
      arithmetic.  Where the exact value meets a threshold with equality the
      binary64 value may fall on the other side of it: a statement that
      compares two computations at a threshold leaves a margin around it.
    - A Python [dict] keeps its keys in insertion order, assignment to a
      present key keeps its position, assignment to an absent key appends.
      It is embedded as an association list with exactly these operations.
    - The answers of the external language model (the collaborators of the
      engine) are inputs of the embedded functions.
    - Methods run one after the other: the interleaving of the delayed
      analysis of ai_mind3.py with the next turn is not modelled.
    - A recursive Python function that may not return is given a fuel
      argument and an [option] result; [None] means the fuel ran out.  The
      interpreter ends a recursion that is too deep with [RecursionError];
      its limit is not modelled, and [RecursionError] stands here for a
      recursion that the given depth does not complete. *)

From Stdlib Require Import QArith Qminmax Lqa.
From Stdlib Require Import String List ListDec Bool Arith Lia.
From Stdlib Require Import DecimalString DecimalNat Sorted Permutation.
Import ListNotations.

Local Open Scope string_scope.
Local Open Scope list_scope.
Local Open Scope Q_scope.

(** ** Python built-ins used by the engine *)

Module Py.

(** [min(a, b)] returns [a] unless [b < a]. *)
Definition min (a b : Q) : Q := if Qlt_le_dec b a then b else a.

(** [max(a, b)] returns [a] unless [b > a]. *)
Definition max (a b : Q) : Q := if Qlt_le_dec a b then b else a.

Section Dict.
Context {V : Type}.

Definition dict := list (string * V).

(** [d.get(k)], [None] when the key is absent. *)
Fixpoint get (d : dict) (k : string) : option V :=
  match d with
  | [] => None
  | (k', v) :: d' => if String.eqb k k' then Some v else get d' k
  end.

(** [k in d] *)
Definition mem (d : dict) (k : string) : bool :=
  match get d k with Some _ => true | None => false end.

(** [d[k] = v] *)
Fixpoint set (d : dict) (k : string) (v : V) : dict :=
  match d with
  | [] => [(k, v)]
  | (k', v') :: d' =>
      if String.eqb k k' then (k', v) :: d' else (k', v') :: set d' k v
  end.

(** [del d[k]]; the engine deletes only keys that are present. *)
Fixpoint del (d : dict) (k : string) : dict :=
  match d with
  | [] => []
  | (k', v') :: d' =>
      if String.eqb k k' then d' else (k', v') :: del d' k
  end.

(** [list(d.keys())] *)
Definition keys (d : dict) : list string := map fst d.

End Dict.

Arguments dict V : clear implicits.

(** A Python [set] of names: a list without repetition.  The engine only
    tests membership and visits every element once, so the order in which
    CPython would enumerate the set is not modelled. *)
Definition set_add (s : list string) (x : string) : list string :=
  if existsb (String.eqb x) s then s else s ++ [x].

(** [s.update(t)] *)
Definition set_update (s t : list string) : list string :=
  fold_left set_add t s.

(** The exceptions the embedded code can raise. *)
Inductive exception :=
| KeyError (key : string)
| TypeError
| AttributeError
| RecursionError.

(** How a call ends: with a value, or with an exception. *)
Inductive completion (A : Type) :=
| Return (a : A)
| Raise (e : exception).

Arguments Return {A} a.
Arguments Raise {A} e.

(** What [json.load] produces. *)
#[warnings="-register-all"]
Inductive json :=
| JNull
| JBool (b : bool)
| JNumber (q : Q)
| JString (s : string)
| JArray (items : list json)
| JObject (members : list (string * json)).

End Py.

Import Py (dict).

(** The nodes of the state tree, as the engine reads them: the value under
    the key "название", the list under "условия" ([[]] when the key is
    absent, as in [node.get("условия", [])]) and the optional number under
    "вес". *)
Record state_node := mk_node {
  node_name : string;
  node_conditions : list string;
  node_weight : option Q
}.

Definition states_tree := list state_node.

(** [parent_name in node.get("условия", [])] *)
Definition in_conditions (parent_name : string) (node : state_node) : bool :=
  existsb (String.eqb parent_name) (node_conditions node).

(** The tree of [experiments/test_state_propagation.py]. *)
Definition test_tree : states_tree :=
  [ mk_node "Пустота" [] (Some 0.0);
    mk_node "Тревога" ["Пустота"] (Some 0.0);
    mk_node "Гнев" ["Тревога"] (Some 0.0);
    mk_node "Объективизация" ["Гнев"] (Some 0.0);
    mk_node "Сомнение" ["Тревога"] (Some 0.0) ].

(** A node of the tree as [json.load] returns it from a file. *)
Definition json_node (name : string) (conditions : list string) : Py.json :=
  Py.JObject [ ("название", Py.JString name);
               ("условия", Py.JArray (map Py.JString conditions));
               ("вес", Py.JNumber 0.0) ].

(** The typed reading of a loaded tree.  The engine handles the nodes as
    untyped objects; the embedding follows it on the trees that are a list of
    objects with a string under "название", a list of strings under
    "условия" when the key is present, and a number under "вес" when the key
    is present.  [None] is any other value. *)
Fixpoint strings_of_json (items : list Py.json) : option (list string) :=
  match items with
  | [] => Some []
  | Py.JString s :: rest => option_map (cons s) (strings_of_json rest)
  | _ :: _ => None
  end.

Definition node_of_json (node : Py.json) : option state_node :=
  match node with
  | Py.JObject members =>
      match Py.get members "название" with
      | Some (Py.JString name) =>
          let conditions :=
            match Py.get members "условия" with
            | None => Some []
            | Some (Py.JArray items) => strings_of_json items
            | Some _ => None
            end in
          let weight :=
            match Py.get members "вес" with
            | None => Some None
            | Some (Py.JNumber q) => Some (Some q)
            | Some _ => None
            end in
          match conditions, weight with
          | Some conditions, Some weight => Some (mk_node name conditions weight)
          | _, _ => None
          end
      | _ => None
      end
  | _ => None
  end.

Definition tree_of_json (tree : Py.json) : option states_tree :=
  match tree with
  | Py.JArray items =>
      fold_right (fun item acc =>
                    match node_of_json item, acc with
                    | Some node, Some nodes => Some (node :: nodes)
                    | _, _ => None
                    end)
                 (Some []) items
  | _ => None
  end.

(** The file of [experiments/test_state_propagation.py], had the tree been
    loaded from one. *)
Definition test_document : Py.json :=
  Py.JObject
    [ ("состояния",
       Py.JArray [ json_node "Пустота" [];
                   json_node "Тревога" ["Пустота"];
                   json_node "Гнев" ["Тревога"];
                   json_node "Объективизация" ["Гнев"];
                   json_node "Сомнение" ["Тревога"] ]) ].

(** The body of the loops [for state in list(self.active_nodes.keys())] of
    ai_mind1.py and ai_mind2.py, which multiply the entry by [factor state]
    and delete it when it has fallen below 0.1. *)
Definition fade (factor : string -> Q) (active : dict Q) (state : string)
  : dict Q :=
  match Py.get active state with
  | Some current =>
      let faded := current * factor state in
      let active' := Py.set active state faded in
      if Qlt_le_dec faded 0.1 then Py.del active' state else active'
  | None => active
  end.

(** ** ai_mind1.py: class EmotionalMind *)

Module EmotionalMindV1.

(** [self.states_tree = mind_data["технологии"]] in [__init__]. *)
Definition load_states_tree (mind_data : Py.json) : Py.completion Py.json :=
  match mind_data with
  | Py.JObject members =>
      match Py.get members "технологии" with
      | Some v => Py.Return v
      | None => Py.Raise (Py.KeyError "технологии")
      end
  | _ => Py.Raise Py.TypeError
  end.

(** [self.trigger_nodes] *)
Definition trigger_nodes : list string :=
  ["Уточнение"; "Вывод"; "Признание"; "Гнев"; "Сомнение"].

(** [self.active_nodes.get(node, 0.0)]: how the engine reads the level of a
    state that the store may not hold. *)
Definition activation (active : dict Q) (node : string) : Q :=
  match Py.get active node with Some a => a | None => 0.0 end.

(** [calculate_pressure] *)
Definition calculate_pressure (active : dict Q) : Q :=
  Py.min (fold_left (fun pressure node => pressure + activation active node)
                    trigger_nodes 0.0)
         1.0.

(** First loop of [update_activation]: [for state in states_to_deactivate]. *)
Definition deactivate_state (active : dict Q) (state : string) : dict Q :=
  match Py.get active state with
  | Some current => Py.set active state (current * 0.3)
  | None => active
  end.

(** Second loop of [update_activation]: [for state in states_to_activate]. *)
Definition activate_state (active : dict Q) (state : string) : dict Q :=
  match Py.get active state with
  | Some current => Py.set active state (Py.min 1.0 (current + 0.4))
  | None => Py.set active state 0.7
  end.

(** [update_activation(states_to_activate, states_to_deactivate)] *)
Definition update_activation (states_to_activate states_to_deactivate : list string)
  (active : dict Q) : dict Q :=
  let active1 := fold_left deactivate_state states_to_deactivate active in
  let active2 := fold_left activate_state states_to_activate active1 in
  fold_left (fade (fun _ => 0.95)) (Py.keys active2) active2.

(** The loop [for trigger in ['Уточнение', 'Вывод']] that follows a response
    in [process_message]. *)
Definition catharsis (active : dict Q) : dict Q :=
  fold_left (fun active trigger =>
               match Py.get active trigger with
               | Some current => Py.set active trigger (current * 0.4)
               | None => active
               end)
            ["Уточнение"; "Вывод"] active.

End EmotionalMindV1.

(** ** ai_mind2.py: class EmotionalMind *)

Module EmotionalMind.

(** [mind_data.get("состояния", mind_data.get("технологии", []))], the
    value bound to [self.states_tree] in [__init__]. *)
Definition load_states_tree (mind_data : Py.json) : Py.completion Py.json :=
  match mind_data with
  | Py.JObject members =>
      let fallback :=
        match Py.get members "технологии" with
        | Some v => v
        | None => Py.JArray []
        end in
      match Py.get members "состояния" with
      | Some v => Py.Return v
      | None => Py.Return fallback
      end
  | _ => Py.Raise Py.AttributeError
  end.

(** [self.active_nodes]: state name to activation level. *)
Definition active_nodes := dict Q.

(** [find_children]: the names of the nodes that list [parent_name] among
    their conditions, in tree order. *)
Fixpoint find_children (tree : states_tree) (parent_name : string) : list string :=
  match tree with
  | [] => []
  | node :: rest =>
      if in_conditions parent_name node
      then node_name node :: find_children rest parent_name
      else find_children rest parent_name
  end.

(** The body of the loop [for child in children] of [propagate_activation]. *)
Definition accumulate (influence : Q) (new_activations : dict Q) (child : string)
  : dict Q :=
  match Py.get new_activations child with
  | Some acc => Py.set new_activations child (Py.min 1.0 (acc + influence))
  | None => Py.set new_activations child influence
  end.

(** The body of the loop [for state_name, activation in list(items)]. *)
Definition spread (tree : states_tree) (new_activations : dict Q)
  (item : string * Q) : dict Q :=
  let (state_name, activation) := item in
  if Qlt_le_dec activation 0.1 then new_activations
  else fold_left (accumulate (activation * 0.5))
                 (find_children tree state_name) new_activations.

(** [new_activations] at the end of the first inner loop of one iteration. *)
Definition collect_influence (tree : states_tree) (active : active_nodes) : dict Q :=
  fold_left (spread tree) active [].

(** The body of the loop [for state, value in new_activations.items()]. *)
Definition apply_influence (active : active_nodes) (item : string * Q)
  : active_nodes :=
  let (state, value) := item in
  match Py.get active state with
  | Some current => Py.set active state (Py.min 1.0 (current + value))
  | None => if Qlt_le_dec 0.2 value then Py.set active state value else active
  end.

(** One pass of the outer loop [for iteration in range(iterations)]. *)
Definition propagate_iteration (tree : states_tree) (active : active_nodes)
  : active_nodes :=
  fold_left apply_influence (collect_influence tree active) active.

(** [propagate_activation(iterations)] *)
Fixpoint propagate_activation (tree : states_tree) (iterations : nat)
  (active : active_nodes) : active_nodes :=
  match iterations with
  | O => active
  | S n => propagate_activation tree n (propagate_iteration tree active)
  end.

(** [self.urgency_weights] *)
Definition urgency_weights : dict Q :=
  [ ("Гнев", 0.9); ("Уточнение", 0.7); ("Вывод", 0.8); ("Признание", 0.7);
    ("Сомнение", 0.3); ("О грёзах", 0.1); ("Тревога", 0.6); ("Сожаление", 0.4) ].

(** [self.urgency_weights.get(state, 0.5)] *)
Definition urgency_weight (table : dict Q) (state : string) : Q :=
  match Py.get table state with Some w => w | None => 0.5 end.

(** [calculate_pressure], over the weight table [table]
    ([urgency_weights] in the engine). *)
Definition calculate_pressure_with (table : dict Q) (active : active_nodes) : Q :=
  let pressure :=
    fold_left (fun pressure (item : string * Q) =>
                 let (state, activation) := item in
                 pressure + activation * urgency_weight table state)
              active 0.0 in
  Py.min pressure 1.0.

Definition calculate_pressure : active_nodes -> Q :=
  calculate_pressure_with urgency_weights.

(** [get_high_activation_nodes(threshold)] *)
Definition get_high_activation_nodes (threshold : Q) (active : active_nodes)
  : list string :=
  Py.keys (filter (fun item : string * Q =>
                     if Qlt_le_dec threshold (snd item) then true else false)
                  active).

(** [state in self.nodes_map]: some node of the tree carries the name. *)
Definition in_nodes_map (tree : states_tree) (state : string) : bool :=
  existsb (fun node => String.eqb state (node_name node)) tree.

(** First loop of [update_activation]: [for state in states_to_activate]. *)
Definition activate_state (tree : states_tree) (active : active_nodes)
  (state : string) : active_nodes :=
  if in_nodes_map tree state then
    match Py.get active state with
    | Some current => Py.set active state (Py.min 1.0 (current + 0.4))
    | None => Py.set active state 0.7
    end
  else active.

(** Second loop of [update_activation]: [for state in states_to_increase]. *)
Definition increase_state (active : active_nodes) (state : string)
  : active_nodes :=
  match Py.get active state with
  | Some current => Py.set active state (Py.min 1.0 (current + 0.2))
  | None => active
  end.

(** Third loop of [update_activation]: the natural fading of all states. *)
Definition ambient_decay (active : active_nodes) : active_nodes :=
  fold_left (fade (fun _ => 0.92)) (Py.keys active) active.

(** The first two loops of [update_activation], which apply the answer of
    the empathy request. *)
Definition raise_activation (tree : states_tree)
  (states_to_activate states_to_increase : list string)
  (active : active_nodes) : active_nodes :=
  let active1 := fold_left (activate_state tree) states_to_activate active in
  fold_left increase_state states_to_increase active1.

(** [update_activation(states_to_activate, states_to_increase)] *)
Definition update_activation (tree : states_tree)
  (states_to_activate states_to_increase : list string)
  (active : active_nodes) : active_nodes :=
  ambient_decay
    (raise_activation tree states_to_activate states_to_increase active).

(** [self.trigger_nodes] *)
Definition trigger_nodes : list string :=
  ["Уточнение"; "Вывод"; "Признание"; "Гнев"; "Сомнение"].

(** [reduce_weights_after_response] *)
Definition reduce_weights_after_response (active : active_nodes) : active_nodes :=
  fold_left
    (fade (fun state =>
             if existsb (String.eqb state) trigger_nodes then 0.4 else 0.7))
    (Py.keys active) active.

(** An entry of [self.short_term_memory]. *)
Record memory_entry := mk_entry {
  entry_states : dict Q;
  entry_empathy_target : option (list string);
  entry_timestamp : nat
}.

(** The mutable fields of an [EmotionalMind] object that the engine uses. *)
Record mind := mk_mind {
  mind_active_nodes : active_nodes;
  conversation_history : list (string * string);
  short_term_memory : list memory_entry;
  empathy_target : option (list string)
}.

(** The object at the end of [__init__]. *)
Definition init_mind : mind := mk_mind [] [] [] None.

(** [{k: v for k, v in self.active_nodes.items() if v > 0.3}] *)
Definition significant_states (active : active_nodes) : dict Q :=
  filter (fun item : string * Q =>
            if Qlt_le_dec 0.3 (snd item) then true else false) active.

(** [self.short_term_memory.pop(0)] *)
Definition pop0 {A : Type} (l : list A) : list A := tl l.

(** [archive_current_state] *)
Definition archive_current_state (m : mind) : mind :=
  match significant_states (mind_active_nodes m) with
  | [] => m
  | significant =>
      let memory_entry :=
        mk_entry significant (empathy_target m)
                 (List.length (conversation_history m)) in
      let memory := short_term_memory m ++ [memory_entry] in
      mk_mind (mind_active_nodes m) (conversation_history m)
              (if (5 <? List.length memory)%nat then pop0 memory else memory)
              (empathy_target m)
  end.

(** What the four language-model requests of one turn answer:
    [user_analysis.get("states", [])], [empathy_response.get("activate", [])],
    [empathy_response.get("increase_weight", [])],
    [response_decision.get("respond", False)],
    [response_decision.get("themes", [])] and the generated text. *)
Record replies := mk_replies {
  user_states : list string;
  states_to_activate : list string;
  states_to_increase : list string;
  should_respond : bool;
  response_themes : list string;
  response : string
}.

(** [process_message(user_input)]: the new object and the returned text.
    [update_world_model] touches only the knowledge file and is left out. *)
Definition process_message (tree : states_tree) (user_input : string)
  (r : replies) (m : mind) : mind * option string :=
  let active1 :=
    update_activation tree (states_to_activate r) (states_to_increase r)
                      (mind_active_nodes m) in
  let active2 := propagate_activation tree 3 active1 in
  let history := conversation_history m ++ [("user", user_input)] in
  let m1 := mk_mind active2 history (short_term_memory m) (Some (user_states r)) in
  if should_respond r && negb (match response_themes r with [] => true | _ => false end)
  then
    let m2 := archive_current_state m1 in
    let m3 := mk_mind (mind_active_nodes m2)
                      (conversation_history m2 ++ [("bot", response r)])
                      (short_term_memory m2) (empathy_target m2) in
    (mk_mind (reduce_weights_after_response (mind_active_nodes m3))
             (conversation_history m3) (short_term_memory m3) (empathy_target m3),
     Some (response r))
  else (m1, None).

End EmotionalMind.

(** ** ai_mind3.py: class EmotionalMindV3 *)

Module EmotionalMindV3.

(** [self.states_tree = mind_data["состояния"]] in [__init__]. *)
Definition load_states_tree (mind_data : Py.json) : Py.completion Py.json :=
  match mind_data with
  | Py.JObject members =>
      match Py.get members "состояния" with
      | Some v => Py.Return v
      | None => Py.Raise (Py.KeyError "состояния")
      end
  | _ => Py.Raise Py.TypeError
  end.

(** [self.states_dict = {state["название"]: state for state in states_tree}] *)
Definition states_dict (tree : states_tree) : dict state_node :=
  fold_left (fun d state => Py.set d (node_name state) state) tree [].

(** [self.state_weights]: state name to weight. *)
Definition state_weights := dict Q.

(** [{state["название"]: state.get("вес", 0.0) for state in states_tree}] *)
Definition init_state_weights (tree : states_tree) : state_weights :=
  fold_left
    (fun d state =>
       Py.set d (node_name state)
              (match node_weight state with Some w => w | None => 0.0 end))
    tree [].

(** [self.spontaneous_threshold] *)
Definition spontaneous_threshold : Q := 1.0.

(** The body of the loop [for condition in conditions] of
    [_get_parent_states]; [recurse] is the recursive call and [None] a call
    that has not come back. *)
Definition visit_condition (sd : dict state_node)
  (recurse : string -> option (list string))
  (acc : option (list string)) (condition : string) : option (list string) :=
  match acc with
  | None => None
  | Some parents =>
      if Py.mem sd condition then
        match recurse condition with
        | None => None
        | Some more => Some (Py.set_update (Py.set_add parents condition) more)
        end
      else Some parents
  end.

(** [_get_parent_states(state_name)].  The Python function calls itself on
    every condition that is a known state and keeps no record of the states
    it has visited; [fuel] bounds the depth of the calls. *)
Fixpoint _get_parent_states (fuel : nat) (sd : dict state_node)
  (state_name : string) : option (list string) :=
  match fuel with
  | O => None
  | S fuel' =>
      match Py.get sd state_name with
      | None => Some []
      | Some node =>
          fold_left (visit_condition sd (_get_parent_states fuel' sd))
                    (node_conditions node) (Some [])
      end
  end.

(** Methods that update [self.state_weights] and may raise: a state and
    exception monad over the weight table. *)
Definition action (A : Type) := state_weights -> Py.completion A * state_weights.

Definition ret {A : Type} (a : A) : action A := fun w => (Py.Return a, w).

Definition raise {A : Type} (e : Py.exception) : action A :=
  fun w => (Py.Raise e, w).

Definition bind {A B : Type} (c : action A) (k : A -> action B) : action B :=
  fun w =>
    match c w with
    | (Py.Return a, w') => k a w'
    | (Py.Raise e, w') => (Py.Raise e, w')
    end.

Notation "x <- c ;; k" := (bind c (fun x => k))
  (at level 61, c at next level, right associativity).
Notation "c ;; k" := (bind c (fun _ => k))
  (at level 61, right associativity).

(** [name in self.state_weights] *)
Definition known (name : string) : action bool :=
  fun w => (Py.Return (Py.mem w name), w).

(** [self.state_weights[name]] as an expression *)
Definition weight_of (name : string) : action Q :=
  fun w =>
    match Py.get w name with
    | Some v => (Py.Return v, w)
    | None => (Py.Raise (Py.KeyError name), w)
    end.

(** [self.state_weights[name] = v] *)
Definition store (name : string) (v : Q) : action unit :=
  fun w => (Py.Return tt, Py.set w name v).

(** [for x in l: body(x)] *)
Fixpoint for_each {A : Type} (l : list A) (body : A -> action unit) : action unit :=
  match l with
  | [] => ret tt
  | x :: rest => body x ;; for_each rest body
  end.

(** [self._get_parent_states(state_name)] inside a method: running out of
    fuel is the recursion that does not come back. *)
Definition parent_states_of (fuel : nat) (sd : dict state_node)
  (state_name : string) : action (list string) :=
  match _get_parent_states fuel sd state_name with
  | Some parents => ret parents
  | None => raise Py.RecursionError
  end.

(** [increase_state_weight(state_name, amount)] *)
Definition increase_state_weight (fuel : nat) (sd : dict state_node)
  (state_name : string) (amount : Q) : action unit :=
  present <- known state_name ;;
  if negb present then ret tt
  else
    current <- weight_of state_name ;;
    store state_name (Py.min 1.0 (current + amount)) ;;
    parent_states <- parent_states_of fuel sd state_name ;;
    for_each parent_states
      (fun parent =>
         current <- weight_of parent ;;
         store parent (Py.min 1.0 (current + amount * 0.5))).

(** [decrease_state_weight(state_name, amount)] *)
Definition decrease_state_weight (state_name : string) (amount : Q)
  : action unit :=
  present <- known state_name ;;
  if negb present then ret tt
  else
    current <- weight_of state_name ;;
    store state_name (Py.max 0.0 (current - amount)).

(** [get_triggered_states]: the names whose weight is at least the
    threshold, in table order. *)
Definition get_triggered_states (w : state_weights) : list string :=
  Py.keys (filter (fun item : string * Q =>
                     if Qlt_le_dec (snd item) spontaneous_threshold
                     then false else true) w).

(** The weight updates of [process_message]: every detected state known to
    the table is increased by 0.2. *)
Definition process_message (fuel : nat) (sd : dict state_node)
  (detected_states : list string) : action unit :=
  for_each detected_states
    (fun state =>
       present <- known state ;;
       if present then increase_state_weight fuel sd state 0.2 else ret tt).

(** The weight updates of [generate_spontaneous_response]. *)
Definition generate_spontaneous_response : action unit :=
  fun w =>
    for_each (get_triggered_states w)
             (fun state => decrease_state_weight state 0.4) w.

(** [delayed_analysis] after its sleep: the corrections asked by the model,
    then the check of the triggers.  The result is the list [triggered];
    the spontaneous response is generated exactly when it is not empty. *)
Definition delayed_analysis (fuel : nat) (sd : dict state_node)
  (increase decrease : list string) : action (list string) :=
  for_each increase (fun state => increase_state_weight fuel sd state 0.15) ;;
  for_each decrease (fun state => decrease_state_weight state 0.15) ;;
  fun w =>
    let triggered := get_triggered_states w in
    match triggered with
    | [] => (Py.Return triggered, w)
    | _ => (generate_spontaneous_response ;; ret triggered) w
    end.

End EmotionalMindV3.

(** ** ai_mind3.py: the spontaneous response in the conversation *)

(** [generate_spontaneous_response] leaves a trace besides the weights: it
    appends its text to [self.conversation_history].  The methods that the
    check of the triggers involves are given here on both fields. *)
Module SessionV3.

(** An element of [self.conversation_history]: the keys "role" and
    "content". *)
Record message := mk_message {
  message_role : string;
  message_content : string
}.

(** The fields of the engine that [delayed_analysis] reads or writes. *)
Record mind := mk_mind {
  mind_state_weights : EmotionalMindV3.state_weights;
  mind_conversation_history : list message
}.

(** The entry that [generate_spontaneous_response] appends to the history;
    [spontaneous_text] is [response_data.get("text", "...")], the answer of
    the model. *)
Definition spontaneous_message (spontaneous_text : string) : message :=
  mk_message "бот (спонтанно)" spontaneous_text.

(** [generate_spontaneous_response]: [triggered_states] is read first, the
    text is appended to the history, then every triggered state is lowered
    by 0.4. *)
Definition generate_spontaneous_response (spontaneous_text : string)
  (m : mind) : Py.completion unit * mind :=
  let triggered_states :=
    EmotionalMindV3.get_triggered_states (mind_state_weights m) in
  let history :=
    mind_conversation_history m ++ [spontaneous_message spontaneous_text] in
  let (outcome, w) :=
    EmotionalMindV3.for_each
      triggered_states
      (fun state => EmotionalMindV3.decrease_state_weight state 0.4)
      (mind_state_weights m) in
  (outcome, mk_mind w history).

(** The corrections of [delayed_analysis]: the loops over
    [result.get("increase", [])] and [result.get("decrease", [])]. *)
Definition corrections (fuel : nat) (sd : dict state_node)
  (increase decrease : list string) : EmotionalMindV3.action unit :=
  EmotionalMindV3.bind
    (EmotionalMindV3.for_each
       increase
       (fun state => EmotionalMindV3.increase_state_weight fuel sd state 0.15))
    (fun _ =>
       EmotionalMindV3.for_each
         decrease
         (fun state => EmotionalMindV3.decrease_state_weight state 0.15)).

(** [delayed_analysis] after its sleep: the corrections, then
    [triggered = self.get_triggered_states()] and, [if triggered], the
    spontaneous response.  The result is the list [triggered]. *)
Definition delayed_analysis (fuel : nat) (sd : dict state_node)
  (increase decrease : list string) (spontaneous_text : string) (m : mind)
  : Py.completion (list string) * mind :=
  match corrections fuel sd increase decrease (mind_state_weights m) with
  | (Py.Raise e, w) => (Py.Raise e, mk_mind w (mind_conversation_history m))
  | (Py.Return _, w) =>
      let corrected := mk_mind w (mind_conversation_history m) in
      let triggered := EmotionalMindV3.get_triggered_states w in
      match triggered with
      | [] => (Py.Return triggered, corrected)
      | _ =>
          match generate_spontaneous_response spontaneous_text corrected with
          | (Py.Return _, m') => (Py.Return triggered, m')
          | (Py.Raise e, m') => (Py.Raise e, m')
          end
      end
  end.

End SessionV3.

(** The tree of [experiments/test_state_propagation.py] with one more
    condition: "Пустота" lists "Гнев", which closes a cycle. *)
Definition cyclic_tree : states_tree :=
  [ mk_node "Пустота" ["Гнев"] (Some 0.0);
    mk_node "Тревога" ["Пустота"] (Some 0.0);
    mk_node "Гнев" ["Тревога"] (Some 0.0) ].

(** ** Sequences of engine operations *)

Module Engine.

(** The operations of the three engines that change a store of levels
    ([active_nodes] in ai_mind1.py and ai_mind2.py, [state_weights] in
    ai_mind3.py). *)
Inductive operation :=
| UpdateActivationV1 (states_to_activate states_to_deactivate : list string)
| CatharsisV1
| UpdateActivation (states_to_activate states_to_increase : list string)
| PropagateActivation (iterations : nat)
| AmbientDecay
| ReduceWeightsAfterResponse
| ProcessMessage (user_input : string) (r : EmotionalMind.replies)
| IncreaseStateWeight (state_name : string) (amount : Q)
| DecreaseStateWeight (state_name : string) (amount : Q)
| ProcessMessageV3 (detected_states : list string)
| DelayedAnalysis (increase decrease : list string).

(** The store after one operation.  For the methods of ai_mind3.py it is
    the store the call leaves behind, also when the call raises. *)
Definition run_operation (tree : states_tree) (fuel : nat) (store : dict Q)
  (op : operation) : dict Q :=
  match op with
  | UpdateActivationV1 acts deacts => EmotionalMindV1.update_activation acts deacts store
  | CatharsisV1 => EmotionalMindV1.catharsis store
  | UpdateActivation acts incs => EmotionalMind.update_activation tree acts incs store
  | PropagateActivation n => EmotionalMind.propagate_activation tree n store
  | AmbientDecay => EmotionalMind.ambient_decay store
  | ReduceWeightsAfterResponse => EmotionalMind.reduce_weights_after_response store
  | ProcessMessage user_input r =>
      EmotionalMind.mind_active_nodes
        (fst (EmotionalMind.process_message
                tree user_input r (EmotionalMind.mk_mind store [] [] None)))
  | IncreaseStateWeight name amount =>
      snd (EmotionalMindV3.increase_state_weight
             fuel (EmotionalMindV3.states_dict tree) name amount store)
  | DecreaseStateWeight name amount =>
      snd (EmotionalMindV3.decrease_state_weight name amount store)
  | ProcessMessageV3 detected_states =>
      snd (EmotionalMindV3.process_message
             fuel (EmotionalMindV3.states_dict tree) detected_states store)
  | DelayedAnalysis increase decrease =>
      snd (EmotionalMindV3.delayed_analysis
             fuel (EmotionalMindV3.states_dict tree) increase decrease store)
  end.

Definition run (tree : states_tree) (fuel : nat) (ops : list operation)
  (store : dict Q) : dict Q :=
  fold_left (run_operation tree fuel) ops store.

(** The amounts that the engine passes to [increase_state_weight] and
    [decrease_state_weight] are 0.2, 0.15 and 0.4, and the defaults are 0.2
    and 0.3: never a negative number. *)
Definition amount_ok (op : operation) : Prop :=
  match op with
  | IncreaseStateWeight _ amount | DecreaseStateWeight _ amount => 0 <= amount
  | _ => True
  end.

End Engine.

(** ** Notions the properties are stated with *)

(** Every level held in the store lies in the closed interval from 0 to 1. *)
Definition bounded (store : dict Q) : Prop :=
  Forall (fun item : string * Q => 0 <= snd item <= 1) store.

(** A method of ai_mind3.py leaves a bounded table bounded, whether it
    returns or raises. *)
Definition keeps_bounded {A : Type} (c : EmotionalMindV3.action A) : Prop :=
  forall w, bounded w -> bounded (snd (c w)).

(** The invariant of a Python dict: no key occurs twice. *)
Definition unique_keys {V : Type} (d : dict V) : Prop := NoDup (Py.keys d).

(** [c] is a condition of the state [s], and both are known states. *)
Definition parent_edge (sd : dict state_node) (s c : string) : Prop :=
  exists node,
    Py.get sd s = Some node /\ In c (node_conditions node) /\ Py.mem sd c = true.

(** [p] is reached from [s] by following condition edges upward. *)
Inductive ancestor (sd : dict state_node) : string -> string -> Prop :=
| ancestor_parent s c : parent_edge sd s c -> ancestor sd s c
| ancestor_step s c p : parent_edge sd s c -> ancestor sd c p -> ancestor sd s p.

(** No state is its own ancestor. *)
Definition acyclic (sd : dict state_node) : Prop := forall s, ~ ancestor sd s s.

(** A certificate that there is no cycle: a rank that goes down along every
    condition edge between known states. *)
Definition decreasing_rank (sd : dict state_node) (rank : string -> nat) : bool :=
  forallb
    (fun item : string * state_node =>
       forallb (fun c => negb (Py.mem sd c) || (rank c <? rank (fst item))%nat)
               (node_conditions (snd item)))
    sd.

(** The depth of a state in the tree of
    [experiments/test_state_propagation.py]. *)
Definition test_tree_rank (s : string) : nat :=
  match Py.get [("Пустота", 0); ("Тревога", 1); ("Гнев", 2);
                ("Объективизация", 3); ("Сомнение", 2)]%nat s with
  | Some n => n
  | None => O
  end.

(** Every known state has an entry in the weight table. *)
Definition covers (w : dict Q) (sd : dict state_node) : bool :=
  forallb (Py.mem w) (Py.keys sd).

(** [l] lists the states met on a walk upward from [s]. *)
Fixpoint upward_walk (sd : dict state_node) (s : string) (l : list string) : Prop :=
  match l with
  | [] => True
  | c :: l' => parent_edge sd s c /\ upward_walk sd c l'
  end.

(** Attenuation in the words of the specification: every entry is
    multiplied by the factor of its state, and the entries that fall below
    0.1 are removed. *)
Definition attenuate (factor : string -> Q) (store : dict Q) : dict Q :=
  filter (fun item : string * Q =>
            if Qlt_le_dec (snd item) 0.1 then false else true)
         (map (fun item : string * Q => (fst item, snd item * factor (fst item)))
              store).

(** Ambient decay in the words of the specification: the same with one
    factor for all states. *)
Definition decay_all (factor : Q) (store : dict Q) : dict Q :=
  attenuate (fun _ => factor) store.

(** A turn in the order the specification asks for: the answer of the
    classifier is applied, then the propagation runs, then the ambient decay. *)
Definition turn_with_decay_last (tree : states_tree)
  (states_to_activate states_to_increase : list string) (store : dict Q) : dict Q :=
  decay_all 0.92
    (EmotionalMind.propagate_activation tree 3
       (EmotionalMind.raise_activation tree states_to_activate states_to_increase
                                       store)).

(** The sum over the stored states of activation times urgency weight. *)
Definition weighted_sum (table : dict Q) (store : dict Q) : Q :=
  fold_right (fun (item : string * Q) sum =>
                snd item * EmotionalMind.urgency_weight table (fst item) + sum)
             0 store.

(** Pressure in the words of the specification. *)
Definition pressure_spec (table : dict Q) (store : dict Q) : Q :=
  Qmin 1.0 (weighted_sum table store).

(** The contents [short_term_memory] can have: it starts empty, and
    [archive_current_state] is the only method that changes it, whatever
    the other fields hold at the time of the call. *)
Inductive archive_reachable : list EmotionalMind.memory_entry -> Prop :=
| archive_initial : archive_reachable []
| archive_record (m : EmotionalMind.mind) :
    archive_reachable (EmotionalMind.short_term_memory m) ->
    archive_reachable
      (EmotionalMind.short_term_memory (EmotionalMind.archive_current_state m)).

(** A configuration loader fails when the key "состояния" is absent. *)
Definition fails_without_key (load : Py.json -> Py.completion Py.json) : Prop :=
  forall members,
    Py.get members "состояния" = None ->
    exists e, load (Py.JObject members) = Py.Raise e.

(** ** Further parts of the sources *)

(** *** ai_mind3.py: [get_top_states] *)

Module TopStates.

(** [sorted(items, key=lambda x: x[1], reverse=True)] is a stable sort by
    decreasing weight: entries of equal weight keep the order of the table.
    A stable sort has one possible result; it is computed here by insertion
    from the right, an entry going before the first entry that is not
    heavier. *)
Fixpoint insert_by_weight (x : string * Q) (l : list (string * Q))
  : list (string * Q) :=
  match l with
  | [] => [x]
  | y :: l' =>
      if Qlt_le_dec (snd x) (snd y) then y :: insert_by_weight x l'
      else x :: y :: l'
  end.

Definition sorted_states (w : dict Q) : list (string * Q) :=
  fold_right insert_by_weight [] w.

(** [get_top_states(n)] *)
Definition get_top_states (n : nat) (w : dict Q) : list (string * Q) :=
  filter (fun item : string * Q =>
            if Qlt_le_dec 0.1 (snd item) then true else false)
         (firstn n (sorted_states w)).

End TopStates.

(** *** ai_mind2.py: the knowledge base of [EmotionalMind] *)

Module WorldModel.

(** An element of [self.world_model["concepts"]], with the keys that the
    engine reads or writes; [None] is an absent key.  The other keys of a
    concept ("type", "emotional_context") are carried along untouched and
    are left out. *)
Record concept := mk_concept {
  concept_name : option string;
  concept_associations : option (list string);
  concept_id : option string;
  concept_created_at : option string;
  concept_source : option string
}.

(** ["0" * k] *)
Fixpoint zeros (k : nat) : string :=
  match k with
  | O => ""
  | S k' => "0" ++ zeros k'
  end.

(** The padding of the format [04d]: zeros in front of the digits, up to
    the width when the digits are fewer. *)
Definition zero_pad (width : nat) (digits : string) : string :=
  zeros (width - String.length digits) ++ digits.

(** [f"{n:04d}"] for a length [n]. *)
Definition format_04d (n : nat) : string :=
  zero_pad 4 (NilEmpty.string_of_uint (Nat.to_uint n)).

(** [f"concept_{len(self.world_model['concepts']):04d}"] *)
Definition concept_id_for (n : nat) : string := "concept_" ++ format_04d n.

(** The body of the loop [for concept in new_concepts] of
    [update_world_model]; [now] is what [datetime.now().isoformat()] gives
    at that point. *)
Definition add_concept (world : list concept) (new : concept * string)
  : list concept :=
  let (c, now) := new in
  world ++ [mk_concept (concept_name c) (concept_associations c)
                       (Some (concept_id_for (List.length world)))
                       (Some now) (Some "dialogue")].

(** [update_world_model] once the model has answered: the new list of
    concepts, and whether [save_world_model] is called. *)
Definition update_world_model (new_concepts : list (concept * string))
  (world : list concept) : list concept * bool :=
  (fold_left add_concept new_concepts world,
   match new_concepts with [] => false | _ => true end).

(** [needle in hay] for two strings. *)
Fixpoint contains (hay needle : string) : bool :=
  if String.prefix needle hay then true
  else match hay with
       | EmptyString => false
       | String _ hay' => contains hay' needle
       end.

Section Relevant.

(** [str.lower], which is not modelled. *)
Variable lower : string -> string.

(** [concept.get("name", "")] *)
Definition name_of (c : concept) : string :=
  match concept_name c with Some name => name | None => "" end.

(** The condition of the [if] in the loop of [find_relevant_concepts]. *)
Definition is_relevant (query_lower : string) (c : concept) : bool :=
  contains (lower (name_of c)) query_lower
  || existsb (fun assoc => contains (lower assoc) query_lower)
             (match concept_associations c with Some l => l | None => [] end).

(** The list [relevant] at the end of the loop. *)
Definition relevant (query : string) (world : list concept) : list string :=
  map name_of (filter (is_relevant (lower query)) world).

(** [find_relevant_concepts(query)] *)
Definition find_relevant_concepts (query : string) (world : list concept)
  : string :=
  match relevant query world with
  | [] => ""
  | names => String.concat ", " (firstn 5 names)
  end.

End Relevant.

End WorldModel.

(** *** experiments/test_weight_system.py: class WeightSystemTest *)

Module WeightSystemTest.

(** [self.urgency_weights] *)
Definition urgency_weights : dict Q :=
  [ ("Гнев", 0.9); ("Уточнение", 0.7); ("Вывод", 0.8); ("Признание", 0.7);
    ("Сомнение", 0.3); ("О грёзах", 0.1); ("Тревога", 0.6) ].

(** [calculate_pressure]: the loop of ai_mind2.py over this table. *)
Definition calculate_pressure (active : dict Q) : Q :=
  EmotionalMind.calculate_pressure_with urgency_weights active.

(** [should_respond(threshold)] *)
Definition should_respond (threshold : Q) (active : dict Q) : bool :=
  if Qlt_le_dec (calculate_pressure active) threshold then false else true.

End WeightSystemTest.

(** *** Notions for the further properties *)

(** Every level held in the store is at least 0.1. *)
Definition at_least_epsilon (store : dict Q) : Prop :=
  Forall (fun item : string * Q => 0.1 <= snd item) store.

(** Every key of the store is the name of a node of the tree. *)
Definition keys_in_tree (tree : states_tree) (store : dict Q) : Prop :=
  incl (Py.keys store) (map node_name tree).

(** The same keys in the same order, and no level of [a] above its level
    in [b]. *)
Definition pointwise_le (a b : dict Q) : Prop :=
  Forall2 (fun x y : string * Q => fst x = fst y /\ snd x <= snd y) a b.

(** The archive is ordered by turn: the time stamps of its entries go
    strictly up, and all lie below the length of the conversation. *)
Definition ordered_archive (m : EmotionalMind.mind) : Prop :=
  StronglySorted
    (fun a b => (EmotionalMind.entry_timestamp a < EmotionalMind.entry_timestamp b)%nat)
    (EmotionalMind.short_term_memory m) /\
  Forall (fun e => (EmotionalMind.entry_timestamp e
                    < List.length (EmotionalMind.conversation_history m))%nat)
         (EmotionalMind.short_term_memory m).

(** Every snapshot of the archive is non-empty and holds only levels above
    0.3. *)
Definition significant_archive (memory : list EmotionalMind.memory_entry) : Prop :=
  Forall (fun e =>
            EmotionalMind.entry_states e <> [] /\
            Forall (fun item : string * Q => 0.3 < snd item)
                   (EmotionalMind.entry_states e))
         memory.

(** The concept at index [i] carries the identifier made from [i]. *)
Definition well_numbered (world : list WorldModel.concept) : Prop :=
  forall i c,
    nth_error world i = Some c ->
    WorldModel.concept_id c = Some (WorldModel.concept_id_for i).

(** The last node of the tree that carries the name. *)
Definition last_node (tree : states_tree) (name : string) : option state_node :=
  find (fun node => String.eqb name (node_name node)) (rev tree).

(** A method of ai_mind3.py leaves the states of the table as they are,
    whether it returns or raises. *)
Definition keeps_keys {A : Type} (c : EmotionalMindV3.action A) : Prop :=
  forall w, Py.keys (snd (c w)) = Py.keys w.

(** A method of ai_mind3.py keeps a bounded table bounded and lowers none
    of its weights, whether it returns or raises. *)
Definition only_raises {A : Type} (c : EmotionalMindV3.action A) : Prop :=
  forall w,
    bounded w ->
    bounded (snd (c w)) /\
    forall x v,
      Py.get w x = Some v ->
      exists v', Py.get (snd (c w)) x = Some v' /\ v <= v'.

(** What a session of ai_mind3.py keeps true of its table of weights. *)
Definition sound_weights (sd : dict state_node) (w : dict Q) : Prop :=
  bounded w /\ unique_keys w /\ covers w sd = true.

(** The number that a string of decimal digits writes. *)
Definition number_of_digits (s : string) : option nat :=
  option_map Nat.of_uint (NilEmpty.uint_of_string s).

(** * Properties *)

(** ** Facts about dicts and Python's [min] and [max] *)

Section DictFacts.
Context {V : Type}.
Implicit Types (d : dict V) (k : string) (v : V).

Lemma get_set_same d k v : Py.get (Py.set d k v) k = Some v.
Proof.
  induction d as [|[k' v'] d IH]; simpl.
  - now rewrite String.eqb_refl.
  - destruct (String.eqb k k') eqn:E; simpl; rewrite E; auto.
Qed.

Lemma get_set_other d k k' v :
  k' <> k -> Py.get (Py.set d k v) k' = Py.get d k'.
Proof.
  intros Hne. induction d as [|[k0 v0] d IH]; simpl.
  - destruct (String.eqb_spec k' k); congruence.
  - destruct (String.eqb_spec k k0) as [->|Hk]; simpl.
    + destruct (String.eqb_spec k' k0); congruence.
    + destruct (String.eqb_spec k' k0); auto.
Qed.

Lemma mem_set d k k' v :
  Py.mem (Py.set d k v) k' = String.eqb k' k || Py.mem d k'.
Proof.
  unfold Py.mem. destruct (String.eqb_spec k' k) as [->|Hne]; simpl.
  - now rewrite get_set_same.
  - now rewrite get_set_other.
Qed.

Lemma get_In d k v : Py.get d k = Some v -> In (k, v) d.
Proof.
  induction d as [|[k' v'] d IH]; simpl; [discriminate|].
  destruct (String.eqb_spec k k') as [->|Hne]; intros H.
  - injection H as ->. now left.
  - right. auto.
Qed.

Lemma get_None_keys d k : Py.get d k = None <-> ~ In k (Py.keys d).
Proof.
  induction d as [|[k' v'] d IH]; simpl; [tauto|].
  destruct (String.eqb_spec k k') as [->|Hne].
  - split; [discriminate|]. intros H. exfalso. apply H. now left.
  - rewrite IH. split; intros H; [intros [Heq|Hin]|]; try congruence; tauto.
Qed.

Lemma mem_keys d k : Py.mem d k = true <-> In k (Py.keys d).
Proof.
  unfold Py.mem. destruct (Py.get d k) eqn:E.
  - split; auto. intros _.
    apply get_In in E. apply (in_map fst) in E. exact E.
  - split; [discriminate|]. intros H. apply get_None_keys in E. tauto.
Qed.

Lemma In_get d k v : unique_keys d -> In (k, v) d -> Py.get d k = Some v.
Proof.
  unfold unique_keys.
  induction d as [|[k' v'] d IH]; simpl; [tauto|].
  intros Hnd [Heq|Hin]; inversion Hnd as [|? ? Hnotin Hnd']; subst.
  - injection Heq as -> ->. now rewrite String.eqb_refl.
  - destruct (String.eqb_spec k k') as [->|Hne]; auto.
    exfalso. apply Hnotin. apply (in_map fst) in Hin. exact Hin.
Qed.

Lemma In_set d k v item :
  In item (Py.set d k v) -> item = (k, v) \/ In item d.
Proof.
  induction d as [|[k' v'] d IH]; simpl.
  - intros [H|[]]; auto.
  - destruct (String.eqb_spec k k') as [->|Hne]; simpl; intros [H|H]; subst; auto.
    apply IH in H. tauto.
Qed.

Lemma In_del d k item : In item (Py.del d k) -> In item d.
Proof.
  induction d as [|[k' v'] d IH]; simpl; [tauto|].
  destruct (String.eqb k k'); simpl; intros H; tauto.
Qed.

Lemma keys_set d k v :
  Py.keys (Py.set d k v) = if Py.mem d k then Py.keys d else Py.keys d ++ [k].
Proof.
  unfold Py.mem. induction d as [|[k' v'] d IH]; simpl; auto.
  destruct (String.eqb_spec k k') as [->|Hne]; simpl; auto.
  rewrite IH. now destruct (Py.get d k).
Qed.

Lemma unique_keys_set d k v : unique_keys d -> unique_keys (Py.set d k v).
Proof.
  unfold unique_keys. intros Hnd. rewrite keys_set.
  destruct (Py.mem d k) eqn:E; auto.
  apply NoDup_app; auto.
  - constructor; [simpl; tauto | constructor].
  - intros x Hx [<-|[]]. apply mem_keys in Hx. congruence.
Qed.

Lemma keys_del_incl d k x : In x (Py.keys (Py.del d k)) -> In x (Py.keys d).
Proof.
  pose proof (fun item => In_del d k item) as Hin.
  unfold Py.keys. rewrite !in_map_iff.
  intros (item & <- & H). exists item. auto.
Qed.

Lemma unique_keys_del d k : unique_keys d -> unique_keys (Py.del d k).
Proof.
  unfold unique_keys.
  induction d as [|[k' v'] d IH]; simpl; auto.
  intros Hnd. inversion Hnd as [|? ? Hnotin Hnd']; subst.
  destruct (String.eqb k k'); simpl; auto.
  constructor; auto. intros H. apply Hnotin. eapply keys_del_incl; eauto.
Qed.

Lemma Forall_set (P : string * V -> Prop) d k v :
  (forall k', P (k', v)) -> Forall P d -> Forall P (Py.set d k v).
Proof.
  intros Hv Hd. apply Forall_forall. intros item Hin.
  apply In_set in Hin as [->|Hin]; auto.
  rewrite Forall_forall in Hd. auto.
Qed.

Lemma Forall_del (P : string * V -> Prop) d k :
  Forall P d -> Forall P (Py.del d k).
Proof.
  rewrite !Forall_forall. intros Hd item Hin. apply In_del in Hin. auto.
Qed.

Lemma get_app_r d d' k :
  ~ In k (Py.keys d) -> Py.get (d ++ d') k = Py.get d' k.
Proof.
  induction d as [|[k' v'] d IH]; simpl; auto.
  destruct (String.eqb_spec k k') as [->|Hne]; tauto.
Qed.

Lemma set_app_r d d' k v :
  ~ In k (Py.keys d) -> Py.set (d ++ d') k v = d ++ Py.set d' k v.
Proof.
  induction d as [|[k' v'] d IH]; simpl; auto.
  destruct (String.eqb_spec k k') as [->|Hne]; [tauto|].
  intros H. f_equal. tauto.
Qed.

Lemma del_app_r d d' k :
  ~ In k (Py.keys d) -> Py.del (d ++ d') k = d ++ Py.del d' k.
Proof.
  induction d as [|[k' v'] d IH]; simpl; auto.
  destruct (String.eqb_spec k k') as [->|Hne]; [tauto|].
  intros H. f_equal. tauto.
Qed.

End DictFacts.

Lemma fold_left_invariant {A B : Type} (P : A -> Prop) (f : A -> B -> A) l :
  (forall a b, In b l -> P a -> P (f a b)) ->
  forall a, P a -> P (fold_left f l a).
Proof.
  induction l as [|b l IH]; simpl; auto.
Qed.

Lemma py_min_cap x : 0 <= x -> 0 <= Py.min 1.0 x <= 1.
Proof. unfold Py.min. destruct (Qlt_le_dec x 1.0); lra. Qed.

Lemma py_min_Qmin x y : Py.min x y == Qmin y x.
Proof.
  unfold Py.min. destruct (Qlt_le_dec y x) as [H|H].
  - symmetry. apply Q.min_l. lra.
  - symmetry. apply Q.min_r. lra.
Qed.

Lemma py_max_floor x : x <= 1 -> 0 <= Py.max 0.0 x <= 1.
Proof. unfold Py.max. destruct (Qlt_le_dec 0.0 x); lra. Qed.

(** ** Levels stay between 0 and 1 *)

Lemma bounded_set store k v :
  bounded store -> 0 <= v <= 1 -> bounded (Py.set store k v).
Proof. intros Hs Hv. apply Forall_set; auto. Qed.

Lemma bounded_del store k : bounded store -> bounded (Py.del store k).
Proof. apply Forall_del. Qed.

Lemma bounded_get store k v :
  bounded store -> Py.get store k = Some v -> 0 <= v <= 1.
Proof.
  intros Hs Hget. apply get_In in Hget.
  unfold bounded in Hs. rewrite Forall_forall in Hs. exact (Hs _ Hget).
Qed.

Lemma bounded_In store k v : bounded store -> In (k, v) store -> 0 <= v <= 1.
Proof.
  unfold bounded. rewrite Forall_forall. intros Hs Hin. exact (Hs _ Hin).
Qed.

Create HintDb bounds.

#[local] Hint Resolve bounded_set bounded_del py_min_cap py_max_floor : bounds.

Section PropagationBounds.
Variable tree : states_tree.

Lemma accumulate_bounded influence na child :
  0 <= influence <= 1 -> bounded na ->
  bounded (EmotionalMind.accumulate influence na child).
Proof.
  intros Hi Hna. unfold EmotionalMind.accumulate.
  destruct (Py.get na child) as [acc|] eqn:E; auto with bounds.
  pose proof (bounded_get _ _ _ Hna E).
  apply bounded_set; auto. apply py_min_cap. lra.
Qed.

Lemma spread_bounded na item :
  0 <= snd item <= 1 -> bounded na -> bounded (EmotionalMind.spread tree na item).
Proof.
  destruct item as [state_name activation]; simpl. intros Ha Hna.
  destruct (Qlt_le_dec activation 0.1); auto.
  apply (fold_left_invariant bounded); auto.
  intros a child _ Hbound. apply accumulate_bounded; auto. lra.
Qed.

Lemma collect_influence_bounded active :
  bounded active -> bounded (EmotionalMind.collect_influence tree active).
Proof.
  intros Hactive. unfold EmotionalMind.collect_influence.
  apply (fold_left_invariant bounded); [|constructor].
  intros na [k v] Hin Hna. apply spread_bounded; [|exact Hna].
  simpl. exact (bounded_In _ _ _ Hactive Hin).
Qed.

Lemma apply_influence_bounded active item :
  0 <= snd item <= 1 -> bounded active ->
  bounded (EmotionalMind.apply_influence active item).
Proof.
  destruct item as [state value]; simpl. intros Hv Hactive.
  destruct (Py.get active state) as [current|] eqn:E.
  - pose proof (bounded_get _ _ _ Hactive E).
    apply bounded_set; auto. apply py_min_cap. lra.
  - destruct (Qlt_le_dec 0.2 value); auto with bounds.
Qed.

Lemma propagate_iteration_bounded active :
  bounded active -> bounded (EmotionalMind.propagate_iteration tree active).
Proof.
  intros Hactive. unfold EmotionalMind.propagate_iteration.
  apply (fold_left_invariant bounded); auto.
  intros a [k v] Hin Ha. apply apply_influence_bounded; [|exact Ha].
  simpl. exact (bounded_In _ _ _ (collect_influence_bounded _ Hactive) Hin).
Qed.

Lemma propagate_activation_bounded iterations active :
  bounded active ->
  bounded (EmotionalMind.propagate_activation tree iterations active).
Proof.
  revert active. induction iterations as [|n IH]; simpl; auto.
  intros active Hactive. apply IH. now apply propagate_iteration_bounded.
Qed.

Lemma activate_state_bounded active state :
  bounded active -> bounded (EmotionalMind.activate_state tree active state).
Proof.
  intros Hactive. unfold EmotionalMind.activate_state.
  destruct (EmotionalMind.in_nodes_map tree state); auto.
  destruct (Py.get active state) as [current|] eqn:E.
  - pose proof (bounded_get _ _ _ Hactive E).
    apply bounded_set; auto. apply py_min_cap. lra.
  - apply bounded_set; auto. lra.
Qed.

End PropagationBounds.

Lemma increase_state_bounded active state :
  bounded active -> bounded (EmotionalMind.increase_state active state).
Proof.
  intros Hactive. unfold EmotionalMind.increase_state.
  destruct (Py.get active state) as [current|] eqn:E; auto.
  pose proof (bounded_get _ _ _ Hactive E).
  apply bounded_set; auto. apply py_min_cap. lra.
Qed.

Lemma fade_bounded factor active state :
  0 <= factor state <= 1 -> bounded active ->
  bounded (fade factor active state).
Proof.
  intros Hf Hactive. unfold fade.
  destruct (Py.get active state) as [current|] eqn:E; auto.
  pose proof (bounded_get _ _ _ Hactive E).
  assert (0 <= current * factor state <= 1) by nra.
  destruct (Qlt_le_dec _ _); auto with bounds.
Qed.

Lemma ambient_decay_bounded active :
  bounded active -> bounded (EmotionalMind.ambient_decay active).
Proof.
  intros Hactive. unfold EmotionalMind.ambient_decay.
  apply (fold_left_invariant bounded); auto.
  intros a state _ Ha. apply fade_bounded; auto. lra.
Qed.

Lemma update_activation_bounded tree acts incs active :
  bounded active -> bounded (EmotionalMind.update_activation tree acts incs active).
Proof.
  intros Hactive. unfold EmotionalMind.update_activation, EmotionalMind.raise_activation.
  apply ambient_decay_bounded.
  apply (fold_left_invariant bounded); [intros; now apply increase_state_bounded|].
  apply (fold_left_invariant bounded); [intros; now apply activate_state_bounded|].
  exact Hactive.
Qed.

Lemma reduce_weights_bounded active :
  bounded active -> bounded (EmotionalMind.reduce_weights_after_response active).
Proof.
  intros Hactive. unfold EmotionalMind.reduce_weights_after_response.
  apply (fold_left_invariant bounded); auto.
  intros a state _ Ha. apply fade_bounded; auto.
  destruct (existsb _ _); lra.
Qed.

Lemma keeps_bounded_bind {A B : Type} (c : EmotionalMindV3.action A)
  (k : A -> EmotionalMindV3.action B) :
  keeps_bounded c -> (forall a, keeps_bounded (k a)) ->
  keeps_bounded (EmotionalMindV3.bind c k).
Proof.
  intros Hc Hk w Hw. unfold EmotionalMindV3.bind.
  specialize (Hc w Hw). destruct (c w) as [[a|e] w']; simpl in *; auto.
  now apply Hk.
Qed.

Lemma keeps_bounded_for_each {A : Type} (l : list A)
  (body : A -> EmotionalMindV3.action unit) :
  (forall x, keeps_bounded (body x)) ->
  keeps_bounded (EmotionalMindV3.for_each l body).
Proof.
  intros Hbody. induction l as [|x l IH]; simpl.
  - intros w Hw. exact Hw.
  - apply keeps_bounded_bind; auto.
Qed.

Lemma raise_weight_bounded name delta :
  0 <= delta ->
  keeps_bounded
    (EmotionalMindV3.bind (EmotionalMindV3.weight_of name)
       (fun current => EmotionalMindV3.store name (Py.min 1.0 (current + delta)))).
Proof.
  intros Hd w Hw.
  unfold EmotionalMindV3.bind, EmotionalMindV3.weight_of, EmotionalMindV3.store.
  destruct (Py.get w name) as [current|] eqn:E; simpl; auto.
  pose proof (bounded_get _ _ _ Hw E).
  apply bounded_set; auto. apply py_min_cap. lra.
Qed.

Lemma increase_state_weight_unfold fuel sd name amount w :
  EmotionalMindV3.increase_state_weight fuel sd name amount w =
  match Py.get w name with
  | None => (Py.Return tt, w)
  | Some current =>
      let w1 := Py.set w name (Py.min 1.0 (current + amount)) in
      match EmotionalMindV3._get_parent_states fuel sd name with
      | None => (Py.Raise Py.RecursionError, w1)
      | Some parents =>
          EmotionalMindV3.for_each parents
            (fun parent =>
               EmotionalMindV3.bind (EmotionalMindV3.weight_of parent)
                 (fun current =>
                    EmotionalMindV3.store parent
                      (Py.min 1.0 (current + amount * 0.5))))
            w1
      end
  end.
Proof.
  unfold EmotionalMindV3.increase_state_weight.
  unfold EmotionalMindV3.bind at 1. unfold EmotionalMindV3.known, Py.mem.
  destruct (Py.get w name) as [current|] eqn:E; simpl; auto.
  unfold EmotionalMindV3.bind at 1. unfold EmotionalMindV3.weight_of at 1.
  rewrite E.
  unfold EmotionalMindV3.bind at 1. unfold EmotionalMindV3.store at 1.
  unfold EmotionalMindV3.bind at 1. unfold EmotionalMindV3.parent_states_of.
  destruct (EmotionalMindV3._get_parent_states fuel sd name); reflexivity.
Qed.

Lemma increase_state_weight_bounded fuel sd name amount :
  0 <= amount ->
  keeps_bounded (EmotionalMindV3.increase_state_weight fuel sd name amount).
Proof.
  intros Ha w Hw. rewrite increase_state_weight_unfold.
  destruct (Py.get w name) as [current|] eqn:E; simpl; auto.
  pose proof (bounded_get _ _ _ Hw E).
  assert (Hw1 : bounded (Py.set w name (Py.min 1.0 (current + amount)))).
  { apply bounded_set; auto. apply py_min_cap. lra. }
  destruct (EmotionalMindV3._get_parent_states fuel sd name) as [parents|]; simpl; auto.
  apply keeps_bounded_for_each; auto.
  intros parent. apply raise_weight_bounded. lra.
Qed.

Lemma decrease_state_weight_bounded name amount :
  0 <= amount ->
  keeps_bounded (EmotionalMindV3.decrease_state_weight name amount).
Proof.
  intros Ha w Hw.
  unfold EmotionalMindV3.decrease_state_weight, EmotionalMindV3.bind,
    EmotionalMindV3.known, EmotionalMindV3.weight_of, EmotionalMindV3.store.
  destruct (Py.mem w name); simpl; auto.
  destruct (Py.get w name) as [current|] eqn:E; simpl; auto.
  pose proof (bounded_get _ _ _ Hw E).
  apply bounded_set; auto. apply py_max_floor. lra.
Qed.

Lemma process_message_v3_bounded fuel sd detected_states :
  keeps_bounded (EmotionalMindV3.process_message fuel sd detected_states).
Proof.
  apply keeps_bounded_for_each. intros state w Hw.
  unfold EmotionalMindV3.bind, EmotionalMindV3.known.
  destruct (Py.mem w state); auto.
  apply increase_state_weight_bounded; auto. lra.
Qed.

Lemma generate_spontaneous_response_bounded :
  keeps_bounded EmotionalMindV3.generate_spontaneous_response.
Proof.
  intros w Hw. unfold EmotionalMindV3.generate_spontaneous_response.
  apply keeps_bounded_for_each; auto.
  intros state. apply decrease_state_weight_bounded. lra.
Qed.

Lemma delayed_analysis_bounded fuel sd increase decrease :
  keeps_bounded (EmotionalMindV3.delayed_analysis fuel sd increase decrease).
Proof.
  unfold EmotionalMindV3.delayed_analysis.
  apply keeps_bounded_bind.
  { apply keeps_bounded_for_each. intros state.
    apply increase_state_weight_bounded. lra. }
  intros _. apply keeps_bounded_bind.
  { apply keeps_bounded_for_each. intros state.
    apply decrease_state_weight_bounded. lra. }
  intros _ w Hw.
  destruct (EmotionalMindV3.get_triggered_states w); auto.
  apply keeps_bounded_bind; auto.
  - apply generate_spontaneous_response_bounded.
  - intros _ w' Hw'. exact Hw'.
Qed.

Lemma update_activation_v1_bounded acts deacts active :
  bounded active -> bounded (EmotionalMindV1.update_activation acts deacts active).
Proof.
  intros Hactive. unfold EmotionalMindV1.update_activation.
  apply (fold_left_invariant bounded).
  { intros a state _ Ha. apply fade_bounded; auto. lra. }
  apply (fold_left_invariant bounded).
  { intros a state _ Ha. unfold EmotionalMindV1.activate_state.
    destruct (Py.get a state) as [current|] eqn:E.
    - pose proof (bounded_get _ _ _ Ha E).
      apply bounded_set; auto. apply py_min_cap. lra.
    - apply bounded_set; auto. lra. }
  apply (fold_left_invariant bounded); auto.
  intros a state _ Ha. unfold EmotionalMindV1.deactivate_state.
  destruct (Py.get a state) as [current|] eqn:E; auto.
  pose proof (bounded_get _ _ _ Ha E). apply bounded_set; auto. lra.
Qed.

Lemma catharsis_bounded active :
  bounded active -> bounded (EmotionalMindV1.catharsis active).
Proof.
  intros Hactive. unfold EmotionalMindV1.catharsis.
  apply (fold_left_invariant bounded); auto.
  intros a trigger _ Ha.
  destruct (Py.get a trigger) as [current|] eqn:E; auto.
  pose proof (bounded_get _ _ _ Ha E). apply bounded_set; auto. lra.
Qed.

Lemma process_message_bounded tree user_input r m :
  bounded (EmotionalMind.mind_active_nodes m) ->
  bounded (EmotionalMind.mind_active_nodes
             (fst (EmotionalMind.process_message tree user_input r m))).
Proof.
  intros Hm. unfold EmotionalMind.process_message.
  assert (bounded (EmotionalMind.propagate_activation tree 3
                     (EmotionalMind.update_activation
                        tree (EmotionalMind.states_to_activate r)
                        (EmotionalMind.states_to_increase r)
                        (EmotionalMind.mind_active_nodes m)))).
  { apply propagate_activation_bounded. now apply update_activation_bounded. }
  destruct (EmotionalMind.should_respond r && _); simpl; auto.
  apply reduce_weights_bounded. unfold EmotionalMind.archive_current_state.
  destruct (EmotionalMind.significant_states _); simpl; auto.
Qed.

Lemma run_operation_bounded tree fuel store op :
  Engine.amount_ok op -> bounded store ->
  bounded (Engine.run_operation tree fuel store op).
Proof.
  intros Hop Hs. destruct op; simpl in Hop; unfold Engine.run_operation.
  - now apply update_activation_v1_bounded.
  - now apply catharsis_bounded.
  - now apply update_activation_bounded.
  - now apply propagate_activation_bounded.
  - now apply ambient_decay_bounded.
  - now apply reduce_weights_bounded.
  - now apply process_message_bounded.
  - now apply increase_state_weight_bounded.
  - now apply decrease_state_weight_bounded.
  - now apply process_message_v3_bounded.
  - now apply delayed_analysis_bounded.
Qed.

Lemma init_mind_bounded :
  bounded (EmotionalMind.mind_active_nodes EmotionalMind.init_mind).
Proof. constructor. Qed.

Lemma init_state_weights_bounded tree :
  Forall (fun node => match node_weight node with
                      | Some weight => 0 <= weight <= 1
                      | None => True
                      end) tree ->
  bounded (EmotionalMindV3.init_state_weights tree).
Proof.
  intros Htree. unfold EmotionalMindV3.init_state_weights.
  apply (fold_left_invariant bounded); [|constructor].
  intros d node Hin Hd. rewrite Forall_forall in Htree. specialize (Htree _ Hin).
  apply bounded_set; auto. destruct (node_weight node); [auto|lra].
Qed.

(** C1: after every sequence of engine operations run on a store whose
    levels lie between 0 and 1 (the empty store of a new session is one),
    every level held in the store lies between 0 and 1, and reading a state
    that the store does not hold gives 0.0. *)
Theorem activation_stays_in_unit_interval :
  forall tree fuel ops store,
    bounded store ->
    Forall Engine.amount_ok ops ->
    bounded (Engine.run tree fuel ops store) /\
    (forall name,
        Py.get (Engine.run tree fuel ops store) name = None ->
        EmotionalMindV1.activation (Engine.run tree fuel ops store) name = 0.0).
Proof.
  intros tree fuel ops store Hs Hops. split.
  - unfold Engine.run. apply (fold_left_invariant bounded); auto.
    intros a op Hin Ha. apply run_operation_bounded; auto.
    rewrite Forall_forall in Hops. auto.
  - intros name Hnone. unfold EmotionalMindV1.activation. now rewrite Hnone.
Qed.

(** The invariant on a run that mixes the operations of both engines,
    started from the store of [experiments/test_state_propagation.py]. *)
Lemma activation_stays_in_unit_interval_witness :
  let ops :=
    [ Engine.UpdateActivation ["Гнев"; "Тревога"] ["Тревога"];
      Engine.PropagateActivation 3;
      Engine.ReduceWeightsAfterResponse;
      Engine.IncreaseStateWeight "Тревога" 0.2;
      Engine.DecreaseStateWeight "Гнев" 0.4;
      Engine.DelayedAnalysis ["Гнев"] ["Сомнение"];
      Engine.AmbientDecay ] in
  let store := [("Тревога", 0.8)] in
  bounded (Engine.run test_tree 10 ops store) /\
  (forall name,
      Py.get (Engine.run test_tree 10 ops store) name = None ->
      EmotionalMindV1.activation (Engine.run test_tree 10 ops store) name = 0.0).
Proof.
  intros ops store.
  apply (activation_stays_in_unit_interval test_tree 10 ops store).
  - repeat constructor; simpl; lra.
  - repeat constructor; simpl; lra.
Defined.

(** ** Ancestor resolution *)

Lemma set_add_In s x y : In y (Py.set_add s x) <-> In y s \/ y = x.
Proof.
  unfold Py.set_add. destruct (existsb (String.eqb x) s) eqn:E.
  - split; auto. intros [H| ->]; auto.
    apply existsb_exists in E as (z & Hz & Heq).
    apply String.eqb_eq in Heq. now subst.
  - rewrite in_app_iff. simpl. intuition auto.
Qed.

Lemma set_update_In t s y : In y (Py.set_update s t) <-> In y s \/ In y t.
Proof.
  unfold Py.set_update. revert s.
  induction t as [|x t IH]; simpl; intros s; [tauto|].
  rewrite IH, set_add_In. intuition auto.
Qed.

Lemma set_add_NoDup s x : NoDup s -> NoDup (Py.set_add s x).
Proof.
  intros Hs. unfold Py.set_add. destruct (existsb (String.eqb x) s) eqn:E; auto.
  apply NoDup_app; auto.
  - constructor; [simpl; tauto | constructor].
  - intros y Hy [<-|[]].
    assert (existsb (String.eqb x) s = true); [|congruence].
    apply existsb_exists. exists x. split; auto. apply String.eqb_refl.
Qed.

Lemma set_update_NoDup t s : NoDup s -> NoDup (Py.set_update s t).
Proof.
  unfold Py.set_update. revert s.
  induction t as [|x t IH]; simpl; intros s Hs; auto.
  apply IH. now apply set_add_NoDup.
Qed.

Section VisitConditions.
Variable sd : dict state_node.
Variable recurse : string -> option (list string).

Let visit := EmotionalMindV3.visit_condition sd recurse.

Lemma visit_from_None l : fold_left visit l None = None.
Proof. induction l; simpl; auto. Qed.

Lemma visit_None l parents :
  fold_left visit l (Some parents) = None ->
  exists c, In c l /\ Py.mem sd c = true /\ recurse c = None.
Proof.
  revert parents. induction l as [|c l IH]; simpl; intros parents H.
  - discriminate.
  - destruct (Py.mem sd c) eqn:Hmem.
    + destruct (recurse c) as [more|] eqn:Hrec.
      * apply IH in H as (c' & ? & ? & ?). exists c'. auto.
      * exists c. auto.
    + apply IH in H as (c' & ? & ? & ?). exists c'. auto.
Qed.

Lemma visit_Some l parents r :
  fold_left visit l (Some parents) = Some r ->
  (forall c, In c l -> Py.mem sd c = true -> exists more, recurse c = Some more) /\
  (forall y, In y r <->
             In y parents \/
             exists c, In c l /\ Py.mem sd c = true /\
                       (y = c \/ exists more, recurse c = Some more /\ In y more)) /\
  (NoDup parents -> NoDup r).
Proof.
  revert parents. induction l as [|c l IH]; simpl; intros parents H.
  - injection H as <-. repeat split; auto.
    + intros _ [].
    + intros [?|(c & [] & _)]; auto.
  - destruct (Py.mem sd c) eqn:Hmem.
    + destruct (recurse c) as [more|] eqn:Hrec.
      * apply IH in H as (Hdef & Hin & Hnd). repeat split.
        -- intros c' [<-|Hc'] Hm; eauto.
        -- rewrite Hin, set_update_In, set_add_In.
           intros [[[?| ->]|?]|(c' & ? & ? & ?)]; eauto 10.
        -- rewrite Hin, set_update_In, set_add_In.
           intros [?|(c' & [<-|?] & ? & [->|(more' & Hm & ?)])]; eauto 10.
           rewrite Hrec in Hm. injection Hm as <-. auto.
        -- intros Hp. apply Hnd. apply set_update_NoDup. now apply set_add_NoDup.
      * now rewrite visit_from_None in H.
    + apply IH in H as (Hdef & Hin & Hnd). repeat split; auto.
      * intros c' [<-|Hc'] Hm; [congruence|eauto].
      * rewrite Hin. intros [?|(c' & ? & ? & ?)]; eauto 10.
      * rewrite Hin. intros [?|(c' & [<-|?] & ? & ?)]; eauto 10. congruence.
Qed.

End VisitConditions.

Lemma visit_mono sd (recurse recurse' : string -> option (list string)) l acc r :
  (forall c more, recurse c = Some more -> recurse' c = Some more) ->
  fold_left (EmotionalMindV3.visit_condition sd recurse) l acc = Some r ->
  fold_left (EmotionalMindV3.visit_condition sd recurse') l acc = Some r.
Proof.
  intros Hsub. revert acc. induction l as [|c l IH]; simpl; auto.
  intros [parents|]; simpl.
  - destruct (Py.mem sd c); auto.
    destruct (recurse c) as [more|] eqn:Hrec.
    + rewrite (Hsub _ _ Hrec). auto.
    + intros H. now rewrite visit_from_None in H.
  - intros H. now rewrite visit_from_None in H.
Qed.

Section ParentStates.
Variable sd : dict state_node.

Let parents_of (fuel : nat) := EmotionalMindV3._get_parent_states fuel sd.

Lemma parent_states_S fuel s :
  parents_of (S fuel) s =
  match Py.get sd s with
  | None => Some []
  | Some node =>
      fold_left (EmotionalMindV3.visit_condition sd (parents_of fuel))
                (node_conditions node) (Some [])
  end.
Proof. reflexivity. Qed.

(** More fuel does not change a result. *)
Lemma parent_states_fuel_step fuel s r :
  parents_of fuel s = Some r -> parents_of (S fuel) s = Some r.
Proof.
  revert s r. induction fuel as [|n IH]; intros s r; [discriminate|].
  rewrite (parent_states_S (S n)), (parent_states_S n).
  destruct (Py.get sd s) as [node|]; auto.
  apply visit_mono. exact IH.
Qed.

Lemma parent_states_fuel_le fuel fuel' s r :
  (fuel <= fuel')%nat ->
  parents_of fuel s = Some r -> parents_of fuel' s = Some r.
Proof.
  intros Hle Hr. induction Hle; auto. now apply parent_states_fuel_step.
Qed.

Lemma ancestor_first_edge s p :
  ancestor sd s p ->
  exists c, parent_edge sd s c /\ (p = c \/ ancestor sd c p).
Proof. destruct 1 as [s c Hedge|s c p Hedge Hanc]; exists c; auto. Qed.

(** A result is the set of the ancestors. *)
Lemma parent_states_ancestors fuel s r :
  parents_of fuel s = Some r ->
  NoDup r /\ forall p, In p r <-> ancestor sd s p.
Proof.
  revert s r. induction fuel as [|n IH]; intros s r; [discriminate|].
  rewrite parent_states_S. destruct (Py.get sd s) as [node|] eqn:Hnode.
  - intros H. apply visit_Some in H as (Hdef & Hin & Hnd).
    split; [apply Hnd; constructor|].
    intros p. rewrite Hin. split.
    + intros [[]|(c & Hc & Hmem & Hp)].
      assert (Hedge : parent_edge sd s c) by (exists node; auto).
      destruct Hp as [->|(more & Hmore & Hp)].
      * now apply ancestor_parent.
      * apply ancestor_step with c; auto. apply (IH _ _ Hmore). exact Hp.
    + intros Hanc. right.
      apply ancestor_first_edge in Hanc
        as (c & (node' & Hn' & Hc & Hmem) & Hcp).
      rewrite Hnode in Hn'. injection Hn' as <-.
      exists c. repeat split; auto.
      destruct Hcp as [->|Hcp]; auto.
      destruct (Hdef c Hc Hmem) as [more Hmore].
      right. exists more. split; auto. apply (IH _ _ Hmore). exact Hcp.
  - intros H. injection H as <-. split; [constructor|].
    intros p. split; [intros []|].
    intros Hanc. apply ancestor_first_edge in Hanc as (c & (node' & Hn' & _) & _).
    congruence.
Qed.

(** A call that does not come back has walked upward once per unit of
    fuel. *)
Lemma parent_states_None_walk fuel s :
  parents_of fuel s = None ->
  exists l, List.length l = fuel /\ upward_walk sd s l.
Proof.
  revert s. induction fuel as [|n IH]; intros s.
  - exists []. simpl. auto.
  - rewrite parent_states_S.
    destruct (Py.get sd s) as [node|] eqn:Hnode; [|discriminate].
    intros H. apply visit_None in H as (c & Hc & Hmem & Hnone).
    destruct (IH c Hnone) as (l & Hlen & Hwalk).
    exists (c :: l). simpl. split; [congruence|]. split; auto.
    exists node. auto.
Qed.

Lemma upward_walk_members s l :
  upward_walk sd s l ->
  forall x, In x l -> In x (Py.keys sd) /\ ancestor sd s x.
Proof.
  revert s. induction l as [|c l IH]; simpl; intros s; [tauto|].
  intros [Hedge Hwalk] x [<-|Hx].
  - split; [|now apply ancestor_parent].
    destruct Hedge as (node & _ & _ & Hmem). now apply mem_keys.
  - destruct (IH _ Hwalk x Hx). split; auto.
    now apply ancestor_step with c.
Qed.

(** A walk that meets a state twice has gone round a cycle. *)
Lemma upward_walk_repeats s l :
  upward_walk sd s l -> ~ NoDup l -> exists x, ancestor sd x x.
Proof.
  revert s. induction l as [|c l IH]; simpl; intros s.
  - intros _ H. exfalso. apply H. constructor.
  - intros [Hedge Hwalk] Hdup.
    destruct (in_dec string_dec c l) as [Hin|Hnotin].
    + exists c. now apply (upward_walk_members _ _ Hwalk).
    + apply (IH c); auto. intros Hnd. apply Hdup. now constructor.
Qed.

(** On a graph without cycle the call comes back within as many nested
    calls as there are states, plus one. *)
Lemma parent_states_returns s :
  acyclic sd -> exists r, parents_of (S (List.length sd)) s = Some r.
Proof.
  intros Hacyclic.
  destruct (parents_of (S (List.length sd)) s) as [r|] eqn:E; eauto.
  exfalso. apply parent_states_None_walk in E as (l & Hlen & Hwalk).
  destruct (NoDup_dec string_dec l) as [Hnd|Hdup].
  - assert (Hincl : incl l (Py.keys sd)).
    { intros x Hx. now apply (upward_walk_members _ _ Hwalk). }
    apply NoDup_incl_length in Hincl; auto.
    unfold Py.keys in Hincl. rewrite length_map in Hincl. lia.
  - destruct (upward_walk_repeats _ _ Hwalk Hdup) as [x Hx].
    exact (Hacyclic x Hx).
Qed.

(** The call on an ancestor is nested in the call on the state. *)
Lemma parent_states_nested s p :
  ancestor sd s p ->
  forall fuel r, parents_of fuel s = Some r ->
  exists fuel' r', (fuel' < fuel)%nat /\ parents_of fuel' p = Some r'.
Proof.
  induction 1 as [s c (node & Hnode & Hc & Hmem)
                 |s c p (node & Hnode & Hc & Hmem) _ IH];
    intros [|n] r; try discriminate; rewrite parent_states_S, Hnode; intros H;
    apply visit_Some in H as (Hdef & _);
    destruct (Hdef c Hc Hmem) as [more Hmore].
  - exists n, more. auto.
  - destruct (IH _ _ Hmore) as (fuel' & r' & Hlt & Hr').
    exists fuel', r'. split; auto.
Qed.

(** A call on a state that is its own ancestor never comes back. *)
Lemma parent_states_diverges s :
  ancestor sd s s -> forall fuel, parents_of fuel s = None.
Proof.
  intros Hanc fuel. induction fuel as [fuel IH] using lt_wf_ind.
  destruct (parents_of fuel s) as [r|] eqn:E; auto.
  destruct (parent_states_nested _ _ Hanc _ _ E) as (fuel' & r' & Hlt & Hr').
  rewrite (IH fuel' Hlt) in Hr'. discriminate.
Qed.

End ParentStates.

Lemma decreasing_rank_acyclic sd rank :
  decreasing_rank sd rank = true -> acyclic sd.
Proof.
  intros Hrank.
  assert (Hedge : forall s c, parent_edge sd s c -> (rank c < rank s)%nat).
  { intros s c (node & Hnode & Hc & Hmem).
    unfold decreasing_rank in Hrank. rewrite forallb_forall in Hrank.
    specialize (Hrank _ (get_In _ _ _ Hnode)). simpl in Hrank.
    rewrite forallb_forall in Hrank. specialize (Hrank _ Hc).
    rewrite Hmem in Hrank. simpl in Hrank. now apply Nat.ltb_lt. }
  assert (Hanc : forall s p, ancestor sd s p -> (rank p < rank s)%nat).
  { induction 1 as [s c H|s c p H _ IH]; [auto|].
    apply Hedge in H. lia. }
  intros s Hs. apply Hanc in Hs. lia.
Qed.

(** C2, as stated, fails on a graph with a cycle: with the conditions
    "Гнев" <- "Тревога" <- "Пустота" <- "Гнев", the call for "Гнев" comes
    back at no depth of recursion. *)
Lemma parent_states_loop_on_cycle :
  ~ exists fuel parents,
      EmotionalMindV3._get_parent_states
        fuel (EmotionalMindV3.states_dict cyclic_tree) "Гнев" = Some parents.
Proof.
  intros (fuel & parents & H).
  rewrite parent_states_diverges in H; [discriminate|].
  assert (Hedge : forall s c node,
             Py.get (EmotionalMindV3.states_dict cyclic_tree) s = Some node ->
             In c (node_conditions node) ->
             Py.mem (EmotionalMindV3.states_dict cyclic_tree) c = true ->
             parent_edge (EmotionalMindV3.states_dict cyclic_tree) s c).
  { intros s c node ? ? ?. exists node. auto. }
  apply ancestor_step with "Тревога";
    [eapply Hedge; [reflexivity|simpl; auto|reflexivity]|].
  apply ancestor_step with "Пустота";
    [eapply Hedge; [reflexivity|simpl; auto|reflexivity]|].
  apply ancestor_parent. eapply Hedge; [reflexivity|simpl; auto|reflexivity].
Qed.

(** C2, amended: for every state graph in which no state is its own
    ancestor, ancestor resolution comes back as soon as the depth allowed
    exceeds the number of states, and what it returns is a finite set (a list
    without repetition) that holds exactly the transitive parents of the
    state. *)
Theorem parent_states_terminate_without_cycle :
  forall tree state_name,
    acyclic (EmotionalMindV3.states_dict tree) ->
    exists parents,
      (forall fuel,
          (List.length (EmotionalMindV3.states_dict tree) < fuel)%nat ->
          EmotionalMindV3._get_parent_states
            fuel (EmotionalMindV3.states_dict tree) state_name = Some parents) /\
      NoDup parents /\
      (forall p, In p parents <->
                 ancestor (EmotionalMindV3.states_dict tree) state_name p).
Proof.
  intros tree state_name Hacyclic.
  destruct (parent_states_returns _ state_name Hacyclic) as [parents Hparents].
  exists parents. split.
  - intros fuel Hfuel. eapply parent_states_fuel_le; [|exact Hparents]. lia.
  - eapply parent_states_ancestors. exact Hparents.
Qed.

(** The tree of [experiments/test_state_propagation.py] has no cycle, and
    the ancestors of "Объективизация" are resolved. *)
Lemma parent_states_terminate_without_cycle_witness :
  exists parents,
    (forall fuel,
        (List.length (EmotionalMindV3.states_dict test_tree) < fuel)%nat ->
        EmotionalMindV3._get_parent_states
          fuel (EmotionalMindV3.states_dict test_tree) "Объективизация"
        = Some parents) /\
    NoDup parents /\
    (forall p, In p parents <->
               ancestor (EmotionalMindV3.states_dict test_tree) "Объективизация" p).
Proof.
  apply (parent_states_terminate_without_cycle test_tree "Объективизация").
  apply (decreasing_rank_acyclic _ test_tree_rank). vm_compute. reflexivity.
Defined.

(** The two tables that [__init__] builds from the tree have the same
    keys, so every known state has a weight in a new session. *)
Lemma keys_of_tables {V W : Type} (f : state_node -> V) (g : state_node -> W) tree :
  forall (d : dict V) (d' : dict W),
    Py.keys d = Py.keys d' ->
    Py.keys (fold_left (fun d state => Py.set d (node_name state) (f state)) tree d)
    = Py.keys (fold_left (fun d state => Py.set d (node_name state) (g state)) tree d').
Proof.
  induction tree as [|node tree IH]; intros d d' Hkeys; simpl; auto.
  apply IH. rewrite !keys_set.
  assert (Hmem : Py.mem d (node_name node) = Py.mem d' (node_name node)).
  { destruct (Py.mem d (node_name node)) eqn:E.
    - apply mem_keys in E. rewrite Hkeys in E. apply mem_keys in E. now rewrite E.
    - destruct (Py.mem d' (node_name node)) eqn:E'; auto.
      apply mem_keys in E'. rewrite <- Hkeys in E'. apply mem_keys in E'. congruence. }
  rewrite <- Hmem, Hkeys. reflexivity.
Qed.

Lemma init_state_weights_covers tree :
  covers (EmotionalMindV3.init_state_weights tree) (EmotionalMindV3.states_dict tree)
  = true.
Proof.
  unfold covers. apply forallb_forall. intros name Hname. apply mem_keys.
  unfold EmotionalMindV3.init_state_weights.
  unfold EmotionalMindV3.states_dict in Hname.
  rewrite (keys_of_tables _ (fun state => state) tree [] []); auto.
Qed.

(** ** Raising a weight and the weights of the ancestors *)

Section RaiseParents.
Variable amount : Q.

Let raise_parent (parent : string) : EmotionalMindV3.action unit :=
  EmotionalMindV3.bind (EmotionalMindV3.weight_of parent)
    (fun current =>
       EmotionalMindV3.store parent (Py.min 1.0 (current + amount * 0.5))).

(** The loop [for parent in parent_states]: every listed state is raised
    once, from the weight it had before the loop, and nothing else moves. *)
Lemma raise_parents_result parents :
  NoDup parents ->
  forall w,
    (forall p, In p parents -> Py.mem w p = true) ->
    exists w',
      EmotionalMindV3.for_each parents raise_parent w = (Py.Return tt, w') /\
      (forall p v, In p parents -> Py.get w p = Some v ->
                   Py.get w' p = Some (Py.min 1.0 (v + amount * 0.5))) /\
      (forall x, ~ In x parents -> Py.get w' x = Py.get w x).
Proof.
  induction 1 as [|p rest Hnotin Hnd IH]; intros w Hmem; simpl.
  - exists w. repeat split; auto. intros p v [].
  - unfold EmotionalMindV3.bind at 1. unfold raise_parent at 1.
    unfold EmotionalMindV3.bind at 1.
    unfold EmotionalMindV3.weight_of, EmotionalMindV3.store.
    pose proof (Hmem p (or_introl eq_refl)) as Hp. unfold Py.mem in Hp.
    destruct (Py.get w p) as [v|] eqn:Hget; [clear Hp|discriminate].
    destruct (IH (Py.set w p (Py.min 1.0 (v + amount * 0.5)))) as (w' & Hrun & Hin & Hout).
    { intros q Hq. rewrite mem_set. rewrite (Hmem q (or_intror Hq)).
      apply orb_true_r. }
    exists w'. split; [exact Hrun|]. split.
    + intros q vq [<-|Hq] Hvq.
      * rewrite (Hout _ Hnotin), get_set_same. congruence.
      * apply Hin; auto. rewrite get_set_other; auto. congruence.
    + intros x Hx. rewrite Hout by tauto. apply get_set_other.
      intros ->. apply Hx. now left.
Qed.

End RaiseParents.

(** What [increase_state_weight] does when ancestor resolution comes back. *)
Lemma increase_state_weight_effect sd w state_name amount fuel parents :
  covers w sd = true ->
  EmotionalMindV3._get_parent_states fuel sd state_name = Some parents ->
  exists w',
    EmotionalMindV3.increase_state_weight fuel sd state_name amount w
    = (Py.Return tt, w') /\
    match Py.get w state_name with
    | None => w' = w
    | Some current =>
        Py.get w' state_name = Some (Py.min 1.0 (current + amount)) /\
        (forall p v,
            ancestor sd state_name p ->
            Py.get w p = Some v ->
            Py.get w' p = Some (Py.min 1.0 (v + amount * 0.5))) /\
        (forall x,
            x <> state_name ->
            ~ ancestor sd state_name x ->
            Py.get w' x = Py.get w x)
    end.
Proof.
  intros Hcovers Hparents. rename state_name into s.
  rewrite increase_state_weight_unfold.
  destruct (Py.get w s) as [current|] eqn:Hget; [|eauto].
  rewrite Hparents.
  destruct (parent_states_ancestors _ _ _ _ Hparents) as [Hnd Hanc].
  assert (Hloop : ~ ancestor sd s s).
  { intros H. rewrite (parent_states_diverges sd s H fuel) in Hparents.
    discriminate. }
  assert (Hself : ~ In s parents) by now rewrite Hanc.
  cbv zeta.
  destruct (raise_parents_result amount parents Hnd
              (Py.set w s (Py.min 1.0 (current + amount))))
    as (w' & Hrun & Hin & Hout).
  { intros p Hp. rewrite mem_set.
    unfold covers in Hcovers. rewrite forallb_forall in Hcovers.
    rewrite Hcovers; [apply orb_true_r|].
    apply Hanc in Hp. apply ancestor_first_edge in Hp as (c & Hedge & Hp).
    assert (Hknown : forall a b, parent_edge sd a b -> In b (Py.keys sd)).
    { intros a b (node & _ & _ & Hmem). now apply mem_keys. }
    destruct Hp as [->|Hp]; [eauto|].
    clear Hedge. induction Hp; eauto. }
  exists w'. split; [exact Hrun|]. split; [|split].
  - rewrite (Hout _ Hself). apply get_set_same.
  - intros p v Hp Hv. apply Hin; [now apply Hanc|].
    rewrite get_set_other; auto. intros ->. exact (Hloop Hp).
  - intros x Hx Hnot. rewrite Hout by (rewrite Hanc; exact Hnot).
    now apply get_set_other.
Qed.

(** C10: in a table that holds a weight for every known state, a name
    absent from the table leaves the table as it was, on every graph.  For a
    state of the table, [increase_state_weight] returns when the graph has no
    cycle and, on every graph, whenever it returns it has done this: the new
    weight of the state is its weight plus the amount, capped at 1.0, every
    transitive ancestor gets its weight plus half the amount, capped at 1.0,
    whatever its distance, and no other weight changes.  When the state is
    its own ancestor the call does not return: it raises [RecursionError]
    with the weight of the state raised and no ancestor raised. *)
Theorem increase_state_weight_raises_ancestors :
  forall tree w state_name amount fuel,
    covers w (EmotionalMindV3.states_dict tree) = true ->
    (Py.get w state_name = None ->
     EmotionalMindV3.increase_state_weight
       fuel (EmotionalMindV3.states_dict tree) state_name amount w
     = (Py.Return tt, w)) /\
    (acyclic (EmotionalMindV3.states_dict tree) ->
     (List.length (EmotionalMindV3.states_dict tree) < fuel)%nat ->
     exists w',
       EmotionalMindV3.increase_state_weight
         fuel (EmotionalMindV3.states_dict tree) state_name amount w
       = (Py.Return tt, w')) /\
    (forall w',
        EmotionalMindV3.increase_state_weight
          fuel (EmotionalMindV3.states_dict tree) state_name amount w
        = (Py.Return tt, w') ->
        match Py.get w state_name with
        | None => w' = w
        | Some current =>
            Py.get w' state_name = Some (Py.min 1.0 (current + amount)) /\
            (forall p v,
                ancestor (EmotionalMindV3.states_dict tree) state_name p ->
                Py.get w p = Some v ->
                Py.get w' p = Some (Py.min 1.0 (v + amount * 0.5))) /\
            (forall x,
                x <> state_name ->
                ~ ancestor (EmotionalMindV3.states_dict tree) state_name x ->
                Py.get w' x = Py.get w x)
        end) /\
    (forall current,
        ancestor (EmotionalMindV3.states_dict tree) state_name state_name ->
        Py.get w state_name = Some current ->
        EmotionalMindV3.increase_state_weight
          fuel (EmotionalMindV3.states_dict tree) state_name amount w
        = (Py.Raise Py.RecursionError,
           Py.set w state_name (Py.min 1.0 (current + amount)))).
Proof.
  intros tree w s amount fuel Hcovers.
  set (sd := EmotionalMindV3.states_dict tree) in *.
  split; [|split; [|split]].
  - intros Hnone. now rewrite increase_state_weight_unfold, Hnone.
  - intros Hacyclic Hfuel.
    destruct (parent_states_returns sd s Hacyclic) as [parents Hparents].
    apply parent_states_fuel_le with (fuel' := fuel) in Hparents; [|lia].
    destruct (increase_state_weight_effect sd w s amount fuel parents Hcovers Hparents)
      as (w' & Hrun & _).
    eauto.
  - intros w' Hrun.
    destruct (EmotionalMindV3._get_parent_states fuel sd s) as [parents|] eqn:Hparents.
    + destruct (increase_state_weight_effect sd w s amount fuel parents Hcovers Hparents)
        as (w'' & Hrun' & Heffect).
      rewrite Hrun in Hrun'. injection Hrun' as <-. exact Heffect.
    + rewrite increase_state_weight_unfold in Hrun.
      destruct (Py.get w s); [|now injection Hrun as <-].
      rewrite Hparents in Hrun. discriminate.
  - intros current Hloop Hget.
    rewrite increase_state_weight_unfold, Hget. cbv zeta.
    now rewrite (parent_states_diverges sd s Hloop fuel).
Qed.

(** "Объективизация" is raised by 0.2 in the tree of
    [experiments/test_state_propagation.py], from the weights of a new
    session: it gets 0.2 and its three ancestors get 0.1 each. *)
Lemma increase_state_weight_raises_ancestors_witness :
  let sd := EmotionalMindV3.states_dict test_tree in
  let w := EmotionalMindV3.init_state_weights test_tree in
  (exists w',
      EmotionalMindV3.increase_state_weight 6 sd "Объективизация" 0.2 w
      = (Py.Return tt, w')) /\
  EmotionalMindV3.increase_state_weight 6 sd "Объективизация" 0.2 w
  = (Py.Return tt,
     [("Пустота", Py.min 1.0 (0.0 + 0.2 * 0.5));
      ("Тревога", Py.min 1.0 (0.0 + 0.2 * 0.5));
      ("Гнев", Py.min 1.0 (0.0 + 0.2 * 0.5));
      ("Объективизация", Py.min 1.0 (0.0 + 0.2));
      ("Сомнение", 0.0)]).
Proof.
  intros sd w.
  destruct (increase_state_weight_raises_ancestors
              test_tree w "Объективизация" 0.2 6%nat
              (init_state_weights_covers test_tree)) as (_ & Hreturns & _).
  split; [|reflexivity].
  apply Hreturns.
  - apply (decreasing_rank_acyclic _ test_tree_rank). vm_compute. reflexivity.
  - vm_compute. lia.
Defined.

Lemma cyclic_tree_loop :
  ancestor (EmotionalMindV3.states_dict cyclic_tree) "Гнев" "Гнев" /\
  ancestor (EmotionalMindV3.states_dict cyclic_tree) "Гнев" "Тревога".
Proof.
  assert (Hedge : forall s c node,
             Py.get (EmotionalMindV3.states_dict cyclic_tree) s = Some node ->
             In c (node_conditions node) ->
             Py.mem (EmotionalMindV3.states_dict cyclic_tree) c = true ->
             parent_edge (EmotionalMindV3.states_dict cyclic_tree) s c).
  { intros s c node ? ? ?. exists node. auto. }
  split.
  - apply ancestor_step with "Тревога";
      [eapply Hedge; [reflexivity|simpl; auto|reflexivity]|].
    apply ancestor_step with "Пустота";
      [eapply Hedge; [reflexivity|simpl; auto|reflexivity]|].
    apply ancestor_parent. eapply Hedge; [reflexivity|simpl; auto|reflexivity].
  - apply ancestor_parent. eapply Hedge; [reflexivity|simpl; auto|reflexivity].
Qed.

(** C10, as stated for every state of the table, fails on a graph with a
    cycle.  With the conditions "Гнев" <- "Тревога" <- "Пустота" <- "Гнев"
    and the weights of a new session, the table holds a weight for every
    known state, "Гнев" is a state of the table and "Тревога" is one of its
    ancestors; yet raising "Гнев" by 0.2 returns at no depth of recursion,
    and at every depth it leaves "Тревога" at 0.0, which is not the 0.1 of
    the claim. *)
Lemma increase_state_weight_fails_on_cycle :
  let sd := EmotionalMindV3.states_dict cyclic_tree in
  let w := EmotionalMindV3.init_state_weights cyclic_tree in
  covers w sd = true /\
  Py.get w "Гнев" = Some 0.0 /\
  Py.get w "Тревога" = Some 0.0 /\
  ancestor sd "Гнев" "Тревога" /\
  (~ exists fuel w',
       EmotionalMindV3.increase_state_weight fuel sd "Гнев" 0.2 w
       = (Py.Return tt, w')) /\
  (~ exists fuel,
       Py.get (snd (EmotionalMindV3.increase_state_weight fuel sd "Гнев" 0.2 w))
              "Тревога"
       <> Some 0.0) /\
  ~ 0.0 == Py.min 1.0 (0.0 + 0.2 * 0.5).
Proof.
  intros sd w.
  assert (Hcall : forall fuel,
             EmotionalMindV3.increase_state_weight fuel sd "Гнев" 0.2 w
             = (Py.Raise Py.RecursionError,
                Py.set w "Гнев" (Py.min 1.0 (0.0 + 0.2)))).
  { intros fuel. rewrite increase_state_weight_unfold.
    change (Py.get w "Гнев") with (Some 0.0). cbv zeta.
    now rewrite (parent_states_diverges sd "Гнев" (proj1 cyclic_tree_loop) fuel). }
  split; [reflexivity|]. split; [reflexivity|]. split; [reflexivity|].
  split; [exact (proj2 cyclic_tree_loop)|].
  split; [|split].
  - intros (fuel & w' & Hrun). rewrite Hcall in Hrun. discriminate.
  - intros (fuel & Hmoved). apply Hmoved. rewrite Hcall. reflexivity.
  - vm_compute. discriminate.
Qed.

(** ** Propagation *)

Lemma apply_influence_mem active k v s :
  Py.mem (EmotionalMind.apply_influence active (k, v)) s = true <->
  Py.mem active s = true \/ (s = k /\ 0.2 < v).
Proof.
  simpl. destruct (Py.get active k) as [current|] eqn:Hk.
  - rewrite mem_set, orb_true_iff, String.eqb_eq. split.
    + intros [->|H]; auto. left. unfold Py.mem. now rewrite Hk.
    + intros [H|[-> _]]; auto.
  - destruct (Qlt_le_dec 0.2 v) as [Hlt|Hle].
    + rewrite mem_set, orb_true_iff, String.eqb_eq. tauto.
    + split; auto. intros [H|[_ H]]; auto. lra.
Qed.

Lemma apply_influences_mem na active s :
  Py.mem (fold_left EmotionalMind.apply_influence na active) s = true <->
  Py.mem active s = true \/ exists v, In (s, v) na /\ 0.2 < v.
Proof.
  revert active. induction na as [|[k v] na IH]; intros active; cbn [fold_left].
  - split; auto. intros [H|(v & [] & _)]; auto.
  - rewrite IH, apply_influence_mem. split.
    + intros [[H|[-> H]]|(v' & H & Hv')]; eauto.
      * right. exists v. split; auto. now left.
      * right. exists v'. split; auto. now right.
    + intros [H|(v' & [Heq|H] & Hv')]; eauto.
      injection Heq as <- <-. auto.
Qed.

Lemma apply_influences_untouched na active s :
  ~ In s (Py.keys na) ->
  Py.get (fold_left EmotionalMind.apply_influence na active) s = Py.get active s.
Proof.
  revert active. induction na as [|[k v] na IH]; intros active; cbn [fold_left]; auto.
  intros Hnotin. simpl in Hnotin. rewrite IH by tauto.
  assert (s <> k) by (intros ->; tauto).
  simpl. destruct (Py.get active k); [now apply get_set_other|].
  destruct (Qlt_le_dec 0.2 v); auto. now apply get_set_other.
Qed.

Lemma apply_influences_created na active s v :
  unique_keys na -> In (s, v) na -> Py.get active s = None -> 0.2 < v ->
  Py.get (fold_left EmotionalMind.apply_influence na active) s = Some v.
Proof.
  unfold unique_keys. revert active.
  induction na as [|[k v'] na IH]; intros active Hnd Hin Hnone Hv; [destruct Hin|].
  simpl in Hnd. inversion Hnd as [|? ? Hnotin Hnd']; subst.
  cbn [fold_left]. destruct Hin as [Heq|Hin].
  - injection Heq as -> ->. rewrite apply_influences_untouched by exact Hnotin.
    simpl. rewrite Hnone. destruct (Qlt_le_dec 0.2 v); [apply get_set_same|lra].
  - apply IH; auto.
    assert (s <> k).
    { intros ->. apply Hnotin. apply (in_map fst) in Hin. exact Hin. }
    simpl. destruct (Py.get active k); [now rewrite get_set_other|].
    destruct (Qlt_le_dec 0.2 v'); auto. now rewrite get_set_other.
Qed.

Lemma accumulate_unique influence na child :
  unique_keys na -> unique_keys (EmotionalMind.accumulate influence na child).
Proof.
  intros H. unfold EmotionalMind.accumulate.
  destruct (Py.get na child); now apply unique_keys_set.
Qed.

Lemma collect_influence_unique tree active :
  unique_keys (EmotionalMind.collect_influence tree active).
Proof.
  unfold EmotionalMind.collect_influence.
  apply (fold_left_invariant unique_keys); [|constructor].
  intros na [k v] _ Hna. simpl.
  destruct (Qlt_le_dec v 0.1); auto.
  apply (fold_left_invariant unique_keys); auto.
  intros; now apply accumulate_unique.
Qed.

(** C4: in one propagation iteration, a state that the store does not hold
    gets an entry exactly when the influence accumulated for it in that
    iteration is strictly above 0.2 (the entry is then that influence); with
    an accumulated influence of 0.2 or less the state stays absent. *)
Theorem propagation_creates_above_threshold_only :
  forall tree active state,
    Py.get active state = None ->
    (Py.mem (EmotionalMind.propagate_iteration tree active) state = true <->
     exists influence,
       Py.get (EmotionalMind.collect_influence tree active) state = Some influence /\
       0.2 < influence) /\
    (forall influence,
        Py.get (EmotionalMind.collect_influence tree active) state = Some influence ->
        0.2 < influence ->
        Py.get (EmotionalMind.propagate_iteration tree active) state = Some influence) /\
    (forall influence,
        Py.get (EmotionalMind.collect_influence tree active) state = Some influence ->
        influence <= 0.2 ->
        Py.get (EmotionalMind.propagate_iteration tree active) state = None).
Proof.
  intros tree active state Habsent.
  pose proof (collect_influence_unique tree active) as Hunique.
  assert (Hiff :
    Py.mem (EmotionalMind.propagate_iteration tree active) state = true <->
    exists influence,
      Py.get (EmotionalMind.collect_influence tree active) state = Some influence /\
      0.2 < influence).
  { unfold EmotionalMind.propagate_iteration. rewrite apply_influences_mem.
    unfold Py.mem at 1. rewrite Habsent. split.
    - intros [H|(v & Hin & Hv)]; [discriminate|].
      exists v. split; auto. now apply In_get.
    - intros (v & Hget & Hv). right. exists v. split; auto. now apply get_In. }
  split; [exact Hiff|]. split.
  - intros influence Hget Hlt. unfold EmotionalMind.propagate_iteration.
    apply apply_influences_created; auto. now apply get_In.
  - intros influence Hget Hle.
    destruct (Py.get (EmotionalMind.propagate_iteration tree active) state) eqn:E; auto.
    exfalso. assert (Hmem : Py.mem (EmotionalMind.propagate_iteration tree active) state = true).
    { unfold Py.mem. now rewrite E. }
    apply Hiff in Hmem as (v & Hv & Hlt). rewrite Hget in Hv. injection Hv as <-. lra.
Qed.

(** A sole parent "Гнев" at 0.3 gives its only child "Объективизация" the
    influence 0.15, and the child is not created. *)
Lemma propagation_creates_above_threshold_only_witness :
  let active := [("Гнев", 0.3)] in
  (Py.mem (EmotionalMind.propagate_iteration test_tree active) "Объективизация" = true <->
   exists influence,
     Py.get (EmotionalMind.collect_influence test_tree active) "Объективизация"
     = Some influence /\ 0.2 < influence) /\
  (forall influence,
      Py.get (EmotionalMind.collect_influence test_tree active) "Объективизация"
      = Some influence ->
      0.2 < influence ->
      Py.get (EmotionalMind.propagate_iteration test_tree active) "Объективизация"
      = Some influence) /\
  (forall influence,
      Py.get (EmotionalMind.collect_influence test_tree active) "Объективизация"
      = Some influence ->
      influence <= 0.2 ->
      Py.get (EmotionalMind.propagate_iteration test_tree active) "Объективизация" = None).
Proof.
  intros active.
  apply (propagation_creates_above_threshold_only test_tree active "Объективизация").
  reflexivity.
Defined.

Example sole_parent_below_threshold :
  Py.get (EmotionalMind.collect_influence test_tree [("Гнев", 0.3)]) "Объективизация"
  = Some (0.3 * 0.5) /\
  0.3 * 0.5 == 0.15 /\
  EmotionalMind.propagate_iteration test_tree [("Гнев", 0.3)] = [("Гнев", 0.3)].
Proof. repeat split. Qed.

Example one_child_above_threshold :
  EmotionalMindV1.activation
    (EmotionalMind.propagate_iteration
       [mk_node "Гнев" [] None; mk_node "Объективизация" ["Гнев"] None]
       [("Гнев", 0.8)])
    "Объективизация" == 0.4.
Proof. reflexivity. Qed.

(** C5: on the tree of [experiments/test_state_propagation.py], from the
    store that holds "Тревога" at 0.8, three propagation iterations, each one
    reading the store left by the one before, give "Гнев" and "Сомнение" an
    entry with a non-zero activation (both reach 1.0). *)
Theorem cascade_activates_anger_and_doubt :
  let store :=
    EmotionalMind.propagate_activation test_tree 3 [("Тревога", 0.8)] in
  (exists a, Py.get store "Гнев" = Some a /\ ~ a == 0 /\ a == 1.0) /\
  (exists a, Py.get store "Сомнение" = Some a /\ ~ a == 0 /\ a == 1.0) /\
  store =
    EmotionalMind.propagate_iteration test_tree
      (EmotionalMind.propagate_iteration test_tree
         (EmotionalMind.propagate_iteration test_tree [("Тревога", 0.8)])).
Proof.
  split; [|split].
  - eexists. split; [vm_compute; reflexivity|]. split; [intros H; discriminate H|reflexivity].
  - eexists. split; [vm_compute; reflexivity|]. split; [intros H; discriminate H|reflexivity].
  - reflexivity.
Qed.

(** ** Pressure *)

Lemma pressure_loop table active acc :
  fold_left (fun pressure (item : string * Q) =>
               let (state, activation) := item in
               pressure + activation * EmotionalMind.urgency_weight table state)
            active acc
  == acc + weighted_sum table active.
Proof.
  revert acc. induction active as [|[state a] active IH]; intros acc; simpl.
  - ring.
  - rewrite IH. ring.
Qed.

(** C6: the pressure computed by [calculate_pressure] is the minimum of 1.0
    and the sum, over the stored states, of activation times urgency weight,
    where a state absent from the table of weights counts with 0.5; the store
    that holds "Гнев" at 0.8 has pressure 0.72. *)
Theorem pressure_is_capped_weighted_sum :
  forall active,
    EmotionalMind.calculate_pressure active
    == Qmin 1.0 (weighted_sum EmotionalMind.urgency_weights active) /\
    (forall table,
        EmotionalMind.calculate_pressure_with table active == pressure_spec table active) /\
    (forall table state,
        EmotionalMind.urgency_weight table state =
        match Py.get table state with Some weight => weight | None => 0.5 end) /\
    EmotionalMind.calculate_pressure [("Гнев", 0.8)] == 0.72 /\
    EmotionalMind.calculate_pressure_with [("Гнев", 0.9)] [("Гнев", 0.8)] == 0.72.
Proof.
  intros active.
  assert (H : forall table,
             EmotionalMind.calculate_pressure_with table active
             == pressure_spec table active).
  { intros table. unfold EmotionalMind.calculate_pressure_with, pressure_spec.
    rewrite py_min_Qmin. apply Q.min_compat; [reflexivity|].
    rewrite pressure_loop. ring. }
  split; [apply H|]. split; [exact H|]. split; [reflexivity|].
  split; reflexivity.
Qed.

Example pressure_is_capped :
  EmotionalMind.calculate_pressure [("Гнев", 0.8); ("Вывод", 0.9)] == 1.0 /\
  EmotionalMind.calculate_pressure [("Пустота", 0.6)] == 0.3.
Proof. split; reflexivity. Qed.

(** ** Spontaneous firing *)

Lemma triggered_states_spec w name :
  In name (EmotionalMindV3.get_triggered_states w) <->
  exists weight, In (name, weight) w /\ 1.0 <= weight.
Proof.
  unfold EmotionalMindV3.get_triggered_states, Py.keys.
  rewrite in_map_iff. split.
  - intros ([k v] & <- & Hin). apply filter_In in Hin as [Hin Hv].
    exists v. split; auto. simpl in Hv.
    unfold EmotionalMindV3.spontaneous_threshold in Hv.
    destruct (Qlt_le_dec v 1.0); [discriminate|auto].
  - intros (v & Hin & Hv). exists (name, v). split; auto.
    apply filter_In. split; auto. simpl.
    unfold EmotionalMindV3.spontaneous_threshold.
    destruct (Qlt_le_dec v 1.0); [lra|auto].
Qed.

(** [decrease_state_weight] never raises, so the loop that lowers the
    triggered states always comes to its end. *)
Lemma decrease_each_returns amount names :
  forall w,
    fst (EmotionalMindV3.for_each
           names
           (fun state => EmotionalMindV3.decrease_state_weight state amount) w)
    = Py.Return tt.
Proof.
  induction names as [|s rest IH]; intros w; simpl; auto.
  unfold EmotionalMindV3.bind at 1.
  unfold EmotionalMindV3.decrease_state_weight at 1.
  unfold EmotionalMindV3.bind, EmotionalMindV3.known, EmotionalMindV3.weight_of,
    EmotionalMindV3.store, Py.mem.
  destruct (Py.get w s) as [current|] eqn:E; simpl.
  - rewrite E. apply IH.
  - apply IH.
Qed.

(** The spontaneous response on both fields: the weights are those of
    [EmotionalMindV3.generate_spontaneous_response], and the history has one
    more entry. *)
Lemma session_spontaneous_response spontaneous_text w history :
  SessionV3.generate_spontaneous_response
    spontaneous_text (SessionV3.mk_mind w history)
  = (Py.Return tt,
     SessionV3.mk_mind
       (snd (EmotionalMindV3.generate_spontaneous_response w))
       (history ++ [SessionV3.spontaneous_message spontaneous_text])).
Proof.
  unfold SessionV3.generate_spontaneous_response,
    EmotionalMindV3.generate_spontaneous_response. simpl.
  pose proof (decrease_each_returns 0.4 (EmotionalMindV3.get_triggered_states w) w)
    as Hreturns.
  destruct (EmotionalMindV3.for_each _ _ w) as [outcome w']. simpl in *.
  now rewrite Hreturns.
Qed.

(** On the weights, [SessionV3.delayed_analysis] is
    [EmotionalMindV3.delayed_analysis]. *)
Lemma session_delayed_analysis_weights fuel sd increase decrease text m :
  EmotionalMindV3.delayed_analysis fuel sd increase decrease
                                   (SessionV3.mind_state_weights m)
  = (fst (SessionV3.delayed_analysis fuel sd increase decrease text m),
     SessionV3.mind_state_weights
       (snd (SessionV3.delayed_analysis fuel sd increase decrease text m))).
Proof.
  destruct m as [w0 history]. cbn [SessionV3.mind_state_weights].
  unfold SessionV3.delayed_analysis, EmotionalMindV3.delayed_analysis.
  cbn [SessionV3.mind_state_weights SessionV3.mind_conversation_history].
  unfold SessionV3.corrections, EmotionalMindV3.bind.
  destruct (EmotionalMindV3.for_each increase _ w0) as [[[]|e] w1];
    [|reflexivity].
  destruct (EmotionalMindV3.for_each decrease _ w1) as [[[]|e] w2];
    [|reflexivity].
  cbv zeta.
  destruct (EmotionalMindV3.get_triggered_states w2) as [|name rest] eqn:E;
    [reflexivity|].
  rewrite session_spontaneous_response. cbn [fst snd SessionV3.mind_state_weights].
  unfold EmotionalMindV3.ret, EmotionalMindV3.generate_spontaneous_response.
  pose proof (decrease_each_returns 0.4 (EmotionalMindV3.get_triggered_states w2) w2)
    as Hreturns.
  destruct (EmotionalMindV3.for_each _ _ w2) as [outcome w3]. simpl in *.
  now rewrite Hreturns.
Qed.

(** C7: [get_triggered_states] reports a state exactly when the table holds
    it with a weight of 1.0 or more, and [delayed_analysis] fires on that
    report.  Let [w] be the table that the corrections of [delayed_analysis]
    leave.  The spontaneous response is generated, which adds its entry to
    the conversation history, exactly when [w] holds some state at 1.0 or
    more.  When every weight of [w] is strictly below 1.0 (0.999, say)
    nothing is reported and the call ends with the table [w] and the history
    as it was.  When [w] holds a state at 1.0 or more that state is
    reported, the history gets the spontaneous entry and the weights are
    those that the spontaneous response leaves. *)
Theorem spontaneous_trigger_at_saturation :
  forall fuel sd increase decrease spontaneous_text m w,
    SessionV3.corrections fuel sd increase decrease
                          (SessionV3.mind_state_weights m)
    = (Py.Return tt, w) ->
    let history := SessionV3.mind_conversation_history m in
    let fired := history ++ [SessionV3.spontaneous_message spontaneous_text] in
    let after :=
      SessionV3.delayed_analysis fuel sd increase decrease spontaneous_text m in
    (forall name,
        In name (EmotionalMindV3.get_triggered_states w) <->
        exists weight, In (name, weight) w /\ 1.0 <= weight) /\
    (SessionV3.mind_conversation_history (snd after) = fired <->
     exists name weight, In (name, weight) w /\ 1.0 <= weight) /\
    ((forall name weight, In (name, weight) w -> weight < 1.0) ->
     after = (Py.Return [], SessionV3.mk_mind w history)) /\
    (forall name weight,
        In (name, weight) w -> 1.0 <= weight ->
        In name (EmotionalMindV3.get_triggered_states w) /\
        after
        = (Py.Return (EmotionalMindV3.get_triggered_states w),
           SessionV3.mk_mind
             (snd (EmotionalMindV3.generate_spontaneous_response w))
             fired)) /\
    EmotionalMindV3.get_triggered_states [("Гнев", 0.999)] = [] /\
    EmotionalMindV3.get_triggered_states [("Гнев", 1.0)] = ["Гнев"].
Proof.
  intros fuel sd increase decrease text m w Hcorrections history fired after.
  assert (Hquiet : EmotionalMindV3.get_triggered_states w = [] ->
                   after = (Py.Return [], SessionV3.mk_mind w history)).
  { intros Hnone. unfold after, SessionV3.delayed_analysis.
    rewrite Hcorrections. cbv zeta. now rewrite Hnone. }
  assert (Hfires : EmotionalMindV3.get_triggered_states w <> [] ->
                   after
                   = (Py.Return (EmotionalMindV3.get_triggered_states w),
                      SessionV3.mk_mind
                        (snd (EmotionalMindV3.generate_spontaneous_response w))
                        fired)).
  { intros Hsome. unfold after, SessionV3.delayed_analysis.
    rewrite Hcorrections. cbv zeta.
    destruct (EmotionalMindV3.get_triggered_states w) as [|name rest] eqn:E;
      [contradiction|].
    now rewrite session_spontaneous_response. }
  assert (Hbelow : (forall name weight, In (name, weight) w -> weight < 1.0) ->
                   EmotionalMindV3.get_triggered_states w = []).
  { intros Hall.
    destruct (EmotionalMindV3.get_triggered_states w) as [|name l] eqn:E; auto.
    exfalso.
    destruct (proj1 (triggered_states_spec w name)) as (v & Hin & Hv).
    { rewrite E. now left. }
    specialize (Hall _ _ Hin). lra. }
  assert (Hreported : forall name weight,
             In (name, weight) w -> 1.0 <= weight ->
             In name (EmotionalMindV3.get_triggered_states w)).
  { intros name weight Hin Hweight. apply triggered_states_spec. eauto. }
  split; [intros name; apply triggered_states_spec|].
  split; [|split; [|split; [|split; reflexivity]]].
  - split.
    + intros Hhistory.
      destruct (EmotionalMindV3.get_triggered_states w) as [|name rest] eqn:E.
      * rewrite (Hquiet eq_refl) in Hhistory. simpl in Hhistory.
        exfalso. unfold fired in Hhistory.
        apply (f_equal (@List.length _)) in Hhistory.
        rewrite length_app in Hhistory. simpl in Hhistory. lia.
      * destruct (proj1 (triggered_states_spec w name)) as (v & Hin & Hv).
        { rewrite E. now left. }
        eauto.
    + intros (name & weight & Hin & Hweight).
      rewrite Hfires; [reflexivity|].
      intros Hnone. pose proof (Hreported _ _ Hin Hweight) as Hname.
      now rewrite Hnone in Hname.
  - intros Hall. apply Hquiet. now apply Hbelow.
  - intros name weight Hin Hweight.
    pose proof (Hreported _ _ Hin Hweight) as Hname. split; [exact Hname|].
    apply Hfires. intros Hnone. now rewrite Hnone in Hname.
Qed.

(** In the tree of [experiments/test_state_propagation.py] the model asks
    to strengthen "Гнев", held at 0.9, and to weaken "Сомнение", held at
    1.0: the corrections leave "Гнев" at 1.0 and "Сомнение" at 0.85, and the
    spontaneous response is generated for "Гнев". *)
Lemma spontaneous_trigger_at_saturation_witness :
  let sd := EmotionalMindV3.states_dict test_tree in
  let m :=
    SessionV3.mk_mind
      [("Пустота", 0.0); ("Тревога", 0.3); ("Гнев", 0.9);
       ("Объективизация", 0.0); ("Сомнение", 1.0)]
      [] in
  let w :=
    [("Пустота", Py.min 1.0 (0.0 + 0.15 * 0.5));
     ("Тревога", Py.min 1.0 (0.3 + 0.15 * 0.5));
     ("Гнев", Py.min 1.0 (0.9 + 0.15));
     ("Объективизация", 0.0);
     ("Сомнение", Py.max 0.0 (1.0 - 0.15))] in
  let history := SessionV3.mind_conversation_history m in
  let fired := history ++ [SessionV3.spontaneous_message "..."] in
  let after := SessionV3.delayed_analysis 6 sd ["Гнев"] ["Сомнение"] "..." m in
  (forall name,
      In name (EmotionalMindV3.get_triggered_states w) <->
      exists weight, In (name, weight) w /\ 1.0 <= weight) /\
  (SessionV3.mind_conversation_history (snd after) = fired <->
   exists name weight, In (name, weight) w /\ 1.0 <= weight) /\
  ((forall name weight, In (name, weight) w -> weight < 1.0) ->
   after = (Py.Return [], SessionV3.mk_mind w history)) /\
  (forall name weight,
      In (name, weight) w -> 1.0 <= weight ->
      In name (EmotionalMindV3.get_triggered_states w) /\
      after
      = (Py.Return (EmotionalMindV3.get_triggered_states w),
         SessionV3.mk_mind
           (snd (EmotionalMindV3.generate_spontaneous_response w))
           fired)) /\
  EmotionalMindV3.get_triggered_states [("Гнев", 0.999)] = [] /\
  EmotionalMindV3.get_triggered_states [("Гнев", 1.0)] = ["Гнев"].
Proof.
  intros sd m w.
  apply (spontaneous_trigger_at_saturation
           6 sd ["Гнев"] ["Сомнение"] "..." m w).
  reflexivity.
Defined.

(** The same session in full: "Гнев" is reported, the history gets the
    spontaneous entry and "Гнев" is lowered to 0.6; with "Гнев" held at
    0.849 before the corrections, which bring it to 0.999, nothing fires. *)
Example delayed_analysis_fires_at_saturation :
  let sd := EmotionalMindV3.states_dict test_tree in
  let table (anger : Q) : dict Q :=
    [("Пустота", 0.0); ("Тревога", 0.3); ("Гнев", anger);
     ("Объективизация", 0.0); ("Сомнение", 1.0)] in
  let after (anger : Q) :=
    SessionV3.delayed_analysis 6 sd ["Гнев"] ["Сомнение"] "..."
                               (SessionV3.mk_mind (table anger) []) in
  fst (after 0.9) = Py.Return ["Гнев"] /\
  SessionV3.mind_conversation_history (snd (after 0.9))
  = [SessionV3.mk_message "бот (спонтанно)" "..."] /\
  (exists weight,
      Py.get (SessionV3.mind_state_weights (snd (after 0.9))) "Гнев"
      = Some weight /\ weight == 0.6) /\
  fst (after 0.849) = Py.Return [] /\
  SessionV3.mind_conversation_history (snd (after 0.849)) = [] /\
  (exists weight,
      Py.get (SessionV3.mind_state_weights (snd (after 0.849))) "Гнев"
      = Some weight /\ weight == 0.999).
Proof.
  cbv zeta. repeat split; try reflexivity; eexists; split; reflexivity.
Qed.

(** ** The memory archive *)



Lemma archive_reachable_iter n m :
  archive_reachable (EmotionalMind.short_term_memory m) ->
  archive_reachable
    (EmotionalMind.short_term_memory
       (Nat.iter n EmotionalMind.archive_current_state m)).
Proof.
  intros Hm. induction n as [|n IH]; simpl; auto. now apply archive_record.
Qed.


Lemma process_message_archive tree user_input r m :
  archive_reachable (EmotionalMind.short_term_memory m) ->
  archive_reachable
    (EmotionalMind.short_term_memory
       (fst (EmotionalMind.process_message tree user_input r m))).
Proof.
  intros Hm. unfold EmotionalMind.process_message.
  destruct (EmotionalMind.should_respond r && _); simpl; auto.
  match goal with
  | |- archive_reachable
         (EmotionalMind.short_term_memory (EmotionalMind.archive_current_state ?m1)) =>
      apply (archive_record m1)
  end.
  exact Hm.
Qed.

(** Seven turns that all produce a response: the archive keeps the entries
    of the last five, oldest first. *)
Example archive_keeps_last_five :
  let r := EmotionalMind.mk_replies ["Гнев"] ["Гнев"] [] true ["тема"] "ответ" in
  let turn m := fst (EmotionalMind.process_message test_tree "реплика" r m) in
  map EmotionalMind.entry_timestamp
      (EmotionalMind.short_term_memory (Nat.iter 7 turn EmotionalMind.init_mind))
  = [5; 7; 9; 11; 13]%nat.
Proof. vm_compute. reflexivity. Qed.

(** ** Ambient decay inside a turn *)

Lemma attenuate_cons factor k v store :
  attenuate factor ((k, v) :: store) =
  if Qlt_le_dec (v * factor k) 0.1 then attenuate factor store
  else (k, v * factor k) :: attenuate factor store.
Proof.
  unfold attenuate. simpl. destruct (Qlt_le_dec (v * factor k) 0.1); reflexivity.
Qed.

(** The fading loop over the keys is the spec's map-and-filter: here for
    the part [todo] of the store that the loop has not visited yet. *)
Lemma fade_loop factor todo :
  forall done,
    unique_keys (done ++ todo) ->
    fold_left (fade factor) (Py.keys todo) (done ++ todo)
    = done ++ attenuate factor todo.
Proof.
  unfold unique_keys, Py.keys.
  induction todo as [|[k v] todo IH]; intros done Hnd; simpl.
  - reflexivity.
  - assert (Hk : ~ In k (Py.keys done)).
    { rewrite map_app in Hnd. simpl in Hnd. apply NoDup_remove_2 in Hnd.
      intros H. apply Hnd. apply in_or_app. now left. }
    unfold fade at 2.
    rewrite (get_app_r done _ k Hk). simpl. rewrite String.eqb_refl.
    rewrite (set_app_r done _ k _ Hk). simpl. rewrite String.eqb_refl.
    rewrite attenuate_cons.
    destruct (Qlt_le_dec (v * factor k) 0.1) as [Hlow|Hkeep].
    + rewrite (del_app_r done _ k Hk). simpl. rewrite String.eqb_refl.
      apply IH. rewrite map_app in *. simpl in Hnd.
      now apply NoDup_remove_1 in Hnd.
    + change (done ++ (k, v * factor k) :: todo)
        with (done ++ [(k, v * factor k)] ++ todo).
      rewrite app_assoc, IH.
      * now rewrite <- app_assoc.
      * rewrite <- app_assoc. simpl. rewrite map_app in *. exact Hnd.
Qed.

Lemma ambient_decay_is_decay_all active :
  unique_keys active -> EmotionalMind.ambient_decay active = decay_all 0.92 active.
Proof.
  intros Hnd. unfold EmotionalMind.ambient_decay.
  exact (fade_loop (fun _ => 0.92) active [] Hnd).
Qed.

Lemma raise_activation_unique tree acts incs active :
  unique_keys active ->
  unique_keys (EmotionalMind.raise_activation tree acts incs active).
Proof.
  intros Hnd. unfold EmotionalMind.raise_activation.
  apply (fold_left_invariant unique_keys).
  - intros a state _ Ha. unfold EmotionalMind.increase_state.
    destruct (Py.get a state); auto. now apply unique_keys_set.
  - apply (fold_left_invariant unique_keys); auto.
    intros a state _ Ha. unfold EmotionalMind.activate_state.
    destruct (EmotionalMind.in_nodes_map tree state); auto.
    destruct (Py.get a state); now apply unique_keys_set.
Qed.

Lemma fade_unique factor active state :
  unique_keys active -> unique_keys (fade factor active state).
Proof.
  intros Hnd. unfold fade. destruct (Py.get active state); auto.
  destruct (Qlt_le_dec _ _).
  - apply unique_keys_del. now apply unique_keys_set.
  - now apply unique_keys_set.
Qed.

Lemma propagate_activation_unique tree iterations active :
  unique_keys active ->
  unique_keys (EmotionalMind.propagate_activation tree iterations active).
Proof.
  revert active. induction iterations as [|n IH]; simpl; auto.
  intros active Hnd. apply IH. unfold EmotionalMind.propagate_iteration.
  apply (fold_left_invariant unique_keys); auto.
  intros a [state value] _ Ha. simpl.
  destruct (Py.get a state); [now apply unique_keys_set|].
  destruct (Qlt_le_dec 0.2 value); auto. now apply unique_keys_set.
Qed.

(** A turn keeps the keys of the store distinct, so the hypothesis of the
    statement below holds along every session. *)
Lemma process_message_unique tree user_input r m :
  unique_keys (EmotionalMind.mind_active_nodes m) ->
  unique_keys (EmotionalMind.mind_active_nodes
                 (fst (EmotionalMind.process_message tree user_input r m))).
Proof.
  intros Hm. unfold EmotionalMind.process_message.
  assert (unique_keys
            (EmotionalMind.propagate_activation tree 3
               (EmotionalMind.update_activation
                  tree (EmotionalMind.states_to_activate r)
                  (EmotionalMind.states_to_increase r)
                  (EmotionalMind.mind_active_nodes m)))).
  { apply propagate_activation_unique.
    unfold EmotionalMind.update_activation, EmotionalMind.ambient_decay.
    apply (fold_left_invariant unique_keys).
    - intros; now apply fade_unique.
    - now apply raise_activation_unique. }
  destruct (EmotionalMind.should_respond r && _); simpl; auto.
  unfold EmotionalMind.reduce_weights_after_response.
  apply (fold_left_invariant unique_keys); [intros; now apply fade_unique|].
  unfold EmotionalMind.archive_current_state.
  destruct (EmotionalMind.significant_states _); simpl; auto.
Qed.

(** C9, as stated, fails: in a turn that activates "Тревога" on a new
    session, the code leaves "Гнев" at 0.966, while a turn that decays once
    after the propagation would leave it at 0.92. *)
Lemma decay_is_not_after_propagation :
  let r := EmotionalMind.mk_replies [] ["Тревога"] [] false [] "" in
  let after_turn :=
    EmotionalMind.mind_active_nodes
      (fst (EmotionalMind.process_message test_tree "реплика" r EmotionalMind.init_mind)) in
  let decay_last := turn_with_decay_last test_tree ["Тревога"] [] [] in
  EmotionalMindV1.activation after_turn "Гнев" == 0.966 /\
  EmotionalMindV1.activation decay_last "Гнев" == 0.92 /\
  ~ EmotionalMindV1.activation after_turn "Гнев"
    == EmotionalMindV1.activation decay_last "Гнев".
Proof.
  repeat split. intros H. discriminate H.
Qed.

(** C9, amended: in every processed turn the ambient decay (every stored
    activation multiplied by 0.92, the entries that fall below 0.1 removed)
    is applied exactly once; it is applied after the activation update that
    the classifier drives and before the propagation; the reduction after a
    response comes last, when there is a response. *)
Theorem ambient_decay_once_before_propagation :
  forall tree user_input r m,
    unique_keys (EmotionalMind.mind_active_nodes m) ->
    let engine_store :=
      EmotionalMind.propagate_activation tree 3
        (decay_all 0.92
           (EmotionalMind.raise_activation
              tree (EmotionalMind.states_to_activate r)
              (EmotionalMind.states_to_increase r)
              (EmotionalMind.mind_active_nodes m))) in
    EmotionalMind.mind_active_nodes
      (fst (EmotionalMind.process_message tree user_input r m))
    = match snd (EmotionalMind.process_message tree user_input r m) with
      | Some _ => EmotionalMind.reduce_weights_after_response engine_store
      | None => engine_store
      end.
Proof.
  intros tree user_input r m Hnd engine_store. subst engine_store.
  rewrite <- ambient_decay_is_decay_all by now apply raise_activation_unique.
  unfold EmotionalMind.process_message, EmotionalMind.update_activation.
  destruct (EmotionalMind.should_respond r && _); simpl; [|reflexivity].
  unfold EmotionalMind.archive_current_state.
  destruct (EmotionalMind.significant_states _); reflexivity.
Qed.

(** The turn of [experiments/test_state_propagation.py]: "Тревога" is
    activated on a new session. *)
Lemma ambient_decay_once_before_propagation_witness :
  let r := EmotionalMind.mk_replies [] ["Тревога"] [] false [] "" in
  let engine_store :=
    EmotionalMind.propagate_activation test_tree 3
      (decay_all 0.92
         (EmotionalMind.raise_activation test_tree ["Тревога"] [] [])) in
  EmotionalMind.mind_active_nodes
    (fst (EmotionalMind.process_message test_tree "реплика" r EmotionalMind.init_mind))
  = match snd (EmotionalMind.process_message test_tree "реплика" r
                                             EmotionalMind.init_mind) with
    | Some _ => EmotionalMind.reduce_weights_after_response engine_store
    | None => engine_store
    end.
Proof.
  intros r.
  apply (ambient_decay_once_before_propagation
           test_tree "реплика" r EmotionalMind.init_mind).
  simpl. constructor.
Defined.

(** ** Loading the state graph *)

(** Both loaders read the same tree from a document that has the key. *)
Example loading_test_document :
  EmotionalMindV3.load_states_tree test_document
  = EmotionalMind.load_states_tree test_document /\
  match EmotionalMind.load_states_tree test_document with
  | Py.Return tree => tree_of_json tree = Some test_tree
  | Py.Raise _ => False
  end.
Proof. split; reflexivity. Qed.

(** The loader of ai_mind1.py fails as well when its key is absent. *)
Lemma loading_v1_without_key members :
  Py.get members "технологии" = None ->
  EmotionalMindV1.load_states_tree (Py.JObject members)
  = Py.Raise (Py.KeyError "технологии").
Proof. intros H. simpl. now rewrite H. Qed.

(** C3, as stated, fails for the loader of ai_mind2.py: a document without
    the key "состояния" (and without "технологии") is loaded as an empty
    list of states, and no exception is raised. *)
Lemma loader_v2_defaults_to_empty_graph :
  Py.get ([] : dict Py.json) "состояния" = None /\
  EmotionalMind.load_states_tree (Py.JObject []) = Py.Return (Py.JArray []) /\
  tree_of_json (Py.JArray []) = Some [] /\
  ~ fails_without_key EmotionalMind.load_states_tree.
Proof.
  repeat split. intros H. destruct (H [] eq_refl) as [e He]. discriminate He.
Qed.

(** C3, amended: for every document in which the key "состояния" is
    absent, the loader of ai_mind3.py fails with a [KeyError]; the loader of
    ai_mind2.py does not fail: it takes the list under the older key
    "технологии" when there is one, and an empty list otherwise. *)
Theorem loading_without_key :
  forall members,
    Py.get members "состояния" = None ->
    EmotionalMindV3.load_states_tree (Py.JObject members)
    = Py.Raise (Py.KeyError "состояния") /\
    EmotionalMind.load_states_tree (Py.JObject members)
    = Py.Return (match Py.get members "технологии" with
                 | Some tree => tree
                 | None => Py.JArray []
                 end).
Proof.
  intros members Habsent. simpl. rewrite Habsent. split; reflexivity.
Qed.

(** A document written for ai_mind1.py, with the key "технологии" only. *)
Lemma loading_without_key_witness :
  let members := [("технологии", Py.JArray [json_node "Пустота" []])] in
  EmotionalMindV3.load_states_tree (Py.JObject members)
  = Py.Raise (Py.KeyError "состояния") /\
  EmotionalMind.load_states_tree (Py.JObject members)
  = Py.Return (match Py.get members "технологии" with
               | Some tree => tree
               | None => Py.JArray []
               end).
Proof.
  intros members. apply (loading_without_key members). reflexivity.
Defined.

(** * Further properties of the sources *)

(** ** ai_mind2.py: what propagation does to the store *)

Lemma collect_influence_positive tree active :
  Forall (fun item : string * Q => 0 < snd item)
         (EmotionalMind.collect_influence tree active).
Proof.
  unfold EmotionalMind.collect_influence.
  apply (fold_left_invariant (Forall (fun item : string * Q => 0 < snd item)));
    [|constructor].
  intros na [state activation] _ Hna. simpl.
  destruct (Qlt_le_dec activation 0.1) as [|Hge]; auto.
  apply (fold_left_invariant (Forall (fun item : string * Q => 0 < snd item))); auto.
  intros na' child _ Hna'. unfold EmotionalMind.accumulate.
  destruct (Py.get na' child) as [acc|] eqn:E.
  - pose proof (proj1 (Forall_forall _ _) Hna' _ (get_In _ _ _ E)) as Hacc.
    simpl in Hacc. apply Forall_set; auto.
    intros k'. simpl. unfold Py.min. destruct (Qlt_le_dec _ _); lra.
  - apply Forall_set; auto. intros k'. simpl. lra.
Qed.

Lemma apply_influence_grows active item s v :
  bounded active -> 0 <= snd item ->
  Py.get active s = Some v ->
  exists v', Py.get (EmotionalMind.apply_influence active item) s = Some v' /\ v <= v'.
Proof.
  destruct item as [k value]. simpl. intros Hb Hvalue Hget.
  destruct (String.eqb_spec s k) as [->|Hne].
  - rewrite Hget, get_set_same. eexists. split; [reflexivity|].
    pose proof (bounded_get _ _ _ Hb Hget).
    unfold Py.min. destruct (Qlt_le_dec _ _); lra.
  - exists v. split; [|lra].
    destruct (Py.get active k); [now rewrite get_set_other|].
    destruct (Qlt_le_dec 0.2 value); auto. now rewrite get_set_other.
Qed.

Lemma apply_influences_grow na :
  Forall (fun item : string * Q => 0 <= snd item <= 1) na ->
  forall active s v,
    bounded active -> Py.get active s = Some v ->
    exists v',
      Py.get (fold_left EmotionalMind.apply_influence na active) s = Some v' /\
      v <= v'.
Proof.
  induction 1 as [|item na Hitem Hna IH]; intros active s v Hb Hget; cbn [fold_left].
  - exists v. split; auto. lra.
  - destruct (apply_influence_grows active item s v Hb (proj1 Hitem) Hget)
      as (v1 & Hget1 & Hle1).
    destruct (IH _ s v1 (apply_influence_bounded _ _ Hitem Hb) Hget1)
      as (v2 & Hget2 & Hle2).
    exists v2. split; auto. lra.
Qed.

(** X1: propagation never removes an entry and never lowers a level. *)
Theorem propagation_only_raises :
  forall tree iterations active state level,
    bounded active ->
    Py.get active state = Some level ->
    exists level',
      Py.get (EmotionalMind.propagate_activation tree iterations active) state
      = Some level' /\
      level <= level'.
Proof.
  intros tree iterations. induction iterations as [|n IH];
    intros active state level Hb Hget; simpl.
  - exists level. split; auto. lra.
  - destruct (apply_influences_grow
                (EmotionalMind.collect_influence tree active)
                (collect_influence_bounded tree active Hb)
                active state level Hb Hget) as (v1 & Hget1 & Hle1).
    destruct (IH (EmotionalMind.propagate_iteration tree active) state v1
                 (propagate_iteration_bounded tree active Hb) Hget1)
      as (v2 & Hget2 & Hle2).
    exists v2. split; auto. lra.
Qed.

Lemma propagation_only_raises_witness :
  exists level',
    Py.get (EmotionalMind.propagate_activation
              test_tree 3 [("Тревога", 0.8); ("Гнев", 0.3)]) "Гнев"
    = Some level' /\
    0.3 <= level'.
Proof.
  apply (propagation_only_raises test_tree 3 [("Тревога", 0.8); ("Гнев", 0.3)]
                                 "Гнев" 0.3).
  - repeat constructor; simpl; lra.
  - reflexivity.
Defined.

Lemma find_children_spec tree parent child :
  In child (EmotionalMind.find_children tree parent) <->
  exists node,
    In node tree /\ node_name node = child /\ In parent (node_conditions node).
Proof.
  induction tree as [|node tree IH]; simpl.
  - split; [tauto|]. intros (n & [] & _).
  - assert (Hcond : in_conditions parent node = true <->
                    In parent (node_conditions node)).
    { unfold in_conditions. rewrite existsb_exists. split.
      - intros (x & Hx & Heq). apply String.eqb_eq in Heq. now subst.
      - intros H. exists parent. split; auto. apply String.eqb_refl. }
    destruct (in_conditions parent node) eqn:E.
    + simpl. rewrite IH. split.
      * intros [<-|(n & Hn & Hname & Hp)].
        -- exists node. repeat split; auto. now apply Hcond.
        -- exists n. auto.
      * intros (n & [<-|Hn] & Hname & Hp); [now left|]. right. exists n. auto.
    + rewrite IH. split.
      * intros (n & Hn & Hname & Hp). exists n. auto.
      * intros (n & [<-|Hn] & Hname & Hp).
        -- apply Hcond in Hp. discriminate.
        -- exists n. auto.
Qed.

Lemma accumulate_keys influence na child k :
  In k (Py.keys (EmotionalMind.accumulate influence na child)) ->
  In k (Py.keys na) \/ k = child.
Proof.
  unfold EmotionalMind.accumulate.
  destruct (Py.get na child); rewrite keys_set; destruct (Py.mem na child); auto;
    rewrite in_app_iff; simpl; intuition auto.
Qed.

Lemma collect_influence_keys tree active k :
  In k (Py.keys (EmotionalMind.collect_influence tree active)) ->
  exists parent level,
    In (parent, level) active /\ 0.1 <= level /\
    In k (EmotionalMind.find_children tree parent).
Proof.
  unfold EmotionalMind.collect_influence.
  assert (H : forall items na,
             incl items active ->
             In k (Py.keys (fold_left (EmotionalMind.spread tree) items na)) ->
             In k (Py.keys na) \/
             exists parent level,
               In (parent, level) active /\ 0.1 <= level /\
               In k (EmotionalMind.find_children tree parent)).
  { induction items as [|[parent level] items IH]; intros na Hincl; cbn [fold_left]; auto.
    intros Hk. apply IH in Hk; [|intros x Hx; apply Hincl; now right].
    destruct Hk as [Hk|Hk]; auto. simpl in Hk.
    destruct (Qlt_le_dec level 0.1) as [|Hge]; auto.
    assert (Hchildren : forall children na',
               In k (Py.keys (fold_left (EmotionalMind.accumulate (level * 0.5))
                                        children na')) ->
               In k (Py.keys na') \/ In k children).
    { induction children as [|c children IHc]; intros na'; cbn [fold_left]; auto.
      intros Hin. apply IHc in Hin as [Hin|Hin]; [|simpl; auto].
      apply accumulate_keys in Hin as [Hin| ->]; simpl; auto. }
    apply Hchildren in Hk as [Hk|Hk]; auto.
    right. exists parent, level. repeat split; auto.
    apply Hincl. now left. }
  intros Hk. apply (H active []) in Hk as [[]|Hk]; auto. apply incl_refl.
Qed.

(** X2: one propagation iteration creates entries only for direct children
    of states that the store holds at 0.1 or more. *)
Theorem propagation_creates_children_only :
  forall tree active state,
    In state (Py.keys (EmotionalMind.propagate_iteration tree active)) ->
    In state (Py.keys active) \/
    exists parent level,
      In (parent, level) active /\ 0.1 <= level /\
      In state (EmotionalMind.find_children tree parent) /\
      exists node,
        In node tree /\ node_name node = state /\
        In parent (node_conditions node).
Proof.
  intros tree active state Hin.
  apply mem_keys in Hin. unfold EmotionalMind.propagate_iteration in Hin.
  apply apply_influences_mem in Hin as [Hin|(v & Hin & _)].
  - left. now apply mem_keys.
  - right. apply (in_map fst) in Hin. simpl in Hin.
    apply collect_influence_keys in Hin as (parent & level & Hp & Hlevel & Hchild).
    exists parent, level. repeat split; auto. now apply find_children_spec.
Qed.

Lemma propagation_creates_children_only_witness :
  let active := [("Тревога", 0.8)] in
  In "Гнев" (Py.keys active) \/
  exists parent level,
    In (parent, level) active /\ 0.1 <= level /\
    In "Гнев" (EmotionalMind.find_children test_tree parent) /\
    exists node,
      In node test_tree /\ node_name node = "Гнев" /\
      In parent (node_conditions node).
Proof.
  intros active.
  apply (propagation_creates_children_only test_tree active "Гнев").
  vm_compute. tauto.
Defined.

(** ** ai_mind2.py: entries stay at 0.1 or more, and stay within the tree *)

Lemma attenuate_In factor store k v :
  In (k, v) (attenuate factor store) ->
  0.1 <= v /\ exists v0, In (k, v0) store /\ v = v0 * factor k.
Proof.
  unfold attenuate. rewrite filter_In, in_map_iff.
  intros [([k0 v0] & Heq & Hin) Hkeep]. simpl in *. injection Heq as -> <-.
  split; [destruct (Qlt_le_dec (v0 * factor k) 0.1); [discriminate|auto]|].
  exists v0. auto.
Qed.

Lemma attenuate_epsilon factor store : at_least_epsilon (attenuate factor store).
Proof.
  apply Forall_forall. intros [k v] Hin. now apply attenuate_In in Hin.
Qed.

Lemma reduce_weights_is_attenuate active :
  unique_keys active ->
  EmotionalMind.reduce_weights_after_response active
  = attenuate (fun state =>
                 if existsb (String.eqb state) EmotionalMind.trigger_nodes
                 then 0.4 else 0.7)
              active.
Proof.
  intros Hnd. unfold EmotionalMind.reduce_weights_after_response.
  exact (fade_loop _ active [] Hnd).
Qed.

Lemma apply_influence_epsilon active item :
  0 < snd item -> at_least_epsilon active ->
  at_least_epsilon (EmotionalMind.apply_influence active item).
Proof.
  destruct item as [k value]. simpl. intros Hvalue Hactive.
  destruct (Py.get active k) as [current|] eqn:E.
  - pose proof (proj1 (Forall_forall _ _) Hactive _ (get_In _ _ _ E)) as Hc.
    simpl in Hc. apply Forall_set; auto. intros k'. simpl.
    unfold Py.min. destruct (Qlt_le_dec _ _); lra.
  - destruct (Qlt_le_dec 0.2 value); auto.
    apply Forall_set; auto. intros k'. simpl. lra.
Qed.

Lemma propagate_activation_epsilon tree iterations active :
  at_least_epsilon active ->
  at_least_epsilon (EmotionalMind.propagate_activation tree iterations active).
Proof.
  revert active. induction iterations as [|n IH]; simpl; auto.
  intros active Hactive. apply IH. unfold EmotionalMind.propagate_iteration.
  pose proof (collect_influence_positive tree active) as Hpos.
  rewrite Forall_forall in Hpos.
  apply (fold_left_invariant at_least_epsilon); auto.
  intros a item Hin Ha. apply apply_influence_epsilon; auto.
Qed.

Lemma update_activation_epsilon tree acts incs active :
  unique_keys active ->
  at_least_epsilon (EmotionalMind.update_activation tree acts incs active).
Proof.
  intros Hnd. unfold EmotionalMind.update_activation.
  rewrite ambient_decay_is_decay_all by now apply raise_activation_unique.
  apply attenuate_epsilon.
Qed.

(** X3: after a turn of ai_mind2.py every level held in the store is at
    least 0.1, whatever the store held before the turn. *)
Theorem process_message_keeps_epsilon :
  forall tree user_input r m,
    unique_keys (EmotionalMind.mind_active_nodes m) ->
    at_least_epsilon
      (EmotionalMind.mind_active_nodes
         (fst (EmotionalMind.process_message tree user_input r m))).
Proof.
  intros tree user_input r m Hnd.
  assert (Hprop : at_least_epsilon
            (EmotionalMind.propagate_activation tree 3
               (EmotionalMind.update_activation
                  tree (EmotionalMind.states_to_activate r)
                  (EmotionalMind.states_to_increase r)
                  (EmotionalMind.mind_active_nodes m)))).
  { apply propagate_activation_epsilon. now apply update_activation_epsilon. }
  assert (Harch : forall m1,
             EmotionalMind.mind_active_nodes (EmotionalMind.archive_current_state m1)
             = EmotionalMind.mind_active_nodes m1).
  { intros m1. unfold EmotionalMind.archive_current_state.
    destruct (EmotionalMind.significant_states _); reflexivity. }
  unfold EmotionalMind.process_message.
  destruct (EmotionalMind.should_respond r && _);
    cbn [fst EmotionalMind.mind_active_nodes]; auto.
  rewrite Harch. cbn [EmotionalMind.mind_active_nodes].
  rewrite reduce_weights_is_attenuate; [apply attenuate_epsilon|].
  apply propagate_activation_unique.
  unfold EmotionalMind.update_activation, EmotionalMind.ambient_decay.
  apply (fold_left_invariant unique_keys).
  - intros; now apply fade_unique.
  - now apply raise_activation_unique.
Qed.

Lemma process_message_keeps_epsilon_witness :
  at_least_epsilon
    (EmotionalMind.mind_active_nodes
       (fst (EmotionalMind.process_message
               test_tree "реплика"
               (EmotionalMind.mk_replies [] ["Тревога"] [] true ["тема"] "ответ")
               (EmotionalMind.mk_mind [("Гнев", 0.05); ("Сомнение", 0.3)] [] [] None)))).
Proof.
  apply (process_message_keeps_epsilon
           test_tree "реплика"
           (EmotionalMind.mk_replies [] ["Тревога"] [] true ["тема"] "ответ")
           (EmotionalMind.mk_mind [("Гнев", 0.05); ("Сомнение", 0.3)] [] [] None)).
  unfold unique_keys. simpl. repeat constructor; simpl; intuition discriminate.
Defined.

Lemma in_nodes_map_names tree state :
  EmotionalMind.in_nodes_map tree state = true <-> In state (map node_name tree).
Proof.
  unfold EmotionalMind.in_nodes_map. rewrite existsb_exists, in_map_iff. split.
  - intros (node & Hin & Heq). apply String.eqb_eq in Heq. exists node. auto.
  - intros (node & Hname & Hin). exists node. split; auto.
    rewrite Hname. apply String.eqb_refl.
Qed.

Lemma fade_keys factor active state k :
  In k (Py.keys (fade factor active state)) -> In k (Py.keys active).
Proof.
  unfold fade. destruct (Py.get active state) as [current|] eqn:E; auto.
  assert (Hset : Py.keys (Py.set active state (current * factor state))
                 = Py.keys active).
  { rewrite keys_set. unfold Py.mem. now rewrite E. }
  destruct (Qlt_le_dec _ _); [intros H; apply keys_del_incl in H|intros H];
    now rewrite Hset in H.
Qed.

Lemma fade_all_keys factor l active k :
  In k (Py.keys (fold_left (fade factor) l active)) -> In k (Py.keys active).
Proof.
  revert active. induction l as [|state l IH]; intros active; cbn [fold_left]; auto.
  intros H. apply IH in H. now apply fade_keys in H.
Qed.

Lemma raise_activation_keys tree acts incs active k :
  In k (Py.keys (EmotionalMind.raise_activation tree acts incs active)) ->
  In k (Py.keys active) \/ (In k acts /\ In k (map node_name tree)).
Proof.
  unfold EmotionalMind.raise_activation.
  assert (Hinc : forall l a,
             In k (Py.keys (fold_left EmotionalMind.increase_state l a)) ->
             In k (Py.keys a)).
  { induction l as [|s l IH]; intros a; cbn [fold_left]; auto.
    intros H. apply IH in H. unfold EmotionalMind.increase_state in H.
    destruct (Py.get a s) eqn:E; auto.
    rewrite keys_set in H. unfold Py.mem in H. now rewrite E in H. }
  assert (Hact : forall l a,
             In k (Py.keys (fold_left (EmotionalMind.activate_state tree) l a)) ->
             In k (Py.keys a) \/ (In k l /\ In k (map node_name tree))).
  { induction l as [|s l IH]; intros a; cbn [fold_left]; auto.
    intros H. apply IH in H as [H|[H1 H2]]; [|right; split; simpl; auto].
    unfold EmotionalMind.activate_state in H.
    destruct (EmotionalMind.in_nodes_map tree s) eqn:Hs; auto.
    apply in_nodes_map_names in Hs.
    destruct (Py.get a s) eqn:E; rewrite keys_set in H; unfold Py.mem in H;
      rewrite E in H; auto.
    apply in_app_iff in H as [H|[<-|[]]]; auto. right. simpl. auto. }
  intros H. apply Hinc in H. now apply Hact in H.
Qed.

Lemma propagate_activation_keys tree iterations active k :
  In k (Py.keys (EmotionalMind.propagate_activation tree iterations active)) ->
  In k (Py.keys active) \/ In k (map node_name tree).
Proof.
  revert active. induction iterations as [|n IH]; intros active; simpl; auto.
  intros H. apply IH in H as [H|H]; auto.
  apply mem_keys in H. unfold EmotionalMind.propagate_iteration in H.
  apply apply_influences_mem in H as [H|(v & H & _)].
  - left. now apply mem_keys.
  - right. apply (in_map fst) in H. simpl in H.
    apply collect_influence_keys in H as (parent & level & _ & _ & Hchild).
    apply find_children_spec in Hchild as (node & Hnode & <- & _).
    now apply in_map.
Qed.

(** X4: a turn of ai_mind2.py never creates an entry for a name that the
    tree does not define: if every key of the store is the name of a node
    before the turn, this is so after the turn. *)
Theorem process_message_creates_no_unknown_state :
  forall tree user_input r m,
    keys_in_tree tree (EmotionalMind.mind_active_nodes m) ->
    keys_in_tree tree
      (EmotionalMind.mind_active_nodes
         (fst (EmotionalMind.process_message tree user_input r m))).
Proof.
  intros tree user_input r m Hkeys k Hk.
  assert (Hprop : forall k,
             In k (Py.keys (EmotionalMind.propagate_activation tree 3
                              (EmotionalMind.update_activation
                                 tree (EmotionalMind.states_to_activate r)
                                 (EmotionalMind.states_to_increase r)
                                 (EmotionalMind.mind_active_nodes m)))) ->
             In k (map node_name tree)).
  { intros k' H. apply propagate_activation_keys in H as [H|H]; auto.
    unfold EmotionalMind.update_activation, EmotionalMind.ambient_decay in H.
    apply fade_all_keys in H. apply raise_activation_keys in H as [H|[_ H]]; auto. }
  unfold EmotionalMind.process_message in Hk.
  destruct (EmotionalMind.should_respond r && _); simpl in Hk; auto.
  unfold EmotionalMind.reduce_weights_after_response in Hk.
  apply fade_all_keys in Hk. apply Hprop.
  unfold EmotionalMind.archive_current_state in Hk.
  destruct (EmotionalMind.significant_states _); exact Hk.
Qed.

Lemma process_message_creates_no_unknown_state_witness :
  keys_in_tree test_tree
    (EmotionalMind.mind_active_nodes
       (fst (EmotionalMind.process_message
               test_tree "реплика"
               (EmotionalMind.mk_replies [] ["Тревога"; "Радость"] ["Радость"]
                                         false [] "")
               EmotionalMind.init_mind))).
Proof.
  apply (process_message_creates_no_unknown_state
           test_tree "реплика"
           (EmotionalMind.mk_replies [] ["Тревога"; "Радость"] ["Радость"] false [] "")
           EmotionalMind.init_mind).
  intros k Hk. destruct Hk.
Defined.

Lemma attenuate_keys factor store k :
  In k (Py.keys (attenuate factor store)) -> In k (Py.keys store).
Proof.
  unfold Py.keys. rewrite !in_map_iff. intros ([k' v] & <- & Hin).
  apply attenuate_In in Hin as (_ & v0 & Hin & _). exists (k', v0). auto.
Qed.

Lemma get_attenuate factor store state :
  unique_keys store ->
  Py.get (attenuate factor store) state =
  match Py.get store state with
  | Some level =>
      if Qlt_le_dec (level * factor state) 0.1 then None
      else Some (level * factor state)
  | None => None
  end.
Proof.
  unfold unique_keys. induction store as [|[k v] store IH]; intros Hnd; auto.
  simpl in Hnd. inversion Hnd as [|? ? Hnotin Hnd']; subst.
  rewrite attenuate_cons. simpl Py.get at 2.
  destruct (String.eqb_spec state k) as [->|Hne].
  - destruct (Qlt_le_dec (v * factor k) 0.1).
    + apply get_None_keys. intros H. apply Hnotin. now apply attenuate_keys in H.
    + simpl. now rewrite String.eqb_refl.
  - destruct (Qlt_le_dec (v * factor k) 0.1); auto.
    simpl. destruct (String.eqb_spec state k); [contradiction|auto].
Qed.

(** X5: the reduction after a response multiplies the level of a trigger
    state by 0.4 and of any other state by 0.7, and removes the entry when
    the product is below 0.1; a level of exactly 0.1 is kept. *)
Theorem response_reduces_by_kind :
  forall active state,
    unique_keys active ->
    Py.get (EmotionalMind.reduce_weights_after_response active) state =
    match Py.get active state with
    | None => None
    | Some level =>
        let reduced :=
          level * (if existsb (String.eqb state) EmotionalMind.trigger_nodes
                   then 0.4 else 0.7) in
        if Qlt_le_dec reduced 0.1 then None else Some reduced
    end.
Proof.
  intros active state Hnd.
  rewrite reduce_weights_is_attenuate by exact Hnd.
  now rewrite get_attenuate.
Qed.

Lemma response_reduces_by_kind_witness :
  let active := [("Гнев", 0.2); ("Тревога", 0.2); ("Сомнение", 0.25)] in
  Py.get (EmotionalMind.reduce_weights_after_response active) "Сомнение" =
  match Py.get active "Сомнение" with
  | None => None
  | Some level =>
      let reduced :=
        level * (if existsb (String.eqb "Сомнение") EmotionalMind.trigger_nodes
                 then 0.4 else 0.7) in
      if Qlt_le_dec reduced 0.1 then None else Some reduced
  end.
Proof.
  intros active.
  apply (response_reduces_by_kind active "Сомнение").
  unfold unique_keys. simpl. repeat constructor; simpl; intuition discriminate.
Defined.

Example response_reduction_examples :
  EmotionalMind.reduce_weights_after_response
    [("Гнев", 0.2); ("Тревога", 0.2); ("Сомнение", 0.25)]
  = [("Тревога", 0.2 * 0.7); ("Сомнение", 0.25 * 0.4)].
Proof. reflexivity. Qed.

Lemma ambient_decay_unique active :
  unique_keys active -> unique_keys (EmotionalMind.ambient_decay active).
Proof.
  intros Hnd. unfold EmotionalMind.ambient_decay.
  apply (fold_left_invariant unique_keys); auto.
  intros; now apply fade_unique.
Qed.

(** X6: away from the cut-off, the decay loop of [update_activation] run
    twice does to a state what one decay by the square of the factor does.
    A state whose level times 0.92 * 0.92 is 0.1001 or more is kept by
    both, at that product; a state for which the product is below 0.0999
    is deleted by both; an absent state stays absent.  The levels are exact
    here and binary64 in the code, where a product within rounding of 0.1
    can be kept by the two runs and deleted by the single one (the level
    0.11814744801512286 is such a case): the band from 0.0999 to 0.1001 is
    left out for that reason. *)
Theorem ambient_decay_twice :
  forall active state,
    unique_keys active ->
    let twice :=
      EmotionalMind.ambient_decay (EmotionalMind.ambient_decay active) in
    let squared := decay_all (0.92 * 0.92) active in
    match Py.get active state with
    | None => Py.get twice state = None /\ Py.get squared state = None
    | Some level =>
        (0.1001 <= level * (0.92 * 0.92) ->
         Py.get twice state = Some (level * 0.92 * 0.92) /\
         Py.get squared state = Some (level * (0.92 * 0.92))) /\
        (level * (0.92 * 0.92) < 0.0999 ->
         Py.get twice state = None /\ Py.get squared state = None)
    end.
Proof.
  intros active state Hnd twice squared. unfold twice, squared, decay_all.
  rewrite (ambient_decay_is_decay_all (EmotionalMind.ambient_decay active))
    by now apply ambient_decay_unique.
  assert (Hnd' : unique_keys (EmotionalMind.ambient_decay active))
    by now apply ambient_decay_unique.
  rewrite (ambient_decay_is_decay_all active Hnd) in *.
  unfold decay_all in *.
  rewrite (get_attenuate _ _ state Hnd'), !(get_attenuate _ _ state Hnd).
  destruct (Py.get active state) as [level|]; [|split; reflexivity].
  split.
  - intros Hkept.
    destruct (Qlt_le_dec (level * 0.92) 0.1) as [Hlow|_]; [lra|].
    destruct (Qlt_le_dec (level * 0.92 * 0.92) 0.1) as [Hlow|_]; [lra|].
    destruct (Qlt_le_dec (level * (0.92 * 0.92)) 0.1) as [Hlow|_]; [lra|].
    split; reflexivity.
  - intros Hgone.
    destruct (Qlt_le_dec (level * (0.92 * 0.92)) 0.1) as [_|Hkeep]; [|lra].
    destruct (Qlt_le_dec (level * 0.92) 0.1) as [_|_]; [split; reflexivity|].
    destruct (Qlt_le_dec (level * 0.92 * 0.92) 0.1) as [_|Hkeep]; [|lra].
    split; reflexivity.
Qed.

Lemma ambient_decay_twice_witness :
  let active := [("Гнев", 0.8); ("Тревога", 0.11)] in
  let twice :=
    EmotionalMind.ambient_decay (EmotionalMind.ambient_decay active) in
  let squared := decay_all (0.92 * 0.92) active in
  match Py.get active "Гнев" with
  | None => Py.get twice "Гнев" = None /\ Py.get squared "Гнев" = None
  | Some level =>
      (0.1001 <= level * (0.92 * 0.92) ->
       Py.get twice "Гнев" = Some (level * 0.92 * 0.92) /\
       Py.get squared "Гнев" = Some (level * (0.92 * 0.92))) /\
      (level * (0.92 * 0.92) < 0.0999 ->
       Py.get twice "Гнев" = None /\ Py.get squared "Гнев" = None)
  end.
Proof.
  intros active.
  apply (ambient_decay_twice active "Гнев").
  unfold unique_keys. simpl. repeat constructor; simpl; intuition discriminate.
Defined.

(** X7: [update_activation] ignores the names to activate that the tree
    does not define, and never creates an entry for a name to increase that
    the store does not hold: with only such names the update is the ambient
    decay alone. *)
Theorem update_activation_ignores_unknown :
  forall tree acts incs active,
    (forall state, In state acts -> ~ In state (map node_name tree)) ->
    (forall state, In state incs -> Py.get active state = None) ->
    EmotionalMind.update_activation tree acts incs active
    = EmotionalMind.ambient_decay active.
Proof.
  intros tree acts incs active Hacts Hincs.
  unfold EmotionalMind.update_activation, EmotionalMind.raise_activation.
  assert (Hact : fold_left (EmotionalMind.activate_state tree) acts active = active).
  { clear Hincs. induction acts as [|s acts IH]; cbn [fold_left]; auto.
    unfold EmotionalMind.activate_state at 2.
    destruct (EmotionalMind.in_nodes_map tree s) eqn:E.
    - apply in_nodes_map_names in E. exfalso. apply (Hacts s); simpl; auto.
    - apply IH. intros x Hx. apply Hacts. now right. }
  rewrite Hact.
  assert (Hinc : fold_left EmotionalMind.increase_state incs active = active).
  { induction incs as [|s incs IH]; cbn [fold_left]; auto.
    unfold EmotionalMind.increase_state at 2.
    rewrite (Hincs s (or_introl eq_refl)). apply IH.
    intros x Hx. apply Hincs. now right. }
  now rewrite Hinc.
Qed.

Lemma update_activation_ignores_unknown_witness :
  EmotionalMind.update_activation test_tree ["Радость"] ["Гнев"] [("Тревога", 0.8)]
  = EmotionalMind.ambient_decay [("Тревога", 0.8)].
Proof.
  apply (update_activation_ignores_unknown
           test_tree ["Радость"] ["Гнев"] [("Тревога", 0.8)]).
  - intros state [<-|[]]. simpl. intuition discriminate.
  - intros state [<-|[]]. reflexivity.
Defined.

(** ** ai_mind2.py: the archive *)

(** X8: every entry that [archive_current_state] ever records holds a
    non-empty snapshot, and the snapshot holds only levels above 0.3. *)
Theorem archive_holds_significant_snapshots :
  forall memory, archive_reachable memory -> significant_archive memory.
Proof.
  unfold significant_archive. induction 1 as [|m _ IH]; [constructor|].
  unfold EmotionalMind.archive_current_state.
  destruct (EmotionalMind.significant_states (EmotionalMind.mind_active_nodes m))
    as [|item items] eqn:E; auto.
  cbn [EmotionalMind.short_term_memory].
  assert (Hnew : Forall
            (fun e =>
               EmotionalMind.entry_states e <> [] /\
               Forall (fun item : string * Q => 0.3 < snd item)
                      (EmotionalMind.entry_states e))
            (EmotionalMind.short_term_memory m ++
             [EmotionalMind.mk_entry (item :: items) (EmotionalMind.empathy_target m)
                (List.length (EmotionalMind.conversation_history m))])).
  { apply Forall_app. split; auto. constructor; [|constructor]. simpl.
    split; [discriminate|]. rewrite <- E. apply Forall_forall.
    intros x Hx. unfold EmotionalMind.significant_states in Hx.
    apply filter_In in Hx as [_ Hx].
    destruct (Qlt_le_dec 0.3 (snd x)); [auto|discriminate]. }
  destruct (5 <? _)%nat; auto.
  unfold EmotionalMind.pop0.
  destruct (EmotionalMind.short_term_memory m ++ _); auto.
  now inversion Hnew.
Qed.

Lemma archive_holds_significant_snapshots_witness :
  significant_archive
    (EmotionalMind.short_term_memory
       (Nat.iter 7 EmotionalMind.archive_current_state
          (EmotionalMind.mk_mind [("Гнев", 0.8); ("Тревога", 0.2)] [] [] None))).
Proof.
  apply archive_holds_significant_snapshots.
  apply archive_reachable_iter. simpl. apply archive_initial.
Defined.

Lemma StronglySorted_snoc {A : Type} (R : A -> A -> Prop) l x :
  StronglySorted R l -> Forall (fun y => R y x) l -> StronglySorted R (l ++ [x]).
Proof.
  induction 1 as [|y l Hl IH Hy]; intros Hx; simpl.
  - repeat constructor.
  - inversion Hx as [|? ? Hyx Hlx]; subst. constructor; auto.
    apply Forall_app. split; auto.
Qed.

Lemma archive_current_state_ordered m :
  ordered_archive m ->
  StronglySorted
    (fun a b => (EmotionalMind.entry_timestamp a < EmotionalMind.entry_timestamp b)%nat)
    (EmotionalMind.short_term_memory (EmotionalMind.archive_current_state m)) /\
  Forall (fun e => (EmotionalMind.entry_timestamp e
                    <= List.length (EmotionalMind.conversation_history m))%nat)
         (EmotionalMind.short_term_memory (EmotionalMind.archive_current_state m)) /\
  EmotionalMind.conversation_history (EmotionalMind.archive_current_state m)
  = EmotionalMind.conversation_history m.
Proof.
  intros [Hsorted Hbelow]. unfold EmotionalMind.archive_current_state.
  destruct (EmotionalMind.significant_states _) as [|item items].
  - repeat split; auto. eapply Forall_impl; [|exact Hbelow]. simpl. intros; lia.
  - cbn [EmotionalMind.short_term_memory EmotionalMind.conversation_history].
    set (entry := EmotionalMind.mk_entry _ _ _).
    assert (Hs : StronglySorted
              (fun a b => (EmotionalMind.entry_timestamp a
                           < EmotionalMind.entry_timestamp b)%nat)
              (EmotionalMind.short_term_memory m ++ [entry])).
    { apply StronglySorted_snoc; auto. }
    assert (Hb : Forall
              (fun e => (EmotionalMind.entry_timestamp e
                         <= List.length (EmotionalMind.conversation_history m))%nat)
              (EmotionalMind.short_term_memory m ++ [entry])).
    { apply Forall_app. split.
      - eapply Forall_impl; [|exact Hbelow]. simpl. intros; lia.
      - repeat constructor. }
    destruct (5 <? _)%nat; [|auto].
    unfold EmotionalMind.pop0.
    destruct (EmotionalMind.short_term_memory m ++ [entry]); auto.
    inversion Hs; inversion Hb; subst. auto.
Qed.

(** X9: along the turns of ai_mind2.py the archive stays ordered by turn:
    the time stamps of its entries go strictly up, and each lies below the
    length of the conversation. *)
Theorem process_message_orders_archive :
  forall tree user_input r m,
    ordered_archive m ->
    ordered_archive (fst (EmotionalMind.process_message tree user_input r m)).
Proof.
  intros tree user_input r m [Hsorted Hbelow].
  unfold EmotionalMind.process_message.
  set (m1 := EmotionalMind.mk_mind _ (_ ++ [("user", user_input)]) _ _).
  assert (Hm1 : ordered_archive m1).
  { split; [exact Hsorted|]. subst m1. simpl. rewrite length_app. simpl.
    eapply Forall_impl; [|exact Hbelow]. simpl. intros; lia. }
  destruct (EmotionalMind.should_respond r && _); [|exact Hm1].
  destruct (archive_current_state_ordered m1 Hm1) as (Hs & Hb & Hh).
  split; simpl; auto.
  rewrite length_app, Hh. simpl.
  eapply Forall_impl; [|exact Hb]. simpl. intros; lia.
Qed.

Lemma process_message_orders_archive_witness :
  ordered_archive
    (fst (EmotionalMind.process_message
            test_tree "реплика"
            (EmotionalMind.mk_replies ["Гнев"] ["Гнев"] [] true ["тема"] "ответ")
            EmotionalMind.init_mind)).
Proof.
  apply (process_message_orders_archive
           test_tree "реплика"
           (EmotionalMind.mk_replies ["Гнев"] ["Гнев"] [] true ["тема"] "ответ")
           EmotionalMind.init_mind).
  split; simpl; constructor.
Defined.

(** ** ai_mind3.py: the table of weights along a session *)

Lemma set_present_keys (w : dict Q) name v v' :
  Py.get w name = Some v -> Py.keys (Py.set w name v') = Py.keys w.
Proof. intros H. rewrite keys_set. unfold Py.mem. now rewrite H. Qed.

Lemma keeps_keys_bind {A B : Type} (c : EmotionalMindV3.action A)
  (k : A -> EmotionalMindV3.action B) :
  keeps_keys c -> (forall a, keeps_keys (k a)) ->
  keeps_keys (EmotionalMindV3.bind c k).
Proof.
  intros Hc Hk w. unfold EmotionalMindV3.bind.
  specialize (Hc w). destruct (c w) as [[a|e] w']; simpl in *; auto.
  now rewrite Hk.
Qed.

Lemma keeps_keys_for_each {A : Type} (l : list A)
  (body : A -> EmotionalMindV3.action unit) :
  (forall x, keeps_keys (body x)) -> keeps_keys (EmotionalMindV3.for_each l body).
Proof.
  intros Hbody. induction l as [|x l IH]; simpl.
  - intros w. reflexivity.
  - apply keeps_keys_bind; auto.
Qed.

Lemma change_weight_keeps_keys name (f : Q -> Q) :
  keeps_keys
    (EmotionalMindV3.bind (EmotionalMindV3.weight_of name)
       (fun current => EmotionalMindV3.store name (f current))).
Proof.
  intros w.
  unfold EmotionalMindV3.bind, EmotionalMindV3.weight_of, EmotionalMindV3.store.
  destruct (Py.get w name) as [current|] eqn:E; simpl; auto.
  now apply set_present_keys with current.
Qed.

Lemma increase_state_weight_keeps_keys fuel sd name amount :
  keeps_keys (EmotionalMindV3.increase_state_weight fuel sd name amount).
Proof.
  intros w. rewrite increase_state_weight_unfold.
  destruct (Py.get w name) as [current|] eqn:E; auto.
  cbv zeta.
  destruct (EmotionalMindV3._get_parent_states fuel sd name) as [parents|]; simpl.
  - rewrite keeps_keys_for_each; [now apply set_present_keys with current|].
    intros parent. apply change_weight_keeps_keys.
  - now apply set_present_keys with current.
Qed.

Lemma decrease_state_weight_unfold name amount w :
  EmotionalMindV3.decrease_state_weight name amount w =
  match Py.get w name with
  | None => (Py.Return tt, w)
  | Some current => (Py.Return tt, Py.set w name (Py.max 0.0 (current - amount)))
  end.
Proof.
  unfold EmotionalMindV3.decrease_state_weight, EmotionalMindV3.bind,
    EmotionalMindV3.known, EmotionalMindV3.weight_of, EmotionalMindV3.store, Py.mem.
  destruct (Py.get w name) eqn:E; simpl; auto. now rewrite E.
Qed.

Lemma decrease_state_weight_keeps_keys name amount :
  keeps_keys (EmotionalMindV3.decrease_state_weight name amount).
Proof.
  intros w. rewrite decrease_state_weight_unfold.
  destruct (Py.get w name) as [current|] eqn:E; auto.
  now apply set_present_keys with current.
Qed.

Lemma process_message_v3_keeps_keys fuel sd detected_states :
  keeps_keys (EmotionalMindV3.process_message fuel sd detected_states).
Proof.
  apply keeps_keys_for_each. intros state w.
  unfold EmotionalMindV3.bind, EmotionalMindV3.known.
  destruct (Py.mem w state); auto.
  apply increase_state_weight_keeps_keys.
Qed.

Lemma generate_spontaneous_response_keeps_keys :
  keeps_keys EmotionalMindV3.generate_spontaneous_response.
Proof.
  intros w. unfold EmotionalMindV3.generate_spontaneous_response.
  apply keeps_keys_for_each. intros state.
  apply decrease_state_weight_keeps_keys.
Qed.

Lemma delayed_analysis_keeps_keys fuel sd increase decrease :
  keeps_keys (EmotionalMindV3.delayed_analysis fuel sd increase decrease).
Proof.
  unfold EmotionalMindV3.delayed_analysis.
  apply keeps_keys_bind.
  { apply keeps_keys_for_each. intros state.
    apply increase_state_weight_keeps_keys. }
  intros _. apply keeps_keys_bind.
  { apply keeps_keys_for_each. intros state.
    apply decrease_state_weight_keeps_keys. }
  intros _ w.
  destruct (EmotionalMindV3.get_triggered_states w); auto.
  apply keeps_keys_bind.
  - apply generate_spontaneous_response_keeps_keys.
  - intros _ w'. reflexivity.
Qed.

(** X10: the methods of ai_mind3.py that change weights never add a state
    to the table and never remove one, whether they return or raise: the
    keys of the table, in their order, are those [__init__] has set. *)
Theorem weight_methods_keep_the_states :
  forall fuel sd w,
    (forall name amount,
        Py.keys (snd (EmotionalMindV3.increase_state_weight fuel sd name amount w))
        = Py.keys w) /\
    (forall name amount,
        Py.keys (snd (EmotionalMindV3.decrease_state_weight name amount w))
        = Py.keys w) /\
    (forall detected_states,
        Py.keys (snd (EmotionalMindV3.process_message fuel sd detected_states w))
        = Py.keys w) /\
    (forall increase decrease,
        Py.keys (snd (EmotionalMindV3.delayed_analysis fuel sd increase decrease w))
        = Py.keys w).
Proof.
  intros fuel sd w. repeat split; intros.
  - apply increase_state_weight_keeps_keys.
  - apply decrease_state_weight_keeps_keys.
  - apply process_message_v3_keeps_keys.
  - apply delayed_analysis_keeps_keys.
Qed.

Lemma triggered_iff w name :
  In name (EmotionalMindV3.get_triggered_states w) <->
  exists weight, In (name, weight) w /\ 1.0 <= weight.
Proof.
  unfold EmotionalMindV3.get_triggered_states, Py.keys.
  rewrite in_map_iff. split.
  - intros ([k v] & <- & Hin). apply filter_In in Hin as [Hin Hv].
    exists v. split; auto. simpl in Hv.
    unfold EmotionalMindV3.spontaneous_threshold in Hv.
    destruct (Qlt_le_dec v 1.0); [discriminate|auto].
  - intros (v & Hin & Hv). exists (name, v). split; auto.
    apply filter_In. split; auto. simpl.
    unfold EmotionalMindV3.spontaneous_threshold.
    destruct (Qlt_le_dec v 1.0); [lra|auto].
Qed.

Lemma NoDup_keys_filter {V : Type} (f : string * V -> bool) (d : dict V) :
  unique_keys d -> NoDup (Py.keys (filter f d)).
Proof.
  unfold unique_keys, Py.keys. induction d as [|item d IH]; simpl; auto.
  intros Hnd. inversion Hnd as [|? ? Hnotin Hnd']; subst.
  destruct (f item); simpl; auto. constructor; auto.
  intros H. apply Hnotin. apply in_map_iff in H as (x & Hx & Hin).
  apply filter_In in Hin as [Hin _]. apply in_map_iff. exists x. auto.
Qed.

Lemma decrease_each_result amount names :
  NoDup names ->
  forall w,
    exists w',
      EmotionalMindV3.for_each names
        (fun state => EmotionalMindV3.decrease_state_weight state amount) w
      = (Py.Return tt, w') /\
      (forall x v, In x names -> Py.get w x = Some v ->
                   Py.get w' x = Some (Py.max 0.0 (v - amount))) /\
      (forall x, ~ In x names -> Py.get w' x = Py.get w x).
Proof.
  induction 1 as [|s rest Hnotin Hnd IH]; intros w; simpl.
  - exists w. repeat split; auto. intros x v [].
  - unfold EmotionalMindV3.bind at 1. rewrite decrease_state_weight_unfold.
    destruct (Py.get w s) as [current|] eqn:Hs.
    + destruct (IH (Py.set w s (Py.max 0.0 (current - amount))))
        as (w' & Hrun & Hin & Hout).
      exists w'. split; [exact Hrun|]. split.
      * intros x v [<-|Hx] Hv.
        -- rewrite (Hout _ Hnotin), get_set_same. congruence.
        -- apply Hin; auto. rewrite get_set_other; auto. congruence.
      * intros x Hx. rewrite Hout by tauto. apply get_set_other.
        intros ->. apply Hx. now left.
    + destruct (IH w) as (w' & Hrun & Hin & Hout).
      exists w'. split; [exact Hrun|]. split.
      * intros x v [<-|Hx] Hv; [congruence|auto].
      * intros x Hx. apply Hout. tauto.
Qed.

Lemma spontaneous_response_result w :
  bounded w -> unique_keys w ->
  exists w',
    EmotionalMindV3.generate_spontaneous_response w = (Py.Return tt, w') /\
    EmotionalMindV3.get_triggered_states w' = [] /\
    (forall x v,
        Py.get w x = Some v ->
        Py.get w' x = Some (if Qlt_le_dec v 1.0 then v else Py.max 0.0 (v - 0.4))).
Proof.
  intros Hb Hnd.
  unfold EmotionalMindV3.generate_spontaneous_response.
  destruct (decrease_each_result 0.4 (EmotionalMindV3.get_triggered_states w)
              (NoDup_keys_filter _ w Hnd) w) as (w' & Hrun & Hin & Hout).
  assert (Hget : forall x v,
             Py.get w x = Some v ->
             Py.get w' x
             = Some (if Qlt_le_dec v 1.0 then v else Py.max 0.0 (v - 0.4))).
  { intros x v Hv. destruct (Qlt_le_dec v 1.0) as [Hlt|Hge].
    - rewrite Hout; auto. intros Hx. apply triggered_iff in Hx as (v0 & Hx & Hv0).
      rewrite (In_get _ _ _ Hnd Hx) in Hv. injection Hv as ->. lra.
    - apply Hin; auto. apply triggered_iff. exists v. split; auto.
      now apply get_In. }
  exists w'. split; [exact Hrun|]. split; [|exact Hget].
  assert (Hkeys : Py.keys w' = Py.keys w).
  { pose proof (generate_spontaneous_response_keeps_keys w) as H.
    unfold EmotionalMindV3.generate_spontaneous_response in H.
    now rewrite Hrun in H. }
  destruct (EmotionalMindV3.get_triggered_states w') as [|name l] eqn:E; auto.
  exfalso.
  assert (Hname : In name (EmotionalMindV3.get_triggered_states w')).
  { rewrite E. now left. }
  apply triggered_iff in Hname as (v' & Hin' & Hv').
  assert (Hnd' : unique_keys w') by (unfold unique_keys; now rewrite Hkeys).
  apply (In_get _ _ _ Hnd') in Hin'.
  assert (Hmem : Py.mem w name = true).
  { apply mem_keys. rewrite <- Hkeys. apply mem_keys.
    unfold Py.mem. now rewrite Hin'. }
  unfold Py.mem in Hmem. destruct (Py.get w name) as [v|] eqn:Hv; [|discriminate].
  pose proof (bounded_get _ _ _ Hb Hv).
  rewrite (Hget _ _ Hv) in Hin'. injection Hin' as <-.
  destruct (Qlt_le_dec v 1.0); [lra|].
  unfold Py.max in Hv'. destruct (Qlt_le_dec 0.0 (v - 0.4)); lra.
Qed.

(** X11: on a table of distinct states with weights between 0 and 1, the
    weight updates of [generate_spontaneous_response] return, lower every
    state that has reached 1.0 by 0.4, leave the other weights as they are,
    and leave no state at the threshold. *)
Theorem spontaneous_response_discharges_triggers :
  forall w,
    bounded w -> unique_keys w ->
    exists w',
      EmotionalMindV3.generate_spontaneous_response w = (Py.Return tt, w') /\
      EmotionalMindV3.get_triggered_states w' = [] /\
      (forall x v,
          Py.get w x = Some v ->
          Py.get w' x = Some (if Qlt_le_dec v 1.0 then v else Py.max 0.0 (v - 0.4))).
Proof. exact spontaneous_response_result. Qed.

Lemma spontaneous_response_discharges_triggers_witness :
  let w := [("Гнев", 1.0); ("Тревога", 0.6); ("Сомнение", 1.0)] in
  exists w',
    EmotionalMindV3.generate_spontaneous_response w = (Py.Return tt, w') /\
    EmotionalMindV3.get_triggered_states w' = [] /\
    (forall x v,
        Py.get w x = Some v ->
        Py.get w' x = Some (if Qlt_le_dec v 1.0 then v else Py.max 0.0 (v - 0.4))).
Proof.
  intros w. apply (spontaneous_response_discharges_triggers w).
  - repeat constructor; simpl; lra.
  - unfold unique_keys. simpl. repeat constructor; simpl; intuition discriminate.
Defined.

Lemma sound_weights_step {A : Type} (c : EmotionalMindV3.action A) sd w :
  keeps_keys c -> keeps_bounded c ->
  sound_weights sd w -> sound_weights sd (snd (c w)).
Proof.
  intros Hkeys Hbounded (Hb & Hnd & Hcov). repeat split.
  - now apply Hbounded.
  - unfold unique_keys. now rewrite Hkeys.
  - unfold covers in *. rewrite forallb_forall in *. intros name Hname.
    apply mem_keys. rewrite Hkeys. apply mem_keys. auto.
Qed.

Lemma for_each_returns {A : Type} (I : dict Q -> Prop)
  (body : A -> EmotionalMindV3.action unit) :
  (forall x w, I w -> exists w', body x w = (Py.Return tt, w') /\ I w') ->
  forall l w,
    I w -> exists w', EmotionalMindV3.for_each l body w = (Py.Return tt, w') /\ I w'.
Proof.
  intros Hbody. induction l as [|x l IH]; intros w Hw; simpl.
  - exists w. auto.
  - unfold EmotionalMindV3.bind.
    destruct (Hbody x w Hw) as (w1 & -> & Hw1). now apply IH.
Qed.

Lemma increase_state_weight_returns sd fuel name amount w :
  acyclic sd -> (List.length sd < fuel)%nat -> 0 <= amount ->
  sound_weights sd w ->
  exists w',
    EmotionalMindV3.increase_state_weight fuel sd name amount w = (Py.Return tt, w') /\
    sound_weights sd w' /\ Py.keys w' = Py.keys w.
Proof.
  intros Hacyclic Hfuel Hamount Hw.
  destruct (parent_states_returns sd name Hacyclic) as [parents Hparents].
  apply parent_states_fuel_le with (fuel' := fuel) in Hparents; [|lia].
  destruct (increase_state_weight_effect sd w name amount fuel parents
              (proj2 (proj2 Hw)) Hparents) as (w' & Hrun & _).
  exists w'. split; auto.
  pose proof (sound_weights_step
                (EmotionalMindV3.increase_state_weight fuel sd name amount) sd w
                (increase_state_weight_keeps_keys fuel sd name amount)
                (increase_state_weight_bounded fuel sd name amount Hamount) Hw) as H.
  pose proof (increase_state_weight_keeps_keys fuel sd name amount w) as Hk.
  rewrite Hrun in H, Hk. auto.
Qed.

Lemma decrease_state_weight_returns sd name amount w :
  0 <= amount -> sound_weights sd w ->
  exists w',
    EmotionalMindV3.decrease_state_weight name amount w = (Py.Return tt, w') /\
    sound_weights sd w' /\ Py.keys w' = Py.keys w.
Proof.
  intros Hamount Hw.
  pose proof (sound_weights_step
                (EmotionalMindV3.decrease_state_weight name amount) sd w
                (decrease_state_weight_keeps_keys name amount)
                (decrease_state_weight_bounded name amount Hamount) Hw) as H.
  pose proof (decrease_state_weight_keeps_keys name amount w) as Hk.
  rewrite decrease_state_weight_unfold in *.
  destruct (Py.get w name); eauto.
Qed.

(** X12: on a graph without cycle, [delayed_analysis] returns, and the
    table it leaves holds no state at the threshold: a state that the
    corrections have brought to 1.0 has been lowered by the spontaneous
    response.  The table keeps its states, distinct and between 0 and 1. *)
Theorem delayed_analysis_leaves_no_trigger :
  forall sd fuel increase decrease w,
    acyclic sd -> (List.length sd < fuel)%nat ->
    sound_weights sd w ->
    exists triggered w',
      EmotionalMindV3.delayed_analysis fuel sd increase decrease w
      = (Py.Return triggered, w') /\
      EmotionalMindV3.get_triggered_states w' = [] /\
      sound_weights sd w' /\
      Py.keys w' = Py.keys w.
Proof.
  intros sd fuel increase decrease w Hacyclic Hfuel Hw.
  set (J := fun w0 : dict Q => sound_weights sd w0 /\ Py.keys w0 = Py.keys w).
  assert (Hinc : forall x w0,
             J w0 ->
             exists w',
               EmotionalMindV3.increase_state_weight fuel sd x 0.15 w0
               = (Py.Return tt, w') /\ J w').
  { intros x w0 [Hs Hk].
    destruct (increase_state_weight_returns sd fuel x 0.15 w0 Hacyclic Hfuel
                ltac:(lra) Hs) as (w' & Hrun & Hs' & Hk').
    exists w'. split; [exact Hrun|]. split; [exact Hs'|]. now rewrite Hk'. }
  assert (Hdec : forall x w0,
             J w0 ->
             exists w',
               EmotionalMindV3.decrease_state_weight x 0.15 w0
               = (Py.Return tt, w') /\ J w').
  { intros x w0 [Hs Hk].
    destruct (decrease_state_weight_returns sd x 0.15 w0 ltac:(lra) Hs)
      as (w' & Hrun & Hs' & Hk').
    exists w'. split; [exact Hrun|]. split; [exact Hs'|]. now rewrite Hk'. }
  unfold EmotionalMindV3.delayed_analysis.
  unfold EmotionalMindV3.bind at 1.
  destruct (for_each_returns J
              (fun state => EmotionalMindV3.increase_state_weight fuel sd state 0.15)
              Hinc increase w (conj Hw eq_refl))
    as (w1 & -> & Hw1).
  unfold EmotionalMindV3.bind at 1.
  destruct (for_each_returns J
              (fun state => EmotionalMindV3.decrease_state_weight state 0.15)
              Hdec decrease w1 Hw1) as (w2 & -> & Hw2 & Hk2).
  destruct (EmotionalMindV3.get_triggered_states w2) as [|name l] eqn:E.
  - exists [], w2. auto.
  - destruct (spontaneous_response_result w2 (proj1 Hw2) (proj1 (proj2 Hw2)))
      as (w3 & Hrun & Hnone & _).
    pose proof (sound_weights_step
                  EmotionalMindV3.generate_spontaneous_response sd w2
                  generate_spontaneous_response_keeps_keys
                  generate_spontaneous_response_bounded Hw2) as Hs3.
    pose proof (generate_spontaneous_response_keeps_keys w2) as Hk3.
    rewrite Hrun in Hs3, Hk3. simpl in Hs3, Hk3.
    unfold EmotionalMindV3.bind. rewrite Hrun. simpl.
    exists (name :: l), w3. split; [reflexivity|]. split; [exact Hnone|].
    split; [exact Hs3|]. now rewrite Hk3.
Qed.

Lemma delayed_analysis_leaves_no_trigger_witness :
  exists triggered w',
    EmotionalMindV3.delayed_analysis
      6 (EmotionalMindV3.states_dict test_tree) ["Гнев"] ["Сомнение"]
      [("Пустота", 0.9); ("Тревога", 0.95); ("Гнев", 0.9);
       ("Объективизация", 0.0); ("Сомнение", 0.1)]
    = (Py.Return triggered, w') /\
    EmotionalMindV3.get_triggered_states w' = [] /\
    sound_weights (EmotionalMindV3.states_dict test_tree) w' /\
    Py.keys w'
    = Py.keys [("Пустота", 0.9); ("Тревога", 0.95); ("Гнев", 0.9);
               ("Объективизация", 0.0); ("Сомнение", 0.1)].
Proof.
  apply (delayed_analysis_leaves_no_trigger
           (EmotionalMindV3.states_dict test_tree) 6 ["Гнев"] ["Сомнение"]).
  - apply (decreasing_rank_acyclic _ test_tree_rank). vm_compute. reflexivity.
  - vm_compute. lia.
  - repeat split.
    + repeat constructor; simpl; lra.
    + unfold unique_keys. simpl. repeat constructor; simpl; intuition discriminate.
Defined.

Example delayed_analysis_fires :
  EmotionalMindV3.delayed_analysis
    6 (EmotionalMindV3.states_dict test_tree) ["Гнев"] ["Сомнение"]
    [("Пустота", 0.9); ("Тревога", 0.95); ("Гнев", 0.9);
     ("Объективизация", 0.0); ("Сомнение", 0.1)]
  = (Py.Return ["Тревога"; "Гнев"],
     [("Пустота", 0.9 + 0.15 * 0.5);
      ("Тревога", Py.max 0.0 (1.0 - 0.4));
      ("Гнев", Py.max 0.0 (1.0 - 0.4));
      ("Объективизация", 0.0);
      ("Сомнение", Py.max 0.0 (0.1 - 0.15))]).
Proof. reflexivity. Qed.

Lemma only_raises_bind {A B : Type} (c : EmotionalMindV3.action A)
  (k : A -> EmotionalMindV3.action B) :
  only_raises c -> (forall a, only_raises (k a)) ->
  only_raises (EmotionalMindV3.bind c k).
Proof.
  intros Hc Hk w Hw. unfold EmotionalMindV3.bind.
  destruct (Hc w Hw) as [Hb Hgrow].
  destruct (c w) as [[a|e] w1]; simpl in *; auto.
  destruct (Hk a w1 Hb) as [Hb' Hgrow']. split; auto.
  intros x v Hv. destruct (Hgrow x v Hv) as (v1 & Hv1 & Hle1).
  destruct (Hgrow' x v1 Hv1) as (v2 & Hv2 & Hle2).
  exists v2. split; auto. lra.
Qed.

Lemma only_raises_for_each {A : Type} (l : list A)
  (body : A -> EmotionalMindV3.action unit) :
  (forall x, only_raises (body x)) -> only_raises (EmotionalMindV3.for_each l body).
Proof.
  intros Hbody. induction l as [|x l IH]; simpl.
  - intros w Hw. split; auto. intros y v Hv. exists v. split; auto. lra.
  - apply only_raises_bind; auto.
Qed.

Lemma set_raises (w : dict Q) name current delta :
  bounded w -> 0 <= delta -> Py.get w name = Some current ->
  bounded (Py.set w name (Py.min 1.0 (current + delta))) /\
  forall x v,
    Py.get w x = Some v ->
    exists v', Py.get (Py.set w name (Py.min 1.0 (current + delta))) x = Some v' /\
               v <= v'.
Proof.
  intros Hb Hdelta Hget. pose proof (bounded_get _ _ _ Hb Hget).
  split; [apply bounded_set; auto; apply py_min_cap; lra|].
  intros x v Hv. destruct (String.eqb_spec x name) as [->|Hne].
  - rewrite get_set_same. eexists. split; [reflexivity|].
    rewrite Hget in Hv. injection Hv as <-.
    unfold Py.min. destruct (Qlt_le_dec _ _); lra.
  - rewrite get_set_other by exact Hne. exists v. split; auto. lra.
Qed.

Lemma raise_weight_only_raises name delta :
  0 <= delta ->
  only_raises
    (EmotionalMindV3.bind (EmotionalMindV3.weight_of name)
       (fun current => EmotionalMindV3.store name (Py.min 1.0 (current + delta)))).
Proof.
  intros Hdelta w Hw.
  unfold EmotionalMindV3.bind, EmotionalMindV3.weight_of, EmotionalMindV3.store.
  destruct (Py.get w name) as [current|] eqn:E; simpl.
  - now apply set_raises.
  - split; auto. intros x v Hv. exists v. split; auto. lra.
Qed.

Lemma increase_state_weight_only_raises fuel sd name amount :
  0 <= amount ->
  only_raises (EmotionalMindV3.increase_state_weight fuel sd name amount).
Proof.
  intros Hamount w Hw. rewrite increase_state_weight_unfold.
  destruct (Py.get w name) as [current|] eqn:E.
  - destruct (set_raises w name current amount Hw Hamount E) as [Hb1 Hgrow1].
    cbv zeta.
    destruct (EmotionalMindV3._get_parent_states fuel sd name) as [parents|];
      [|split; auto].
    destruct (only_raises_for_each parents
                (fun parent =>
                   EmotionalMindV3.bind (EmotionalMindV3.weight_of parent)
                     (fun current =>
                        EmotionalMindV3.store parent
                          (Py.min 1.0 (current + amount * 0.5))))
                (fun parent => raise_weight_only_raises parent (amount * 0.5)
                                 ltac:(lra))
                _ Hb1) as [Hb2 Hgrow2].
    split; auto. intros x v Hv.
    destruct (Hgrow1 x v Hv) as (v1 & Hv1 & Hle1).
    destruct (Hgrow2 x v1 Hv1) as (v2 & Hv2 & Hle2).
    exists v2. split; auto. lra.
  - split; auto. intros x v Hv. exists v. split; auto. lra.
Qed.

Lemma process_message_v3_only_raises fuel sd detected_states :
  only_raises (EmotionalMindV3.process_message fuel sd detected_states).
Proof.
  apply only_raises_for_each. intros state w Hw.
  unfold EmotionalMindV3.bind, EmotionalMindV3.known.
  destruct (Py.mem w state).
  - apply increase_state_weight_only_raises; auto. lra.
  - split; auto. intros x v Hv. exists v. split; auto. lra.
Qed.

(** X13: on a graph without cycle the weight updates of [process_message]
    of ai_mind3.py return; they lower no weight, keep the states of the
    table, distinct and between 0 and 1, and leave the table as it was when
    none of the detected names is a state of the table. *)
Theorem process_message_v3_only_strengthens :
  forall sd fuel detected_states w,
    acyclic sd -> (List.length sd < fuel)%nat ->
    sound_weights sd w ->
    exists w',
      EmotionalMindV3.process_message fuel sd detected_states w
      = (Py.Return tt, w') /\
      sound_weights sd w' /\
      Py.keys w' = Py.keys w /\
      (forall x v,
          Py.get w x = Some v ->
          exists v', Py.get w' x = Some v' /\ v <= v') /\
      ((forall name, In name detected_states -> Py.get w name = None) -> w' = w).
Proof.
  intros sd fuel detected_states w Hacyclic Hfuel Hw.
  set (J := fun w0 : dict Q => sound_weights sd w0 /\ Py.keys w0 = Py.keys w).
  assert (Hbody : forall x w0,
             J w0 ->
             exists w',
               EmotionalMindV3.bind (EmotionalMindV3.known x)
                 (fun present =>
                    if present
                    then EmotionalMindV3.increase_state_weight fuel sd x 0.2
                    else EmotionalMindV3.ret tt) w0
               = (Py.Return tt, w') /\ J w').
  { intros x w0 [Hs Hk]. unfold EmotionalMindV3.bind, EmotionalMindV3.known.
    destruct (Py.mem w0 x).
    - destruct (increase_state_weight_returns sd fuel x 0.2 w0 Hacyclic Hfuel
                  ltac:(lra) Hs) as (w' & Hrun & Hs' & Hk').
      exists w'. split; [exact Hrun|]. split; [exact Hs'|]. now rewrite Hk'.
    - exists w0. split; [reflexivity|]. split; auto. }
  destruct (for_each_returns J
              (fun state =>
                 EmotionalMindV3.bind (EmotionalMindV3.known state)
                   (fun present =>
                      if present
                      then EmotionalMindV3.increase_state_weight fuel sd state 0.2
                      else EmotionalMindV3.ret tt))
              Hbody detected_states w (conj Hw eq_refl))
    as (w' & Hrun & Hs' & Hk').
  exists w'. split; [exact Hrun|]. split; [exact Hs'|]. split; [exact Hk'|]. split.
  - destruct (process_message_v3_only_raises fuel sd detected_states w (proj1 Hw))
      as [_ Hgrow].
    unfold EmotionalMindV3.process_message in Hgrow. rewrite Hrun in Hgrow.
    exact Hgrow.
  - intros Hunknown.
    assert (Hsame : EmotionalMindV3.process_message fuel sd detected_states w
                    = (Py.Return tt, w)).
    { unfold EmotionalMindV3.process_message. clear Hrun Hbody.
      induction detected_states as [|s l IH]; simpl; auto.
      unfold EmotionalMindV3.bind at 1. unfold EmotionalMindV3.bind at 1.
      unfold EmotionalMindV3.known, Py.mem.
      rewrite (Hunknown s (or_introl eq_refl)). simpl.
      apply IH. intros name Hname. apply Hunknown. now right. }
    unfold EmotionalMindV3.process_message in Hsame. rewrite Hrun in Hsame.
    now injection Hsame.
Qed.

Lemma process_message_v3_only_strengthens_witness :
  let sd := EmotionalMindV3.states_dict test_tree in
  let w := EmotionalMindV3.init_state_weights test_tree in
  exists w',
    EmotionalMindV3.process_message 6 sd ["Гнев"; "Радость"] w = (Py.Return tt, w') /\
    sound_weights sd w' /\
    Py.keys w' = Py.keys w /\
    (forall x v,
        Py.get w x = Some v ->
        exists v', Py.get w' x = Some v' /\ v <= v') /\
    ((forall name, In name ["Гнев"; "Радость"] -> Py.get w name = None) -> w' = w).
Proof.
  intros sd w.
  apply (process_message_v3_only_strengthens sd 6 ["Гнев"; "Радость"] w).
  - apply (decreasing_rank_acyclic _ test_tree_rank). vm_compute. reflexivity.
  - vm_compute. lia.
  - repeat split.
    + repeat constructor; simpl; lra.
    + unfold unique_keys. simpl. repeat constructor; simpl; intuition discriminate.
Defined.

(** X14: when the state is its own ancestor, [increase_state_weight] raises
    [RecursionError] at every depth, after it has raised the weight of the
    state itself and before it raises any ancestor. *)
Theorem increase_on_cycle_raises_after_first_update :
  forall sd w state_name amount fuel current,
    ancestor sd state_name state_name ->
    Py.get w state_name = Some current ->
    EmotionalMindV3.increase_state_weight fuel sd state_name amount w
    = (Py.Raise Py.RecursionError,
       Py.set w state_name (Py.min 1.0 (current + amount))).
Proof.
  intros sd w s amount fuel current Hloop Hget.
  rewrite increase_state_weight_unfold, Hget. cbv zeta.
  now rewrite (parent_states_diverges sd s Hloop fuel).
Qed.

Lemma increase_on_cycle_raises_after_first_update_witness :
  EmotionalMindV3.increase_state_weight
    100 (EmotionalMindV3.states_dict cyclic_tree) "Гнев" 0.2
    (EmotionalMindV3.init_state_weights cyclic_tree)
  = (Py.Raise Py.RecursionError,
     Py.set (EmotionalMindV3.init_state_weights cyclic_tree) "Гнев"
            (Py.min 1.0 (0.0 + 0.2))).
Proof.
  apply (increase_on_cycle_raises_after_first_update
           (EmotionalMindV3.states_dict cyclic_tree)
           (EmotionalMindV3.init_state_weights cyclic_tree) "Гнев" 0.2 100%nat 0.0).
  - assert (Hedge : forall s c node,
               Py.get (EmotionalMindV3.states_dict cyclic_tree) s = Some node ->
               In c (node_conditions node) ->
               Py.mem (EmotionalMindV3.states_dict cyclic_tree) c = true ->
               parent_edge (EmotionalMindV3.states_dict cyclic_tree) s c).
    { intros s c node ? ? ?. exists node. auto. }
    apply ancestor_step with "Тревога";
      [eapply Hedge; [reflexivity|simpl; auto|reflexivity]|].
    apply ancestor_step with "Пустота";
      [eapply Hedge; [reflexivity|simpl; auto|reflexivity]|].
    apply ancestor_parent. eapply Hedge; [reflexivity|simpl; auto|reflexivity].
  - reflexivity.
Defined.

(** ** ai_mind3.py: the heaviest states *)

Lemma insert_by_weight_perm x l :
  Permutation (TopStates.insert_by_weight x l) (x :: l).
Proof.
  induction l as [|y l IH]; simpl; auto.
  destruct (Qlt_le_dec (snd x) (snd y)); auto.
  rewrite IH. apply perm_swap.
Qed.

Lemma sorted_states_perm w : Permutation (TopStates.sorted_states w) w.
Proof.
  induction w as [|x w IH]; simpl; auto.
  rewrite insert_by_weight_perm. now constructor.
Qed.

Lemma insert_by_weight_sorted x l :
  StronglySorted (fun a b : string * Q => snd b <= snd a) l ->
  StronglySorted (fun a b : string * Q => snd b <= snd a)
                 (TopStates.insert_by_weight x l).
Proof.
  induction 1 as [|y l Hl IH Hy]; simpl.
  - repeat constructor.
  - destruct (Qlt_le_dec (snd x) (snd y)) as [Hlt|Hle].
    + constructor; auto.
      apply (Permutation_Forall (Permutation_sym (insert_by_weight_perm x l))).
      constructor; auto. lra.
    + constructor; [constructor; auto|].
      constructor; auto.
      eapply Forall_impl; [|exact Hy]. simpl. intros z Hz. lra.
Qed.

Lemma sorted_states_sorted w :
  StronglySorted (fun a b : string * Q => snd b <= snd a) (TopStates.sorted_states w).
Proof.
  induction w as [|x w IH]; simpl; [constructor|].
  now apply insert_by_weight_sorted.
Qed.

Lemma In_firstn {A : Type} n (l : list A) x : In x (firstn n l) -> In x l.
Proof.
  revert l. induction n as [|n IH]; intros [|y l]; simpl; try tauto.
  intros [H|H]; auto.
Qed.

Lemma StronglySorted_firstn {A : Type} (R : A -> A -> Prop) n l :
  StronglySorted R l -> StronglySorted R (firstn n l).
Proof.
  intros H. revert n. induction H as [|y l Hl IH Hy]; intros [|n]; simpl;
    try constructor; auto.
  apply Forall_forall. intros x Hx. apply In_firstn in Hx.
  rewrite Forall_forall in Hy. auto.
Qed.

Lemma StronglySorted_keep {A : Type} (R : A -> A -> Prop) (f : A -> bool) l :
  StronglySorted R l -> StronglySorted R (filter f l).
Proof.
  induction 1 as [|y l Hl IH Hy]; simpl; [constructor|].
  destruct (f y); auto. constructor; auto.
  apply Forall_forall. intros x Hx. apply filter_In in Hx as [Hx _].
  rewrite Forall_forall in Hy. auto.
Qed.

Lemma StronglySorted_across {A : Type} (R : A -> A -> Prop) l1 l2 :
  StronglySorted R (l1 ++ l2) ->
  forall a b, In a l1 -> In b l2 -> R a b.
Proof.
  induction l1 as [|x l1 IH]; simpl; intros H a b Ha Hb; [destruct Ha|].
  inversion H as [|? ? Hl Hx]; subst. destruct Ha as [<-|Ha]; auto.
  rewrite Forall_forall in Hx. apply Hx. apply in_or_app. now right.
Qed.

(** X15: [get_top_states(n)] returns at most [n] entries of the table, by
    decreasing weight, each heavier than 0.1; an entry of the table that is
    not returned is no heavier than any entry returned. *)
Theorem top_states_are_the_heaviest :
  forall n w,
    (List.length (TopStates.get_top_states n w) <= n)%nat /\
    StronglySorted (fun a b : string * Q => snd b <= snd a)
                   (TopStates.get_top_states n w) /\
    (forall item,
        In item (TopStates.get_top_states n w) -> In item w /\ 0.1 < snd item) /\
    (forall returned other,
        In returned (TopStates.get_top_states n w) ->
        In other w ->
        In other (TopStates.get_top_states n w) \/ snd other <= snd returned).
Proof.
  intros n w. unfold TopStates.get_top_states.
  set (keep := fun item : string * Q =>
                 if Qlt_le_dec 0.1 (snd item) then true else false).
  assert (Hkeep : forall item, keep item = true <-> 0.1 < snd item).
  { intros item. unfold keep. destruct (Qlt_le_dec 0.1 (snd item)); split;
      auto; try discriminate. lra. }
  repeat split.
  - etransitivity; [apply filter_length_le|apply firstn_le_length].
  - apply StronglySorted_keep, StronglySorted_firstn, sorted_states_sorted.
  - apply filter_In in H as [H _]. apply In_firstn in H.
    now apply (Permutation_in _ (sorted_states_perm w)).
  - apply filter_In in H as [_ H]. now apply Hkeep.
  - intros returned other Hr Ho.
    apply filter_In in Hr as [Hr Hheavy]. apply Hkeep in Hheavy.
    apply (Permutation_in _ (Permutation_sym (sorted_states_perm w))) in Ho.
    rewrite <- (firstn_skipn n (TopStates.sorted_states w)) in Ho.
    apply in_app_or in Ho as [Ho|Ho].
    + destruct (Qlt_le_dec 0.1 (snd other)) as [Hh|Hl].
      * left. apply filter_In. split; auto. now apply Hkeep.
      * right. lra.
    + right.
      pose proof (sorted_states_sorted w) as Hs.
      rewrite <- (firstn_skipn n (TopStates.sorted_states w)) in Hs.
      exact (StronglySorted_across _ _ _ Hs returned other Hr Ho).
Qed.

Example top_states_of_a_table :
  TopStates.get_top_states
    3 [("Пустота", 0.5); ("Тревога", 0.9); ("Гнев", 0.5);
       ("Объективизация", 0.05); ("Сомнение", 0.9)]
  = [("Тревога", 0.9); ("Сомнение", 0.9); ("Пустота", 0.5)] /\
  TopStates.get_top_states 3 [("Пустота", 0.1); ("Тревога", 0.0)] = [].
Proof. split; reflexivity. Qed.

(** ** Pressure *)

Lemma pressure_value table active :
  EmotionalMind.calculate_pressure_with table active
  == Qmin 1.0 (weighted_sum table active).
Proof.
  unfold EmotionalMind.calculate_pressure_with.
  rewrite py_min_Qmin. apply Q.min_compat; [reflexivity|].
  rewrite pressure_loop. ring.
Qed.

Lemma urgency_weight_nonneg table state :
  Forall (fun item : string * Q => 0 <= snd item) table ->
  0 <= EmotionalMind.urgency_weight table state.
Proof.
  intros Htable. unfold EmotionalMind.urgency_weight.
  destruct (Py.get table state) as [weight|] eqn:E; [|lra].
  apply get_In in E. rewrite Forall_forall in Htable. exact (Htable _ E).
Qed.

Lemma urgency_weights_nonneg :
  Forall (fun item : string * Q => 0 <= snd item) EmotionalMind.urgency_weights.
Proof. repeat constructor; simpl; lra. Qed.

Lemma weighted_sum_nonneg table active :
  Forall (fun item : string * Q => 0 <= snd item) table ->
  Forall (fun item : string * Q => 0 <= snd item) active ->
  0 <= weighted_sum table active.
Proof.
  intros Htable. induction 1 as [|[state level] active Hlevel _ IH]; simpl; [lra|].
  pose proof (urgency_weight_nonneg table state Htable). simpl in Hlevel. nra.
Qed.

Lemma weighted_sum_monotone table a b :
  Forall (fun item : string * Q => 0 <= snd item) table ->
  pointwise_le a b -> weighted_sum table a <= weighted_sum table b.
Proof.
  intros Htable. induction 1 as [|[k v] [k' v'] a b [Hk Hv] _ IH]; simpl; [lra|].
  simpl in Hk, Hv. subst k'.
  pose proof (urgency_weight_nonneg table k Htable). nra.
Qed.

(** X16: the pressure of ai_mind2.py never exceeds 1.0; it is not negative
    when no level is, and it is 0 for the empty store. *)
Theorem pressure_is_bounded :
  forall active,
    EmotionalMind.calculate_pressure active <= 1 /\
    (Forall (fun item : string * Q => 0 <= snd item) active ->
     0 <= EmotionalMind.calculate_pressure active) /\
    EmotionalMind.calculate_pressure [] == 0.
Proof.
  intros active. unfold EmotionalMind.calculate_pressure.
  split; [|split].
  - rewrite pressure_value. eapply Qle_trans; [apply Q.le_min_l|lra].
  - intros Hactive. rewrite pressure_value.
    pose proof (weighted_sum_nonneg _ _ urgency_weights_nonneg Hactive).
    apply Q.min_glb; lra.
  - reflexivity.
Qed.

(** X17: the pressure of ai_mind2.py is monotone: raising levels of the
    store never lowers it. *)
Theorem pressure_is_monotone :
  forall a b,
    pointwise_le a b ->
    EmotionalMind.calculate_pressure a <= EmotionalMind.calculate_pressure b.
Proof.
  intros a b Hab. unfold EmotionalMind.calculate_pressure.
  rewrite !pressure_value.
  apply Q.min_le_compat_l.
  now apply weighted_sum_monotone; [apply urgency_weights_nonneg|].
Qed.

Lemma pressure_is_monotone_witness :
  EmotionalMind.calculate_pressure [("Гнев", 0.3); ("Пустота", 0.2)]
  <= EmotionalMind.calculate_pressure [("Гнев", 0.5); ("Пустота", 0.2)].
Proof.
  apply (pressure_is_monotone [("Гнев", 0.3); ("Пустота", 0.2)]
                              [("Гнев", 0.5); ("Пустота", 0.2)]).
  repeat constructor; simpl; lra.
Defined.


Example weight_experiment_scenarios :
  WeightSystemTest.should_respond 0.7 [("Гнев", 0.8)] = true /\
  WeightSystemTest.should_respond 0.7 [("Сомнение", 0.9)] = false /\
  WeightSystemTest.should_respond 0.7 [("Уточнение", 0.5); ("Тревога", 0.4)] = false /\
  WeightSystemTest.should_respond 0.7 [("О грёзах", 0.95)] = false.
Proof. repeat split. Qed.

(** ** The state graph in ai_mind2.py and ai_mind3.py *)

Lemma find_last {A : Type} (f : A -> bool) l x :
  find f (l ++ [x]) =
  match find f l with
  | Some y => Some y
  | None => if f x then Some x else None
  end.
Proof.
  induction l as [|y l IH]; simpl; auto. destruct (f y); auto.
Qed.

Lemma get_table_of_tree {V : Type} (f : state_node -> V) tree :
  forall (d : dict V) name,
    Py.get (fold_left (fun d state => Py.set d (node_name state) (f state)) tree d)
           name
    = match last_node tree name with
      | Some node => Some (f node)
      | None => Py.get d name
      end.
Proof.
  unfold last_node. induction tree as [|x tree IH]; intros d name; simpl; auto.
  rewrite IH, find_last.
  destruct (find _ (rev tree)); auto.
  destruct (String.eqb_spec name (node_name x)) as [->|Hne].
  - apply get_set_same.
  - now apply get_set_other.
Qed.

Lemma tables_keep_the_last_node_helper tree name :
  Py.get (EmotionalMindV3.states_dict tree) name = last_node tree name /\
  Py.get (EmotionalMindV3.init_state_weights tree) name
  = option_map (fun node => match node_weight node with
                            | Some weight => weight
                            | None => 0.0
                            end)
               (last_node tree name).
Proof.
  split.
  - unfold EmotionalMindV3.states_dict.
    rewrite (get_table_of_tree (fun state => state)).
    now destruct (last_node tree name).
  - unfold EmotionalMindV3.init_state_weights.
    rewrite (get_table_of_tree
               (fun state => match node_weight state with
                             | Some w => w
                             | None => 0.0
                             end)).
    now destruct (last_node tree name).
Qed.

(** X19: when several nodes of the tree carry one name, the tables that
    [__init__] of ai_mind3.py builds keep the last of them: its conditions
    in [states_dict], its weight (0.0 when it gives none) in
    [state_weights]. *)
Theorem tables_keep_the_last_node :
  forall tree name,
    Py.get (EmotionalMindV3.states_dict tree) name = last_node tree name /\
    Py.get (EmotionalMindV3.init_state_weights tree) name
    = option_map (fun node => match node_weight node with
                              | Some weight => weight
                              | None => 0.0
                              end)
                 (last_node tree name).
Proof. exact tables_keep_the_last_node_helper. Qed.

Example duplicate_name_in_tree :
  let tree := [ mk_node "Гнев" ["Тревога"] (Some 0.5);
                mk_node "Тревога" [] None;
                mk_node "Гнев" [] None ] in
  Py.get (EmotionalMindV3.states_dict tree) "Гнев" = Some (mk_node "Гнев" [] None) /\
  Py.keys (EmotionalMindV3.states_dict tree) = ["Гнев"; "Тревога"] /\
  EmotionalMind.find_children tree "Тревога" = ["Гнев"].
Proof. repeat split. Qed.

Lemma NoDup_names_inj tree a b :
  NoDup (map node_name tree) ->
  In a tree -> In b tree -> node_name a = node_name b -> a = b.
Proof.
  induction tree as [|x tree IH]; simpl; [tauto|].
  intros Hnd Ha Hb Hname. inversion Hnd as [|? ? Hnotin Hnd']; subst.
  destruct Ha as [<-|Ha], Hb as [<-|Hb]; auto.
  - exfalso. apply Hnotin. rewrite Hname. now apply in_map.
  - exfalso. apply Hnotin. rewrite <- Hname. now apply in_map.
Qed.

Lemma last_node_spec tree name node :
  NoDup (map node_name tree) ->
  (last_node tree name = Some node <-> In node tree /\ node_name node = name).
Proof.
  intros Hnd. unfold last_node. split.
  - intros H. apply find_some in H as [Hin Heq].
    apply String.eqb_eq in Heq. split; auto. now apply in_rev.
  - intros [Hin Hname].
    destruct (find _ (rev tree)) as [node'|] eqn:E.
    + apply find_some in E as [Hin' Heq]. apply String.eqb_eq in Heq.
      apply in_rev in Hin'. f_equal.
      apply (NoDup_names_inj tree); auto. congruence.
    + apply find_none with (x := node) in E; [|now apply -> in_rev].
      rewrite Hname, String.eqb_refl in E. discriminate.
Qed.

Lemma last_node_known tree name :
  In name (map node_name tree) -> exists node, last_node tree name = Some node.
Proof.
  intros H. apply in_map_iff in H as (node & Hname & Hin).
  unfold last_node. destruct (find _ (rev tree)) as [node'|] eqn:E; eauto.
  apply find_none with (x := node) in E; [|now apply -> in_rev].
  rewrite Hname, String.eqb_refl in E. discriminate.
Qed.

(** X20: on a tree whose names are distinct, the children that
    [find_children] of ai_mind2.py lists for a defined state are exactly the
    states that have it as a direct parent in the graph that
    [_get_parent_states] of ai_mind3.py follows. *)
Theorem children_are_reversed_parent_edges :
  forall tree parent child,
    NoDup (map node_name tree) ->
    (parent_edge (EmotionalMindV3.states_dict tree) child parent <->
     In child (EmotionalMind.find_children tree parent) /\
     In parent (map node_name tree)).
Proof.
  intros tree parent child Hnd. unfold parent_edge.
  assert (Hmem : Py.mem (EmotionalMindV3.states_dict tree) parent = true <->
                 In parent (map node_name tree)).
  { unfold Py.mem.
    rewrite (proj1 (tables_keep_the_last_node_helper tree parent)). split.
    - destruct (last_node tree parent) as [node|] eqn:E; [|discriminate].
      intros _. apply (last_node_spec _ _ _ Hnd) in E as [Hin <-].
      now apply in_map.
    - intros H. apply last_node_known in H as [node ->]. reflexivity. }
  rewrite find_children_spec. split.
  - intros (node & Hget & Hcond & Hp).
    rewrite (proj1 (tables_keep_the_last_node_helper tree child)) in Hget.
    apply (last_node_spec _ _ _ Hnd) in Hget as [Hin Hname].
    split; [|now apply Hmem]. exists node. auto.
  - intros [(node & Hin & Hname & Hcond) Hp]. exists node. repeat split; auto.
    + rewrite (proj1 (tables_keep_the_last_node_helper tree child)).
      now apply (last_node_spec _ _ _ Hnd).
    + now apply Hmem.
Qed.

Lemma children_are_reversed_parent_edges_witness :
  parent_edge (EmotionalMindV3.states_dict test_tree) "Гнев" "Тревога" <->
  In "Гнев" (EmotionalMind.find_children test_tree "Тревога") /\
  In "Тревога" (map node_name test_tree).
Proof.
  apply (children_are_reversed_parent_edges test_tree "Тревога" "Гнев").
  simpl. repeat constructor; simpl; intuition discriminate.
Defined.

(** ** ai_mind2.py: the knowledge base *)

Lemma number_of_zeros k s :
  number_of_digits (WorldModel.zeros k ++ s) = number_of_digits s.
Proof.
  unfold number_of_digits. induction k as [|k IH]; simpl; auto.
  destruct (NilEmpty.uint_of_string (WorldModel.zeros k ++ s)) as [d|];
    destruct (NilEmpty.uint_of_string s) as [d'|]; simpl in *; try discriminate; auto.
Qed.

Lemma number_of_format n : number_of_digits (WorldModel.format_04d n) = Some n.
Proof.
  unfold WorldModel.format_04d, WorldModel.zero_pad.
  rewrite number_of_zeros. unfold number_of_digits.
  rewrite NilEmpty.usu. simpl. now rewrite Unsigned.of_to.
Qed.

Lemma append_same_prefix p a b : (p ++ a = p ++ b)%string -> a = b.
Proof.
  induction p as [|c p IH]; simpl; auto. intros H. injection H as H. auto.
Qed.

Lemma concept_id_for_inj i j :
  WorldModel.concept_id_for i = WorldModel.concept_id_for j -> i = j.
Proof.
  unfold WorldModel.concept_id_for. intros H. apply append_same_prefix in H.
  pose proof (number_of_format i) as Hi. rewrite H, number_of_format in Hi.
  now injection Hi.
Qed.

Lemma add_concept_numbered world new :
  well_numbered world -> well_numbered (WorldModel.add_concept world new).
Proof.
  intros Hw i c. destruct new as [c0 now]. unfold WorldModel.add_concept.
  destruct (Nat.lt_ge_cases i (List.length world)) as [Hlt|Hge].
  - rewrite nth_error_app1 by exact Hlt. apply Hw.
  - rewrite nth_error_app2 by exact Hge.
    destruct (i - List.length world)%nat as [|k] eqn:E; simpl.
    + intros [= <-]. simpl. do 2 f_equal. lia.
    + destruct k; discriminate.
Qed.

Lemma well_numbered_distinct world :
  well_numbered world -> NoDup (map WorldModel.concept_id world).
Proof.
  intros Hw. apply NoDup_nth_error. intros i j Hi Heq.
  rewrite length_map in Hi. rewrite !nth_error_map in Heq.
  destruct (nth_error world i) as [c|] eqn:Ec;
    [|apply nth_error_None in Ec; lia].
  destruct (nth_error world j) as [c'|] eqn:Ec'; [|discriminate].
  simpl in Heq. rewrite (Hw _ _ Ec), (Hw _ _ Ec') in Heq.
  apply concept_id_for_inj. congruence.
Qed.

Lemma add_concepts_extend new_concepts :
  forall world,
    exists added,
      fold_left WorldModel.add_concept new_concepts world = world ++ added /\
      List.length added = List.length new_concepts /\
      map WorldModel.concept_name added
      = map (fun new => WorldModel.concept_name (fst new)) new_concepts /\
      Forall (fun c => WorldModel.concept_source c = Some "dialogue") added.
Proof.
  induction new_concepts as [|[c now] l IH]; intros world; cbn [fold_left].
  - exists []. rewrite app_nil_r. repeat split; auto.
  - destruct (IH (WorldModel.add_concept world (c, now)))
      as (added & Hrun & Hlen & Hnames & Hsrc).
    eexists. split.
    { rewrite Hrun. unfold WorldModel.add_concept. rewrite <- app_assoc.
      reflexivity. }
    simpl. split; [now f_equal|]. split; [now f_equal|].
    constructor; auto.
Qed.

(** X21: [update_world_model] only appends: the concepts held before stay
    in place, one concept is added for each new one, with the source
    "dialogue"; and in a store numbered from the empty one every concept
    carries the identifier made from its index, so that no two concepts
    share an identifier, also past 9999 concepts. *)
Theorem world_model_identifiers_are_distinct :
  forall new_concepts world,
    well_numbered world ->
    let world' := fst (WorldModel.update_world_model new_concepts world) in
    well_numbered world' /\
    NoDup (map WorldModel.concept_id world') /\
    exists added,
      world' = world ++ added /\
      List.length added = List.length new_concepts /\
      map WorldModel.concept_name added
      = map (fun new => WorldModel.concept_name (fst new)) new_concepts /\
      Forall (fun c => WorldModel.concept_source c = Some "dialogue") added.
Proof.
  intros new_concepts world Hw. simpl.
  assert (Hnum : well_numbered (fold_left WorldModel.add_concept new_concepts world)).
  { apply (fold_left_invariant well_numbered); auto.
    intros; now apply add_concept_numbered. }
  split; [exact Hnum|]. split; [now apply well_numbered_distinct|].
  apply add_concepts_extend.
Qed.

Lemma world_model_identifiers_are_distinct_witness :
  let new_concepts :=
    [ (WorldModel.mk_concept (Some "ошибка") (Some ["вина"]) None None None,
       "2025-01-01T10:00:00");
      (WorldModel.mk_concept (Some "ошибка") None (Some "concept_0000") None None,
       "2025-01-01T10:00:01") ] in
  let world' := fst (WorldModel.update_world_model new_concepts []) in
  well_numbered world' /\
  NoDup (map WorldModel.concept_id world') /\
  exists added,
    world' = [] ++ added /\
    List.length added = List.length new_concepts /\
    map WorldModel.concept_name added
    = map (fun new => WorldModel.concept_name (fst new)) new_concepts /\
    Forall (fun c => WorldModel.concept_source c = Some "dialogue") added.
Proof.
  intros new_concepts.
  apply (world_model_identifiers_are_distinct new_concepts []).
  intros i c H. destruct i; discriminate H.
Defined.

Example concept_identifiers :
  WorldModel.concept_id_for 0 = "concept_0000" /\
  WorldModel.concept_id_for 42 = "concept_0042" /\
  WorldModel.concept_id_for (123 * 100 + 45) = "concept_12345".
Proof. repeat split. Qed.

Lemma contains_empty hay : WorldModel.contains hay "" = true.
Proof. destruct hay; reflexivity. Qed.

Lemma filter_all {A : Type} (f : A -> bool) l :
  (forall x, In x l -> f x = true) -> filter f l = l.
Proof.
  induction l as [|x l IH]; simpl; auto. intros H.
  rewrite (H x (or_introl eq_refl)). f_equal. auto.
Qed.

(** X22: with an empty query, which is what [generate_response] passes when
    no state is above 0.3, [find_relevant_concepts] matches every concept
    and returns the names of the first five concepts of the store, joined
    by ", ". *)
Theorem empty_query_returns_first_concepts :
  forall (lower : string -> string) world,
    lower "" = "" ->
    WorldModel.find_relevant_concepts lower "" world
    = String.concat ", " (firstn 5 (map WorldModel.name_of world)).
Proof.
  intros lower world Hlower.
  unfold WorldModel.find_relevant_concepts, WorldModel.relevant.
  rewrite filter_all.
  - now destruct (map WorldModel.name_of world).
  - intros c _. unfold WorldModel.is_relevant.
    now rewrite Hlower, contains_empty.
Qed.

Lemma empty_query_returns_first_concepts_witness :
  let world :=
    [ WorldModel.mk_concept (Some "ошибка") (Some ["вина"]) None None None;
      WorldModel.mk_concept None None None None None ] in
  WorldModel.find_relevant_concepts (fun s => s) "" world
  = String.concat ", " (firstn 5 (map WorldModel.name_of world)).
Proof.
  intros world.
  apply (empty_query_returns_first_concepts (fun s => s) world).
  reflexivity.
Defined.

(** ** ai_mind1.py: activation in the first engine *)

Lemma activate_state_v1_sound a state :
  bounded a -> unique_keys a ->
  bounded (EmotionalMindV1.activate_state a state) /\
  unique_keys (EmotionalMindV1.activate_state a state).
Proof.
  intros Hb Hu. unfold EmotionalMindV1.activate_state.
  destruct (Py.get a state) as [current|] eqn:E.
  - pose proof (bounded_get _ _ _ Hb E). split.
    + apply bounded_set; auto. apply py_min_cap. lra.
    + now apply unique_keys_set.
  - split; [apply bounded_set; auto; lra | now apply unique_keys_set].
Qed.

Lemma deactivate_state_v1_sound a state :
  bounded a -> unique_keys a ->
  bounded (EmotionalMindV1.deactivate_state a state) /\
  unique_keys (EmotionalMindV1.deactivate_state a state).
Proof.
  intros Hb Hu. unfold EmotionalMindV1.deactivate_state.
  destruct (Py.get a state) as [current|] eqn:E; auto.
  pose proof (bounded_get _ _ _ Hb E). split.
  - apply bounded_set; auto. lra.
  - now apply unique_keys_set.
Qed.

Lemma activate_state_v1_sets a state :
  bounded a ->
  exists level,
    Py.get (EmotionalMindV1.activate_state a state) state = Some level /\
    0.4 <= level.
Proof.
  intros Hb. unfold EmotionalMindV1.activate_state.
  destruct (Py.get a state) as [current|] eqn:E.
  - pose proof (bounded_get _ _ _ Hb E).
    eexists. split; [apply get_set_same|].
    unfold Py.min. destruct (Qlt_le_dec (current + 0.4) 1.0); lra.
  - eexists. split; [apply get_set_same|]. lra.
Qed.

Lemma activate_state_v1_keeps a other state level :
  bounded a -> Py.get a state = Some level -> 0.4 <= level ->
  exists level',
    Py.get (EmotionalMindV1.activate_state a other) state = Some level' /\
    0.4 <= level'.
Proof.
  intros Hb Hget Hlevel. destruct (String.eqb_spec state other) as [->|Hne].
  - now apply activate_state_v1_sets.
  - exists level. split; auto. unfold EmotionalMindV1.activate_state.
    destruct (Py.get a other); now rewrite get_set_other.
Qed.

Lemma activate_loop_v1_keeps acts state :
  forall a level,
    bounded a -> unique_keys a ->
    Py.get a state = Some level -> 0.4 <= level ->
    exists level',
      Py.get (fold_left EmotionalMindV1.activate_state acts a) state
      = Some level' /\ 0.4 <= level'.
Proof.
  induction acts as [|other acts IH]; intros a level Hb Hu Hget Hlevel;
    cbn [fold_left].
  - now exists level.
  - destruct (activate_state_v1_keeps a other state level Hb Hget Hlevel)
      as (level' & Hget' & Hlevel').
    destruct (activate_state_v1_sound a other Hb Hu) as [Hb' Hu'].
    exact (IH _ _ Hb' Hu' Hget' Hlevel').
Qed.

Lemma activate_loop_v1_sets acts state :
  forall a,
    bounded a -> unique_keys a -> In state acts ->
    exists level,
      Py.get (fold_left EmotionalMindV1.activate_state acts a) state
      = Some level /\ 0.4 <= level.
Proof.
  induction acts as [|other acts IH]; intros a Hb Hu Hin; [destruct Hin|].
  cbn [fold_left].
  destruct (activate_state_v1_sound a other Hb Hu) as [Hb' Hu'].
  destruct Hin as [->|Hin].
  - destruct (activate_state_v1_sets a state Hb) as (level & Hget & Hlevel).
    exact (activate_loop_v1_keeps acts state _ level Hb' Hu' Hget Hlevel).
  - now apply IH.
Qed.

(** X23: in ai_mind1.py a state that the classifier asks to activate is in
    the store at the end of [update_activation], at a level of at least
    0.38, also when the same answer asks to deactivate it: deactivation runs
    first and the decay of the same call cannot delete it.  Every level that
    the call leaves in the store is at least 0.1. *)
Theorem activation_outlives_the_call :
  forall states_to_activate states_to_deactivate active state,
    bounded active -> unique_keys active ->
    In state states_to_activate ->
    let active' :=
      EmotionalMindV1.update_activation states_to_activate states_to_deactivate
                                        active in
    at_least_epsilon active' /\
    exists level, Py.get active' state = Some level /\ 0.38 <= level.
Proof.
  intros acts deacts active state Hb Hu Hin.
  unfold EmotionalMindV1.update_activation. cbv zeta.
  set (active1 := fold_left EmotionalMindV1.deactivate_state deacts active).
  assert (H1 : bounded active1 /\ unique_keys active1).
  { apply (fold_left_invariant (fun a => bounded a /\ unique_keys a)); auto.
    intros a s _ [Ha Ha']. now apply deactivate_state_v1_sound. }
  destruct H1 as [Hb1 Hu1].
  set (active2 := fold_left EmotionalMindV1.activate_state acts active1).
  assert (H2 : bounded active2 /\ unique_keys active2).
  { apply (fold_left_invariant (fun a => bounded a /\ unique_keys a)); auto.
    intros a s _ [Ha Ha']. now apply activate_state_v1_sound. }
  destruct H2 as [Hb2 Hu2].
  pose proof (fade_loop (fun _ => 0.95) active2 [] Hu2) as Hfade.
  cbn [app] in Hfade. rewrite Hfade.
  split; [apply attenuate_epsilon|].
  destruct (activate_loop_v1_sets acts state active1 Hb1 Hu1 Hin)
    as (level & Hget & Hlevel).
  fold active2 in Hget.
  rewrite (get_attenuate _ _ _ Hu2), Hget.
  destruct (Qlt_le_dec (level * 0.95) 0.1) as [Hlow|_]; [lra|].
  eexists. split; [reflexivity|]. lra.
Qed.

Lemma activation_outlives_the_call_witness :
  let active := [("Гнев", 0.2); ("Тревога", 0.1)] in
  let active' :=
    EmotionalMindV1.update_activation ["Гнев"; "Вывод"] ["Гнев"; "Тревога"]
                                      active in
  at_least_epsilon active' /\
  exists level, Py.get active' "Гнев" = Some level /\ 0.38 <= level.
Proof.
  intros active.
  apply (activation_outlives_the_call ["Гнев"; "Вывод"] ["Гнев"; "Тревога"]
                                      active "Гнев").
  - repeat constructor; simpl; lra.
  - repeat constructor; simpl; intros H; repeat destruct H as [H|H];
      try discriminate H; auto.
  - simpl. auto.
Defined.
